(** * Switch allocation of the split input-queued router

    A shallow embedding of [IQRouterSplit::_Alloc]
    (src/routers/iq_router_split.cpp) and the properties of its three phases:
    slow-path request building, fast-path request building, and grant
    resolution with flit transfer and credit emission.

    Conventions.
    - A C++ [int] is a [Z].  Every quantity is an index, a count, a priority
      or the sentinel [-1]; signed overflow is undefined in C++, so there is no
      wrap-around to write out.  [%] and [/] are the truncating [Z.rem] and
      [Z.quot].
    - A [std::vector] is a [list] read with [vget] and written with [vset].
      The source indexes its vectors unchecked; [vget] reads the type's
      default value out of range and [vset] leaves the vector alone there.
    - [assert(e)] aborts the program: a failed assertion is the [Abort]
      result, tagged with the assertion that failed.
    - The watch log ([gWatchOut], [cout]) and the power monitors have no
      effect on control flow or on the router and are left out.
    - Calls into the collaborators (allocator, downstream tracker, pipelines)
      are recorded, oldest first, in a trace of [event]s. *)

From Stdlib Require Import ZArith Bool Lia.
From stdpp Require Import base list list_numbers gmap.

Local Open Scope Z_scope.

(** ** Vectors *)

Definition vget {A} `{Inhabited A} (v : list A) (i : Z) : A :=
  if i <? 0 then inhabitant else v !!! Z.to_nat i.

Definition vset {A} (v : list A) (i : Z) (x : A) : list A :=
  if i <? 0 then v else <[Z.to_nat i := x]> v.

(** ** Assertions and the abort result *)

Inductive assertion : Set :=
| A_rr_slot            (* line 96:  (vc % _input_speedup) == s *)
| A_front_flit         (* lines 112, 252, 457, 632: f *)
| A_expanded_input     (* line 151 *)
| A_active_has_route   (* lines 165, 324 *)
| A_single_fast_vc     (* line 287: fast_path_vcs[input] < 0 *)
| A_hold_nonneg        (* line 436 *)
| A_fast_flag          (* lines 472, 629 *)
| A_fast_front         (* line 473 *)
| A_sel_vc             (* line 530: sel_vc > -1 *)
| A_not_empty          (* line 554 *)
| A_output_port        (* line 555 *)
| A_not_full           (* line 559 *)
| A_flit_vc.           (* line 592: vc == f->vc *)

Inductive result (A : Type) : Type :=
| Ok (a : A)
| Abort (why : assertion).
Arguments Ok {A} a.
Arguments Abort {A} why.

#[global] Instance result_ret : MRet result := fun A a => Ok a.
#[global] Instance result_bind : MBind result := fun A B k m =>
  match m with
  | Ok a => k a
  | Abort w => Abort w
  end.

Definition assert (b : bool) (w : assertion) : result unit :=
  if b then Ok tt else Abort w.

(** ** Loops with [break] and [continue] *)

Inductive ctl (S : Type) : Type :=
| Continue (s : S)
| Break (s : S).
Arguments Continue {S} s.
Arguments Break {S} s.

(** [for (i in idxs) body]: [Continue] goes on to the next index (the end of
    the body or a [continue] statement), [Break] leaves the loop. *)
Fixpoint for_loop {S} (body : Z -> S -> result (ctl S)) (idxs : list Z) (s : S)
  : result S :=
  match idxs with
  | [] => Ok s
  | i :: rest =>
      match body i s with
      | Abort w => Abort w
      | Ok (Break s') => Ok s'
      | Ok (Continue s') => for_loop body rest s'
      end
  end.

(** ** Flits, virtual channels, buffers *)

Record Flit : Set := mkFlit {
  f_id : Z;
  f_vc : Z;
  f_from_router : Z;
  f_hops : Z;
  f_tail : bool
}.

Inductive eVCState : Set := idle | vc_alloc | active.

Definition eVCState_eqb (a b : eVCState) : bool :=
  match a, b with
  | idle, idle | vc_alloc, vc_alloc | active, active => true
  | _, _ => false
  end.

(** Modelled from the spec: the route set (class [OutputSet], not in this
    file) is the list of legal (output, output VC, priority) triples;
    [NumVCs] counts the candidates at an output and [GetVC] returns the
    candidate at an index together with its priority. *)
Definition OutputSet : Set := list (Z * Z * Z).

Definition candidates (rs : OutputSet) (output : Z) : list (Z * Z) :=
  omap (fun t => let '(o, v, p) := t in
                 if o =? output then Some (v, p) else None) rs.

Definition NumVCs (rs : OutputSet) (output : Z) : Z :=
  Z.of_nat (length (candidates rs output)).

Definition GetVC (rs : OutputSet) (output vc_index : Z) : Z * Z :=
  vget (candidates rs output) vc_index.

(** Modelled from the spec: the per-VC store of an input port (classes
    [Buffer] and [VC], not in this file): state, time in state, queued flits,
    route set, assigned output port and output VC, priority. *)
Record VC : Set := mkVC {
  vc_state : eVCState;
  vc_state_time : Z;
  vc_flits : list Flit;
  vc_route_set : OutputSet;
  vc_out_port : Z;
  vc_out_vc : Z;
  vc_pri : Z
}.

#[global] Instance VC_inhabited : Inhabited VC :=
  populate (mkVC idle 0 [] [] (-1) (-1) 0).

Definition Buffer : Set := list VC.

Definition GetState (b : Buffer) (vc : Z) : eVCState := vc_state (vget b vc).
Definition GetStateTime (b : Buffer) (vc : Z) : Z := vc_state_time (vget b vc).
Definition GetRouteSet (b : Buffer) (vc : Z) : OutputSet := vc_route_set (vget b vc).
Definition GetOutputPort (b : Buffer) (vc : Z) : Z := vc_out_port (vget b vc).
Definition GetOutputVC (b : Buffer) (vc : Z) : Z := vc_out_vc (vget b vc).
Definition GetPriority (b : Buffer) (vc : Z) : Z := vc_pri (vget b vc).
Definition FrontFlit (b : Buffer) (vc : Z) : option Flit := head (vc_flits (vget b vc)).
Definition Empty (b : Buffer) (vc : Z) : bool :=
  match vc_flits (vget b vc) with [] => true | _ => false end.

(** Entering a state restarts the time spent in it. *)
Definition SetState (b : Buffer) (vc : Z) (s : eVCState) : Buffer :=
  let c := vget b vc in
  vset b vc (mkVC s 0 (vc_flits c) (vc_route_set c) (vc_out_port c) (vc_out_vc c) (vc_pri c)).

Definition SetOutput (b : Buffer) (vc out_port out_vc : Z) : Buffer :=
  let c := vget b vc in
  vset b vc (mkVC (vc_state c) (vc_state_time c) (vc_flits c) (vc_route_set c)
                  out_port out_vc (vc_pri c)).

Definition RemoveFlit (b : Buffer) (vc : Z) : Buffer :=
  let c := vget b vc in
  vset b vc (mkVC (vc_state c) (vc_state_time c) (tail (vc_flits c)) (vc_route_set c)
                  (vc_out_port c) (vc_out_vc c) (vc_pri c)).

(** Modelled from the spec: the downstream buffer tracker of an output (class
    [BufferState], not in this file): per output VC, whether it is reserved
    and how many slots are occupied.  [TakeBuffer] reserves, [SendingFlit]
    counts one more occupied slot of the flit's VC. *)
Record BufferState : Set := mkBufferState {
  bs_in_use : list bool;
  bs_occupancy : list Z;
  bs_vc_size : Z
}.

#[global] Instance BufferState_inhabited : Inhabited BufferState :=
  populate (mkBufferState [] [] 0).

Definition IsAvailableFor (d : BufferState) (vc : Z) : bool := negb (vget (bs_in_use d) vc).
Definition IsFullFor (d : BufferState) (vc : Z) : bool :=
  bs_vc_size d <=? vget (bs_occupancy d) vc.
Definition TakeBuffer (d : BufferState) (vc : Z) : BufferState :=
  mkBufferState (vset (bs_in_use d) vc true) (bs_occupancy d) (bs_vc_size d).
Definition SendingFlit (d : BufferState) (f : Flit) : BufferState :=
  mkBufferState (bs_in_use d)
                (vset (bs_occupancy d) (f_vc f) (vget (bs_occupancy d) (f_vc f) + 1))
                (bs_vc_size d).

(** ** Allocator requests *)

Record Request : Set := mkRequest {
  r_label : Z;
  r_in_pri : Z;
  r_out_pri : Z
}.

(** Modelled from the spec: the request matrix of the switch allocator (class
    [Allocator], not in this file).  A request replaces the one already in
    its (input, output) slot only when its priority is higher; [ReadRequest]
    returns the label of the request in a slot, [-1] for an empty slot. *)
Definition AddRequest (m : gmap (Z * Z) Request) (i o label in_pri out_pri : Z)
  : gmap (Z * Z) Request :=
  match m !! (i, o) with
  | None => <[(i, o) := mkRequest label in_pri out_pri]> m
  | Some old =>
      if r_in_pri old <? in_pri
      then <[(i, o) := mkRequest label in_pri out_pri]> m
      else m
  end.

Definition ReadRequest (m : gmap (Z * Z) Request) (i o : Z) : Z :=
  match m !! (i, o) with
  | None => -1
  | Some r => r_label r
  end.

(** ** Credits and the trace of calls *)

Record Credit : Set := mkCredit {
  c_vc : list Z;
  c_dest_router : Z
}.

(** Which request-building pass made a call: line 220 or line 377. *)
Inductive path : Set := SlowPath | FastPath.

Inductive event : Set :=
| EvAddRequest (p : path) (expanded_input expanded_output vc in_pri out_pri : Z)
| EvCrossbarWriteAllNull
| EvTakeBuffer (output out_vc : Z)
| EvRemoveFlit (input vc : Z) (f : Flit)
| EvNewCredit (input : Z)
| EvCreditEntry (input vc : Z)
| EvSendingFlit (output : Z) (f : Flit)
| EvCrossbarWrite (f : Flit) (expanded_output : Z)
| EvQueueVC (input vc : Z)
| EvCreditWrite (c : option Credit) (input : Z).

(** ** Configuration and router state *)

Record Config : Set := mkConfig {
  _inputs : Z;
  _outputs : Z;
  _vcs : Z;
  _input_speedup : Z;
  _output_speedup : Z;
  _sw_alloc_delay : Z;
  _hold_switch_for_packet : bool
}.

Record Router : Set := mkRouter {
  _buf : list Buffer;
  _next_buf : list BufferState;
  _vc_rr_offset : list Z;
  _sw_rr_offset : list Z;
  _use_fast_path : list bool;
  _switch_hold_in : list Z;
  _switch_hold_out : list Z;
  _switch_hold_vc : list Z;
  trace : list event
}.

(** The allocator during request building: its request matrix and the
    [AddRequest] calls made so far. *)
Record ReqSt : Type := mkReqSt {
  reqs : gmap (Z * Z) Request;
  calls : list event
}.

Definition INT_MIN : Z := -2147483648.

(** ** Request building (lines 85-388) *)

Section RequestBuilding.

Variable cfg : Config.
Variable r : Router.

(** Lines 114-115 and 261-262: the VC may request only in state [vc_alloc]
    or [active] and after [_sw_alloc_delay] cycles in that state. *)
Definition not_ready (cur_buf : Buffer) (vc : Z) : bool :=
  (negb (eVCState_eqb (GetState cur_buf vc) vc_alloc)
   && negb (eVCState_eqb (GetState cur_buf vc) active))
  || (GetStateTime cur_buf vc <? _sw_alloc_delay cfg).

(** One candidate of the route set at [output]: lines 168-198 of the slow
    path and, word for word, lines 327-357 of the fast path.  The
    accumulator is ([do_request], [in_priority]). *)
Definition scan_step (cur_buf : Buffer) (vc : Z) (vc_state : eVCState)
    (dest_buf : BufferState) (route_set : OutputSet) (output : Z)
    (acc : bool * Z) (vc_index : Z) : bool * Z :=
  let '(out_vc, vc_prio) := GetVC route_set output vc_index in
  if eVCState_eqb vc_state vc_alloc && negb (IsAvailableFor dest_buf out_vc) then acc
  else if eVCState_eqb vc_state active && negb (out_vc =? GetOutputVC cur_buf vc) then acc
  else if IsFullFor dest_buf out_vc then acc
  else
    let '(do_request, in_priority) := acc in
    if negb do_request || (in_priority <? vc_prio) then (true, vc_prio) else acc.

(** Lines 159-199 and 320-358. *)
Definition scan_candidates (cur_buf : Buffer) (vc : Z) (vc_state : eVCState)
    (dest_buf : BufferState) (route_set : OutputSet) (output vc_cnt : Z) : bool * Z :=
  foldl (scan_step cur_buf vc vc_state dest_buf route_set output)
        (false, INT_MIN) (seqZ 0 vc_cnt).

Definition add_request (p : path) (a : ReqSt)
    (expanded_input expanded_output vc in_priority out_priority : Z) : ReqSt :=
  mkReqSt (AddRequest (reqs a) expanded_input expanded_output vc in_priority out_priority)
          (calls a ++ [EvAddRequest p expanded_input expanded_output vc
                                    in_priority out_priority]).

(** Body of the output loop of the slow path, lines 139-232.  The loop
    state is the current [output] and the allocator. *)
Definition slow_output_body (input s vc : Z) (cur_buf : Buffer)
    (vc_state : eVCState) (route_set : OutputSet)
    (output_index : Z) (st : Z * ReqSt) : result (ctl (Z * ReqSt)) :=
  let '(output0, a) := st in
  let expanded_input := input * _input_speedup cfg + s in
  let output := if eVCState_eqb vc_state active then GetOutputPort cur_buf vc
                else output0 in
  assert (expanded_input =? input * _input_speedup cfg + Z.rem vc (_input_speedup cfg))
         A_expanded_input;;
  let expanded_output :=
    output * _output_speedup cfg + Z.rem input (_output_speedup cfg) in
  a' ← (if (vget (_switch_hold_in r) expanded_input =? -1)
           && (vget (_switch_hold_out r) expanded_output =? -1)
        then
          let dest_buf := vget (_next_buf r) output in
          let vc_cnt := NumVCs route_set output in
          assert (negb (eVCState_eqb vc_state active && (vc_cnt =? 0)))
                 A_active_has_route;;
          let '(do_request, in_priority) :=
            scan_candidates cur_buf vc vc_state dest_buf route_set output vc_cnt in
          if do_request
          then Ok (add_request SlowPath a expanded_input expanded_output vc
                               in_priority (GetPriority cur_buf vc))
          else Ok a
        else Ok a);
  if eVCState_eqb vc_state active then Ok (Break (output, a'))
  else Ok (Continue (Z.rem (output + 1) (_outputs cfg), a')).

(** Lines 123-124 and 234-235. *)
Definition next_vc (s vc : Z) : Z :=
  let vc' := vc + _input_speedup cfg in
  if vc' >=? _vcs cfg then s else vc'.

(** Body of the VC loop of the slow path, lines 98-236.  The loop state is
    the VC under the round-robin pointer and the allocator. *)
Definition slow_vc_body (input s : Z) (v : Z) (st : Z * ReqSt)
  : result (ctl (Z * ReqSt)) :=
  let '(vc, a) := st in
  let cur_buf := vget (_buf r) input in
  let vc_state := GetState cur_buf vc in
  if negb (Empty cur_buf vc) then
    match FrontFlit cur_buf vc with
    | None => Abort A_front_flit
    | Some f =>
        if not_ready cur_buf vc then Ok (Continue (next_vc s vc, a))
        else
          let route_set := GetRouteSet cur_buf vc in
          let output := vget (_vc_rr_offset r) (input * _vcs cfg + vc) in
          '(_, a') ← for_loop (slow_output_body input s vc cur_buf vc_state route_set)
                              (seqZ 0 (_outputs cfg)) (output, a);
          Ok (Continue (next_vc s vc, a'))
    end
  else Ok (Continue (next_vc s vc, a)).

(** One speedup slot of an input, lines 89-237. *)
Definition slow_slot (input : Z) (s : Z) (a : ReqSt) : result (ctl ReqSt) :=
  let expanded_input := input * _input_speedup cfg + s in
  let vc := vget (_sw_rr_offset r) expanded_input in
  assert (Z.rem vc (_input_speedup cfg) =? s) A_rr_slot;;
  '(_, a') ← for_loop (slow_vc_body input s) (seqZ 0 (_vcs cfg)) (vc, a);
  Ok (Continue a').

Definition slow_path (input : Z) (a : ReqSt) : result ReqSt :=
  for_loop (slow_slot input) (seqZ 0 (_input_speedup cfg)) a.

(** Body of the output loop of the fast path, lines 294-385.  In state
    [active] the loop variable is overwritten with the assigned port and
    the loop is left in the same iteration. *)
Definition fast_output_body (input vc : Z) (cur_buf : Buffer)
    (vc_state : eVCState) (route_set : OutputSet) (expanded_input : Z)
    (output0 : Z) (a : ReqSt) : result (ctl ReqSt) :=
  let output := if eVCState_eqb vc_state active then GetOutputPort cur_buf vc
                else output0 in
  let dest_buf := vget (_next_buf r) output in
  let expanded_output :=
    output * _output_speedup cfg + Z.rem input (_output_speedup cfg) in
  if ReadRequest (reqs a) expanded_input expanded_output >=? 0 then
    if eVCState_eqb vc_state active then Ok (Break a) else Ok (Continue a)
  else
    let vc_cnt := NumVCs route_set output in
    assert (negb (eVCState_eqb vc_state active) || (vc_cnt >? 0)) A_active_has_route;;
    let '(do_request, in_priority) :=
      scan_candidates cur_buf vc vc_state dest_buf route_set output vc_cnt in
    let a' := if do_request
              then add_request FastPath a expanded_input expanded_output vc
                               in_priority (GetPriority cur_buf vc)
              else a in
    if eVCState_eqb vc_state active then Ok (Break a') else Ok (Continue a').

(** Lines 243-278: the VC is flagged for the fast path, holds a flit and is
    ready to request. *)
Definition fast_eligible (input vc : Z) : bool :=
  let cur_buf := vget (_buf r) input in
  vget (_use_fast_path r) (input * _vcs cfg + vc)
  && negb (Empty cur_buf vc)
  && negb (not_ready cur_buf vc).

(** Body of the VC loop of the fast path, lines 241-387.  The loop state is
    [fast_path_vcs[input]] and the allocator. *)
Definition fast_vc_body (input : Z) (vc : Z) (st : Z * ReqSt)
  : result (ctl (Z * ReqSt)) :=
  let '(fast_path_vc, a) := st in
  if vget (_use_fast_path r) (input * _vcs cfg + vc) then
    let cur_buf := vget (_buf r) input in
    if Empty cur_buf vc then Ok (Continue st)
    else
      match FrontFlit cur_buf vc with
      | None => Abort A_front_flit
      | Some f =>
          let vc_state := GetState cur_buf vc in
          if not_ready cur_buf vc then Ok (Continue st)
          else
            assert (fast_path_vc <? 0) A_single_fast_vc;;
            let route_set := GetRouteSet cur_buf vc in
            let expanded_input :=
              input * _input_speedup cfg + Z.rem vc (_input_speedup cfg) in
            a' ← for_loop (fast_output_body input vc cur_buf vc_state route_set
                                            expanded_input)
                          (seqZ 0 (_outputs cfg)) a;
            Ok (Continue (vc, a'))
      end
  else Ok (Continue st).

Definition fast_path (input : Z) (a : ReqSt) : result (Z * ReqSt) :=
  for_loop (fast_vc_body input) (seqZ 0 (_vcs cfg)) (-1, a).

(** Body of the input loop, lines 85-388.  The loop state is the vector
    [fast_path_vcs] and the allocator. *)
Definition input_body (input : Z) (st : list Z * ReqSt)
  : result (ctl (list Z * ReqSt)) :=
  let '(fast_path_vcs, a) := st in
  a1 ← slow_path input a;
  '(fvc, a2) ← fast_path input a1;
  Ok (Continue (vset fast_path_vcs input fvc, a2)).

(** Lines 82-388: [Clear] empties the request matrix, then every input
    builds its requests. *)
Definition build_requests : result (list Z * ReqSt) :=
  for_loop input_body (seqZ 0 (_inputs cfg))
           (replicate (Z.to_nat (_inputs cfg)) 0, mkReqSt ∅ []).

End RequestBuilding.

(** ** Router updates *)

Definition set_buf (r : Router) (x : list Buffer) : Router :=
  mkRouter x (_next_buf r) (_vc_rr_offset r) (_sw_rr_offset r) (_use_fast_path r)
           (_switch_hold_in r) (_switch_hold_out r) (_switch_hold_vc r) (trace r).
Definition set_next_buf (r : Router) (x : list BufferState) : Router :=
  mkRouter (_buf r) x (_vc_rr_offset r) (_sw_rr_offset r) (_use_fast_path r)
           (_switch_hold_in r) (_switch_hold_out r) (_switch_hold_vc r) (trace r).
Definition set_vc_rr_offset (r : Router) (x : list Z) : Router :=
  mkRouter (_buf r) (_next_buf r) x (_sw_rr_offset r) (_use_fast_path r)
           (_switch_hold_in r) (_switch_hold_out r) (_switch_hold_vc r) (trace r).
Definition set_sw_rr_offset (r : Router) (x : list Z) : Router :=
  mkRouter (_buf r) (_next_buf r) (_vc_rr_offset r) x (_use_fast_path r)
           (_switch_hold_in r) (_switch_hold_out r) (_switch_hold_vc r) (trace r).
Definition set_use_fast_path (r : Router) (x : list bool) : Router :=
  mkRouter (_buf r) (_next_buf r) (_vc_rr_offset r) (_sw_rr_offset r) x
           (_switch_hold_in r) (_switch_hold_out r) (_switch_hold_vc r) (trace r).
Definition set_switch_hold_in (r : Router) (x : list Z) : Router :=
  mkRouter (_buf r) (_next_buf r) (_vc_rr_offset r) (_sw_rr_offset r) (_use_fast_path r)
           x (_switch_hold_out r) (_switch_hold_vc r) (trace r).
Definition set_switch_hold_out (r : Router) (x : list Z) : Router :=
  mkRouter (_buf r) (_next_buf r) (_vc_rr_offset r) (_sw_rr_offset r) (_use_fast_path r)
           (_switch_hold_in r) x (_switch_hold_vc r) (trace r).
Definition set_switch_hold_vc (r : Router) (x : list Z) : Router :=
  mkRouter (_buf r) (_next_buf r) (_vc_rr_offset r) (_sw_rr_offset r) (_use_fast_path r)
           (_switch_hold_in r) (_switch_hold_out r) x (trace r).
Definition emit (r : Router) (e : list event) : Router :=
  mkRouter (_buf r) (_next_buf r) (_vc_rr_offset r) (_sw_rr_offset r) (_use_fast_path r)
           (_switch_hold_in r) (_switch_hold_out r) (_switch_hold_vc r) (trace r ++ e).

(** [_buf[input]->op(...)] for an operation that changes the buffer. *)
Definition on_buf (r : Router) (input : Z) (op : Buffer -> Buffer) : Router :=
  set_buf r (vset (_buf r) input (op (vget (_buf r) input))).

(** ** Grant resolution (lines 423-642) *)

Section GrantResolution.

Variable cfg : Config.

(** The allocator after [Allocate]: its request matrix and the output
    assigned to each expanded input ([OutputAssigned], [-1] for none). *)
Variable requests : gmap (Z * Z) Request.
Variable OutputAssigned : Z -> Z.

(** Lines 435-450: the (expanded output, VC) an expanded input works on. *)
Definition pick_grant (r : Router) (input expanded_input : Z) : result (Z * Z) :=
  let cur_buf := vget (_buf r) input in
  if negb (vget (_switch_hold_in r) expanded_input =? -1) then
    assert (vget (_switch_hold_in r) expanded_input >=? 0) A_hold_nonneg;;
    let expanded_output := vget (_switch_hold_in r) expanded_input in
    let vc := vget (_switch_hold_vc r) expanded_input in
    if Empty cur_buf vc then Ok (-1, vc) else Ok (expanded_output, vc)
  else
    let expanded_output := OutputAssigned expanded_input in
    if expanded_output >=? 0
    then Ok (expanded_output, ReadRequest requests expanded_input expanded_output)
    else Ok (expanded_output, -1).

(** Lines 459-480: a grant to another VC than the fast-path VC of the input
    takes the fast path away from that VC. *)
Definition demote_fast_vc (r : Router) (input vc fvc : Z) : result Router :=
  if vc =? fvc then Ok r
  else if fvc >=? 0 then
    assert (vget (_use_fast_path r) (input * _vcs cfg + fvc)) A_fast_flag;;
    assert (bool_decide (is_Some (FrontFlit (vget (_buf r) input) fvc))) A_fast_front;;
    Ok (set_use_fast_path r (vset (_use_fast_path r) (input * _vcs cfg + fvc) false))
  else Ok r.

(** Lines 492-516: one candidate of the re-scan.  The accumulator is
    ([sel_vc], [sel_prio]). *)
Definition select_step (dest_buf : BufferState) (route_set : OutputSet) (output : Z)
    (acc : Z * Z) (vc_index : Z) : Z * Z :=
  let '(out_vc, out_prio) := GetVC route_set output vc_index in
  if negb (IsAvailableFor dest_buf out_vc) then acc
  else if IsFullFor dest_buf out_vc then acc
  else
    let '(sel_vc, sel_prio) := acc in
    if out_prio >? sel_prio then (out_vc, out_prio) else acc.

(** Lines 486-517. *)
Definition select_out_vc (dest_buf : BufferState) (route_set : OutputSet)
    (output : Z) : Z * Z :=
  foldl (select_step dest_buf route_set output) (-1, -1)
        (seqZ 0 (NumVCs route_set output)).

(** Lines 484-543: VC allocation is completed for the granted VC. *)
Definition finalize_vc (r : Router) (input vc output : Z) : result Router :=
  let cur_buf := vget (_buf r) input in
  let dest_buf := vget (_next_buf r) output in
  let route_set := GetRouteSet cur_buf vc in
  let '(sel_vc, _) := select_out_vc dest_buf route_set output in
  assert (sel_vc >? -1) A_sel_vc;;
  let r := on_buf r input (fun b => SetState b vc active) in
  let r := on_buf r input (fun b => SetOutput b vc output sel_vc) in
  let r := set_next_buf r (vset (_next_buf r) output (TakeBuffer dest_buf sel_vc)) in
  let r := emit r [EvTakeBuffer output sel_vc] in
  Ok (set_vc_rr_offset r (vset (_vc_rr_offset r) (input * _vcs cfg + vc)
                               (Z.rem (output + 1) (_outputs cfg)))).

(** Lines 588-596: the credit of the input gets one more VC. *)
Definition credit_entry (c : option Credit) (vc dest_router : Z) : Credit :=
  match c with
  | None => mkCredit [vc] dest_router
  | Some c0 => mkCredit (c_vc c0 ++ [vc]) dest_router
  end.

(** Lines 547-551: the crossbar slot is bound to the VC. *)
Definition hold_switch (r : Router) (vc expanded_input expanded_output : Z) : Router :=
  if _hold_switch_for_packet cfg then
    let r := set_switch_hold_in r
               (vset (_switch_hold_in r) expanded_input expanded_output) in
    let r := set_switch_hold_vc r
               (vset (_switch_hold_vc r) expanded_input vc) in
    set_switch_hold_out r
               (vset (_switch_hold_out r) expanded_output expanded_input)
  else r.

(** Lines 562-600: the flit is dequeued, its VC is entered in the credit
    of the input, its VC field is overwritten, and it is handed to the
    downstream tracker and to the crossbar. *)
Definition forward_flit (r : Router) (c : option Credit)
    (input vc expanded_output output : Z) (f0 : Flit)
  : result (Router * Credit * Flit) :=
  let dest_buf := vget (_next_buf r) output in
  let r := on_buf r input (fun b => RemoveFlit b vc) in
  let r := emit r [EvRemoveFlit input vc f0] in
  let f := mkFlit (f_id f0) (f_vc f0) (f_from_router f0) (f_hops f0 + 1) (f_tail f0) in
  let r := match c with None => emit r [EvNewCredit input] | Some _ => r end in
  assert (vc =? f_vc f) A_flit_vc;;
  let c := credit_entry c vc (f_from_router f) in
  let r := emit r [EvCreditEntry input vc] in
  let f := mkFlit (f_id f) (GetOutputVC (vget (_buf r) input) vc) (f_from_router f)
                  (f_hops f) (f_tail f) in
  let r := set_next_buf r (vset (_next_buf r) output (SendingFlit dest_buf f)) in
  let r := emit r [EvSendingFlit output f] in
  let r := emit r [EvCrossbarWrite f expanded_output] in
  Ok (r, c, f).

(** Lines 602-610: a tail flit returns the VC to [idle] and clears the
    switch-hold tables. *)
Definition release_tail (r : Router) (input vc expanded_input expanded_output : Z)
    (f : Flit) : Router :=
  if f_tail f then
    let r := on_buf r input (fun b => SetState b vc idle) in
    let r := if negb (Empty (vget (_buf r) input) vc)
             then emit r [EvQueueVC input vc] else r in
    let r := set_switch_hold_in r (vset (_switch_hold_in r) expanded_input (-1)) in
    let r := set_switch_hold_vc r (vset (_switch_hold_vc r) expanded_input (-1)) in
    set_switch_hold_out r (vset (_switch_hold_out r) expanded_output (-1))
  else r.

(** Lines 612-616. *)
Definition advance_sw_rr (r : Router) (input s vc expanded_input : Z) : Router :=
  if negb (vget (_use_fast_path r) (input * _vcs cfg + vc)) then
    let next_offset := vc + _input_speedup cfg in
    set_sw_rr_offset r
      (vset (_sw_rr_offset r) expanded_input
            (if next_offset <? _vcs cfg then next_offset else s))
  else r.

(** Lines 618-624. *)
Definition reenable_fast_path (r : Router) (input vc : Z) : Router :=
  if Empty (vget (_buf r) input) vc
     && negb (vget (_use_fast_path r) (input * _vcs cfg + vc))
  then set_use_fast_path r (vset (_use_fast_path r) (input * _vcs cfg + vc) true)
  else r.

(** Lines 545-626: the front flit of the granted VC crosses the switch. *)
Definition transfer (r : Router) (c : option Credit)
    (input s vc expanded_input expanded_output output : Z)
  : result (Router * option Credit) :=
  let r := hold_switch r vc expanded_input expanded_output in
  let cur_buf := vget (_buf r) input in
  assert (negb (Empty cur_buf vc)) A_not_empty;;
  assert (GetOutputPort cur_buf vc =? output) A_output_port;;
  let dest_buf := vget (_next_buf r) output in
  assert (negb (IsFullFor dest_buf (GetOutputVC cur_buf vc))) A_not_full;;
  match FrontFlit cur_buf vc with
  | None => Abort A_not_empty
  | Some f0 =>
      '(r, c, f) ← forward_flit r c input vc expanded_output output f0;
      let r := release_tail r input vc expanded_input expanded_output f in
      let r := advance_sw_rr r input s vc expanded_input in
      let r := reenable_fast_path r input vc in
      Ok (r, Some c)
  end.

(** Body of the speedup-slot loop, lines 427-640.  The loop state is the
    router and the credit [c] of the input. *)
Definition resolve_slot (fvc input : Z) (s : Z) (st : Router * option Credit)
  : result (ctl (Router * option Credit)) :=
  let '(r, c) := st in
  let expanded_input := input * _input_speedup cfg + s in
  '(expanded_output, vc) ← pick_grant r input expanded_input;
  if expanded_output >=? 0 then
    let output := Z.quot expanded_output (_output_speedup cfg) in
    assert (bool_decide (is_Some (FrontFlit (vget (_buf r) input) vc))) A_front_flit;;
    r ← demote_fast_vc r input vc fvc;
    r ← (if eVCState_eqb (GetState (vget (_buf r) input) vc) vc_alloc
         then finalize_vc r input vc output else Ok r);
    if eVCState_eqb (GetState (vget (_buf r) input) vc) active
    then st' ← transfer r c input s vc expanded_input expanded_output output;
         Ok (Continue st')
    else Ok (Continue (r, c))
  else if (fvc >=? 0) && (Z.rem fvc (_input_speedup cfg) =? s) then
    assert (vget (_use_fast_path r) (input * _vcs cfg + fvc)) A_fast_flag;;
    assert (bool_decide (is_Some (FrontFlit (vget (_buf r) input) fvc))) A_front_flit;;
    Ok (Continue
          (set_use_fast_path r (vset (_use_fast_path r) (input * _vcs cfg + fvc) false),
           c))
  else Ok (Continue (r, c)).

(** Body of the input loop, lines 423-642: the slots of the input, then
    one write to the credit pipeline. *)
Definition resolve_input (fast_path_vcs : list Z) (input : Z) (r : Router)
  : result (ctl Router) :=
  let fvc := vget fast_path_vcs input in
  '(r, c) ← for_loop (resolve_slot fvc input) (seqZ 0 (_input_speedup cfg)) (r, None);
  Ok (Continue (emit r [EvCreditWrite c input])).

(** Lines 415-642. *)
Definition resolve_grants (fast_path_vcs : list Z) (r : Router) : result Router :=
  for_loop (resolve_input fast_path_vcs) (seqZ 0 (_inputs cfg))
           (emit r [EvCrossbarWriteAllNull]).

End GrantResolution.

(** ** The allocation step *)

(** [Allocate] is the pluggable matching: from the request matrix to the
    output assigned to each expanded input. *)
Definition _Alloc (cfg : Config) (Allocate : gmap (Z * Z) Request -> Z -> Z)
    (r : Router) : result Router :=
  '(fast_path_vcs, a) ← build_requests cfg r;
  let r := emit r (calls a) in
  resolve_grants cfg (reqs a) (Allocate (reqs a)) fast_path_vcs r.

(** ** A concrete matching and concrete routers

    The matching algorithm is pluggable.  The examples below use a greedy
    one: the expanded inputs are served in ascending order and each takes
    the lowest expanded output it requested that is still free. *)

Definition pick_output (m : gmap (Z * Z) Request) (n_out : Z) (taken : list Z)
    (ei : Z) : Z :=
  match filter (fun o => bool_decide (is_Some (m !! (ei, o)))
                         && negb (bool_decide (o ∈ taken)))
               (seqZ 0 n_out) with
  | o :: _ => o
  | [] => -1
  end.

Fixpoint greedy_from (m : gmap (Z * Z) Request) (n_out : Z) (taken : list Z)
    (ins : list Z) : list (Z * Z) :=
  match ins with
  | [] => []
  | i :: rest =>
      let o := pick_output m n_out taken i in
      (i, o) :: greedy_from m n_out (if o >=? 0 then o :: taken else taken) rest
  end.

Definition greedy (n_in n_out : Z) (m : gmap (Z * Z) Request) (ei : Z) : Z :=
  match list_find (fun io => fst io = ei) (greedy_from m n_out [] (seqZ 0 n_in)) with
  | Some (_, (_, o)) => o
  | None => -1
  end.

Definition greedy_for (cfg : Config) : gmap (Z * Z) Request -> Z -> Z :=
  greedy (_inputs cfg * _input_speedup cfg) (_outputs cfg * _output_speedup cfg).

Definition no_vc : VC := mkVC idle 0 [] [] (-1) (-1) 0.
Definition free_tracker (vcs size : Z) : BufferState :=
  mkBufferState (replicate (Z.to_nat vcs) false) (replicate (Z.to_nat vcs) 0) size.

(** One input, two outputs, four VCs, no speedup.  VC 0 of input 0 holds the
    single flit of a packet routed to output 1, has been in state [vc_alloc]
    for three cycles, and every fast-path flag still has the value the
    constructor gave it (line 71). *)
Definition cfg_single : Config := mkConfig 1 2 4 1 1 1 false.
Definition flit_a : Flit := mkFlit 7 0 42 0 true.
Definition router_single : Router :=
  mkRouter [[mkVC vc_alloc 3 [flit_a] [(1, 0, 0)] (-1) (-1) 0; no_vc; no_vc; no_vc]]
           [free_tracker 4 4; free_tracker 4 4]
           [0; 0; 0; 0] [0] [true; true; true; true]
           [-1] [-1; -1] [-1] [].

(** Two inputs, two outputs, two VCs, switches held for whole packets.
    Input 1 is in the middle of a packet on output 1 and holds that crossbar
    slot.  VC 0 of input 0 has a new packet that may leave on output 0
    (VC 0) or on output 1 (VC 1), and is flagged for the fast path. *)
Definition cfg_held : Config := mkConfig 2 2 2 1 1 1 true.
Definition flit_b : Flit := mkFlit 8 0 43 0 false.
Definition flit_c : Flit := mkFlit 9 0 44 2 false.
Definition router_held : Router :=
  mkRouter [[mkVC vc_alloc 3 [flit_b] [(0, 0, 0); (1, 1, 0)] (-1) (-1) 0; no_vc];
            [mkVC active 5 [flit_c] [(1, 0, 0)] 1 0 0; no_vc]]
           [free_tracker 2 4; mkBufferState [true; false] [1; 0] 4]
           [0; 0; 0; 0] [0; 0] [true; true; false; true]
           [-1; 1] [-1; 1] [-1; 0] [].

(** One input, one output, one VC: a new packet whose only route candidate
    has priority [-1]. *)
Definition cfg_neg : Config := mkConfig 1 1 1 1 1 1 false.
Definition router_neg : Router :=
  mkRouter [[mkVC vc_alloc 3 [flit_a] [(0, 0, -1)] (-1) (-1) 0]]
           [free_tracker 1 4] [0] [0] [true] [-1] [-1] [-1] [].

(** Two inputs, one output with output speedup 2 and a single output VC:
    both inputs have a new packet for that output. *)
Definition cfg_os2 : Config := mkConfig 2 1 1 1 2 1 false.
Definition router_os2 : Router :=
  mkRouter [[mkVC vc_alloc 3 [flit_a] [(0, 0, 0)] (-1) (-1) 0];
            [mkVC vc_alloc 3 [flit_b] [(0, 0, 0)] (-1) (-1) 0]]
           [free_tracker 1 4] [0; 0] [0; 0] [true; true]
           [-1; -1] [-1; -1] [-1; -1] [].

(** One input, one output, one VC, switches held for whole packets: an
    active VC with one body flit of its packet queued; the rest of the
    packet has not arrived yet. *)
Definition cfg_hold : Config := mkConfig 1 1 1 1 1 1 true.
Definition router_hold : Router :=
  mkRouter [[mkVC active 3 [flit_b] [(0, 0, 0)] 0 0 0]]
           [mkBufferState [true] [0] 4] [0] [0] [true] [-1] [-1] [-1] [].

(** The allocator of [router_single] once the slow path of input 0 is done. *)
Definition reqs_single : ReqSt :=
  mkReqSt {[(0, 1) := mkRequest 0 0 0]} [EvAddRequest SlowPath 0 1 0 0 0].

(** ** Reading the trace *)

Definition ctl_state {S} (c : ctl S) : S :=
  match c with Continue s | Break s => s end.

(** The (expanded input, expanded output, VC) of an [AddRequest] call made
    by pass [p]. *)
Definition request_of (p : path) (e : event) : option (Z * Z * Z) :=
  match e with
  | EvAddRequest SlowPath i o v _ _ =>
      match p with SlowPath => Some (i, o, v) | FastPath => None end
  | EvAddRequest FastPath i o v _ _ =>
      match p with FastPath => Some (i, o, v) | SlowPath => None end
  | _ => None
  end.

(** The crossbar slot of an [AddRequest] call. *)
Definition slot_of (e : event) : option (Z * Z) :=
  match e with
  | EvAddRequest _ i o _ _ _ => Some (i, o)
  | _ => None
  end.




(** [p] is the first entry of highest priority in [l]. *)
Definition first_best (l : list (Z * Z)) (v p : Z) : Prop :=
  ∃ i : nat, l !! i = Some (v, p)
    ∧ (∀ (j : nat) v' p', l !! j = Some (v', p') → p' ≤ p)
    ∧ (∀ (j : nat) v' p', (j < i)%nat → l !! j = Some (v', p') → p' < p).

(** The candidates of the route set at an output that the downstream tracker
    reports available and not full. *)
Definition free_candidates (dest_buf : BufferState) (route_set : OutputSet)
    (output : Z) : list (Z * Z) :=
  filter (fun c => IsAvailableFor dest_buf c.1 = true ∧ IsFullFor dest_buf c.1 = false)
         (candidates route_set output).

(** Since the allocator was in state [a0], only the fast path has called
    it, only for slots that were empty in [a0], and the slots that were
    taken in [a0] still hold the same request. *)
Definition yielded (a0 a : ReqSt) : Prop :=
  ∃ new, calls a = calls a0 ++ new
    ∧ (∀ e, e ∈ new →
         ∃ i o v, request_of FastPath e = Some (i, o, v) ∧ ReadRequest (reqs a0) i o < 0)
    ∧ (∀ i o, 0 ≤ ReadRequest (reqs a0) i o → reqs a !! (i, o) = reqs a0 !! (i, o)).

(** [router_single] with a second packet waiting in VC 1: two VCs of input 0
    are flagged for the fast path, hold a flit and are ready. *)
Definition router_two_fast : Router :=
  mkRouter [[mkVC vc_alloc 3 [flit_a] [(1, 0, 0)] (-1) (-1) 0;
             mkVC vc_alloc 2 [mkFlit 11 1 45 0 true] [(0, 1, 0)] (-1) (-1) 0;
             no_vc; no_vc]]
           [free_tracker 4 4; free_tracker 4 4]
           [0; 0; 0; 0] [0] [true; true; true; true]
           [-1] [-1; -1] [-1] [].

(** [select_step] and [scan_step] on the candidate itself instead of its
    index in the route set. *)
Definition select_cand (dest_buf : BufferState) (acc : Z * Z) (c : Z * Z) : Z * Z :=
  if negb (IsAvailableFor dest_buf c.1) then acc
  else if IsFullFor dest_buf c.1 then acc
  else if c.2 >? acc.2 then c else acc.

(** The flit as it leaves the input: one more hop, and the VC field
    overwritten with the output VC (lines 573 and 597). *)
Definition relabel (f0 : Flit) (out_vc : Z) : Flit :=
  mkFlit (f_id f0) out_vc (f_from_router f0) (f_hops f0 + 1) (f_tail f0).

(** The allocators of [router_neg] and [router_os2] once the requests of
    the cycle are built. *)
Definition reqs_neg : ReqSt :=
  mkReqSt {[(0, 0) := mkRequest 0 (-1) 0]} [EvAddRequest SlowPath 0 0 0 (-1) 0].
Definition reqs_os2 : ReqSt :=
  mkReqSt {[(0, 0) := mkRequest 0 0 0; (1, 1) := mkRequest 0 0 0]}
          [EvAddRequest SlowPath 0 0 0 0 0; EvAddRequest SlowPath 1 1 0 0 0].

(** The allocator of [router_hold] once the requests of the cycle are
    built. *)
Definition reqs_hold : ReqSt :=
  mkReqSt {[(0, 0) := mkRequest 0 0 0]} [EvAddRequest SlowPath 0 0 0 0 0].


(** [scan_step] on the candidate itself instead of its index in the route
    set. *)
Definition scan_cand (cur_buf : Buffer) (vc : Z) (vc_state : eVCState)
    (dest_buf : BufferState) (acc : bool * Z) (c : Z * Z) : bool * Z :=
  if eVCState_eqb vc_state vc_alloc && negb (IsAvailableFor dest_buf c.1) then acc
  else if eVCState_eqb vc_state active && negb (c.1 =? GetOutputVC cur_buf vc) then acc
  else if IsFullFor dest_buf c.1 then acc
  else if negb acc.1 || (acc.2 <? c.2) then (true, c.2) else acc.

(** An [AddRequest] call of pass [p] for VC [vc] of [input] that targets the
    output port and the output VC assigned to that VC: the slot is the one
    of the assigned port, and the priority is that of a route candidate that
    names the assigned output VC, which is not full downstream. *)
Definition requests_assigned_output (cfg : Config) (r : Router) (p : path)
    (input expanded_input vc : Z) (e : event) : Prop :=
  let cur_buf := vget (_buf r) input in
  let port := GetOutputPort cur_buf vc in
  ∃ pri,
    e = EvAddRequest p expanded_input
          (port * _output_speedup cfg + Z.rem input (_output_speedup cfg))
          vc pri (GetPriority cur_buf vc)
    ∧ (GetOutputVC cur_buf vc, pri) ∈ candidates (GetRouteSet cur_buf vc) port
    ∧ IsFullFor (vget (_next_buf r) port) (GetOutputVC cur_buf vc) = false.

(** The calls added between two allocator states all target the assigned
    output of VC [vc] of [input]. *)
Definition only_assigned (cfg : Config) (r : Router) (input : Z) (p : path)
    (expanded_input vc : Z) (a a' : ReqSt) : Prop :=
  ∃ new, calls a' = calls a ++ new
    ∧ ∀ e, e ∈ new → requests_assigned_output cfg r p input expanded_input vc e.

(** [router_hold] one flit later: the crossbar slot is bound to VC 0 and the
    tail flit of the packet has arrived. *)
Definition flit_tail : Flit := mkFlit 10 0 43 0 true.
Definition router_bound : Router :=
  mkRouter [[mkVC active 4 [flit_tail] [(0, 0, 0)] 0 0 0]]
           [mkBufferState [true] [1] 4] [0] [0] [true] [0] [0] [0] [].

(** ** The constructor (lines 46-72)

    The base class [IQRouterBase] (not in this file) sets up the buffers,
    the trackers and the switch-hold tables; [base] is the router it leaves.
    [Error] ends the program. *)

Inductive constructed : Set :=
| Constructed (r : Router)
| Error_requires_lookahead_routing.   (* line 53 *)

(** Lines 68-69. *)
Definition init_sw_rr_offset (cfg : Config) (v : list Z) : list Z :=
  foldl (fun v i => vset v i (Z.rem i (_input_speedup cfg))) v
        (seqZ 0 (_inputs cfg * _input_speedup cfg)).

Definition IQRouterSplit (cfg : Config) (_routing_delay : Z) (base : Router)
  : constructed :=
  if negb (_routing_delay =? 0) then Error_requires_lookahead_routing
  else
    let r := set_vc_rr_offset base (replicate (Z.to_nat (_inputs cfg * _vcs cfg)) 0) in
    let r := set_sw_rr_offset r
               (init_sw_rr_offset cfg
                  (replicate (Z.to_nat (_inputs cfg * _input_speedup cfg)) 0)) in
    Constructed
      (set_use_fast_path r (replicate (Z.to_nat (_inputs cfg * _vcs cfg)) true)).

(** Lines 58-59: the number of allocator iterations falls back to the
    generic setting when the switch-allocator setting is 0. *)
Definition sw_alloc_iters (sw_alloc_iters alloc_iters : Z) : Z :=
  if sw_alloc_iters =? 0 then alloc_iters else sw_alloc_iters.

(** What the base class leaves in [router_single]. *)
Definition base_single : Router :=
  mkRouter (_buf router_single) (_next_buf router_single) [] [] []
           [-1] [-1; -1] [-1] [].

(** The test a route candidate has to pass to count for a request (lines
    171-189 and 330-348): for a VC in [vc_alloc] the output VC is available,
    for an active VC it is the assigned output VC, and it is not full. *)
Definition cand_eligible (cur_buf : Buffer) (vc : Z) (vc_state : eVCState)
    (dest_buf : BufferState) (c : Z * Z) : bool :=
  negb (eVCState_eqb vc_state vc_alloc && negb (IsAvailableFor dest_buf c.1))
  && negb (eVCState_eqb vc_state active && negb (c.1 =? GetOutputVC cur_buf vc))
  && negb (IsFullFor dest_buf c.1).

(** An [AddRequest] call that the state of the router justifies: it is made
    for a VC of some input that holds a flit and is ready, on the crossbar
    input of that VC and a crossbar output of some output port, with the
    priority of a route candidate at that port that passes the test.  A call
    of the slow path names a slot that is not held on either side; a call of
    the fast path is made for a VC flagged for the fast path. *)
Definition request_justified (cfg : Config) (r : Router) (e : event) : Prop :=
  ∃ p input vc output pri,
    let cur_buf := vget (_buf r) input in
    let ei := input * _input_speedup cfg + Z.rem vc (_input_speedup cfg) in
    let eo := output * _output_speedup cfg + Z.rem input (_output_speedup cfg) in
    e = EvAddRequest p ei eo vc pri (GetPriority cur_buf vc)
    ∧ 0 ≤ input < _inputs cfg
    ∧ Empty cur_buf vc = false
    ∧ not_ready cfg cur_buf vc = false
    ∧ pri ∈ (filter (fun c => cand_eligible cur_buf vc (GetState cur_buf vc)
                                (vget (_next_buf r) output) c = true)
                    (candidates (GetRouteSet cur_buf vc) output)).*2
    ∧ match p with
      | SlowPath => vget (_switch_hold_in r) ei = -1 ∧ vget (_switch_hold_out r) eo = -1
      | FastPath => vget (_use_fast_path r) (input * _vcs cfg + vc) = true
      end.

(** A router whose VC 0 waits in [vc_alloc] for an output VC while the only
    candidate of its route set is taken downstream. *)
Definition router_taken : Router :=
  mkRouter [[mkVC vc_alloc 3 [flit_a] [(0, 0, 0)] (-1) (-1) 0]]
           [mkBufferState [true] [0] 4] [0] [0] [true] [-1] [-1] [-1] [].

(** Two routers with the same switch-hold tables and the same round-robin
    pointers. *)
Definition same_tables (r1 r2 : Router) : Prop :=
  _switch_hold_in r1 = _switch_hold_in r2
  ∧ _switch_hold_vc r1 = _switch_hold_vc r2
  ∧ _switch_hold_out r1 = _switch_hold_out r2
  ∧ _sw_rr_offset r1 = _sw_rr_offset r2.

(** No crossbar slot is bound. *)
Definition no_bindings (r : Router) : Prop :=
  Forall (fun x => x = -1) (_switch_hold_in r)
  ∧ Forall (fun x => x = -1) (_switch_hold_vc r)
  ∧ Forall (fun x => x = -1) (_switch_hold_out r).

(** The request matrix that a sequence of [AddRequest] calls builds from the
    empty one. *)
Definition replay_step (m : gmap (Z * Z) Request) (e : event) : gmap (Z * Z) Request :=
  match e with
  | EvAddRequest _ i o v p q => AddRequest m i o v p q
  | _ => m
  end.
Definition replay (evs : list event) : gmap (Z * Z) Request :=
  foldl replay_step ∅ evs.

(** The round-robin invariant: the tables cover every expanded input, the
    round-robin pointer of a slot is a non-negative VC of that slot, and so
    is the VC of a bound slot. *)
Definition rr_inv (cfg : Config) (r : Router) : Prop :=
  _inputs cfg * _input_speedup cfg ≤ Z.of_nat (length (_sw_rr_offset r))
  ∧ _inputs cfg * _input_speedup cfg ≤ Z.of_nat (length (_switch_hold_in r))
  ∧ _inputs cfg * _input_speedup cfg ≤ Z.of_nat (length (_switch_hold_vc r))
  ∧ ∀ input s, 0 ≤ input < _inputs cfg → 0 ≤ s < _input_speedup cfg →
      let ei := input * _input_speedup cfg + s in
      (0 ≤ vget (_sw_rr_offset r) ei
       ∧ Z.rem (vget (_sw_rr_offset r) ei) (_input_speedup cfg) = s)
      ∧ (vget (_switch_hold_in r) ei ≠ -1 →
         0 ≤ vget (_switch_hold_vc r) ei
         ∧ Z.rem (vget (_switch_hold_vc r) ei) (_input_speedup cfg) = s).

(** Every request in the matrix is labelled with a non-negative VC of the
    speedup slot of its expanded input. *)
Definition reqs_in_class (cfg : Config) (requests : gmap (Z * Z) Request) : Prop :=
  ∀ input s eo req, 0 ≤ input < _inputs cfg → 0 ≤ s < _input_speedup cfg →
    requests !! (input * _input_speedup cfg + s, eo) = Some req →
    0 ≤ r_label req ∧ Z.rem (r_label req) (_input_speedup cfg) = s.

(** ** Counting the calls of a cycle *)

Inductive kind : Set :=
| KAddRequest | KWriteAllNull | KTakeBuffer | KRemoveFlit | KNewCredit
| KCreditEntry | KSendingFlit | KCrossbarWrite | KQueueVC | KCreditWrite.

Definition kind_eqb (a b : kind) : bool :=
  match a, b with
  | KAddRequest, KAddRequest | KWriteAllNull, KWriteAllNull
  | KTakeBuffer, KTakeBuffer | KRemoveFlit, KRemoveFlit | KNewCredit, KNewCredit
  | KCreditEntry, KCreditEntry | KSendingFlit, KSendingFlit
  | KCrossbarWrite, KCrossbarWrite | KQueueVC, KQueueVC
  | KCreditWrite, KCreditWrite => true
  | _, _ => false
  end.

Definition kind_of (e : event) : kind :=
  match e with
  | EvAddRequest _ _ _ _ _ _ => KAddRequest
  | EvCrossbarWriteAllNull => KWriteAllNull
  | EvTakeBuffer _ _ => KTakeBuffer
  | EvRemoveFlit _ _ _ => KRemoveFlit
  | EvNewCredit _ => KNewCredit
  | EvCreditEntry _ _ => KCreditEntry
  | EvSendingFlit _ _ => KSendingFlit
  | EvCrossbarWrite _ _ => KCrossbarWrite
  | EvQueueVC _ _ => KQueueVC
  | EvCreditWrite _ _ => KCreditWrite
  end.

(** How many calls of kind [k] a piece of trace holds. *)
Fixpoint count (k : kind) (evs : list event) : nat :=
  match evs with
  | [] => 0
  | e :: rest => ((if kind_eqb (kind_of e) k then 1 else 0) + count k rest)%nat
  end.

(** The inputs written to the credit pipeline, in order. *)
Definition credit_write_input (e : event) : option Z :=
  match e with EvCreditWrite _ i => Some i | _ => None end.

(** A piece of trace in which every flit dequeued is entered in a credit,
    reported downstream and written to the crossbar, at most [n] flits are,
    and the allocator is left alone. *)
Definition conserved (n : nat) (evs : list event) : Prop :=
  count KCreditEntry evs = count KRemoveFlit evs
  ∧ count KSendingFlit evs = count KRemoveFlit evs
  ∧ count KCrossbarWrite evs = count KRemoveFlit evs
  ∧ (count KRemoveFlit evs ≤ n)%nat
  ∧ count KAddRequest evs = 0%nat.

(** How one fast-path flag may differ over a piece of an allocation step
    whose calls are [evs]: it is as before, or it is off and belongs to the
    fast-path VC that request building chose for some input, or it is on and
    belongs to a VC that had a flit dequeued. *)
Definition flag_step (cfg : Config) (fast_path_vcs : list Z) (evs : list event)
    (before after : bool) (k : Z) : Prop :=
  after = before
  ∨ (after = false
     ∧ ∃ input, 0 ≤ input < _inputs cfg ∧ 0 ≤ vget fast_path_vcs input
                ∧ k = input * _vcs cfg + vget fast_path_vcs input)
  ∨ (after = true
     ∧ ∃ input vc f, 0 ≤ input < _inputs cfg ∧ k = input * _vcs cfg + vc
                     ∧ EvRemoveFlit input vc f ∈ evs).

(** The expanded output of a crossbar write. *)
Definition crossbar_output (e : event) : option Z :=
  match e with EvCrossbarWrite _ eo => Some eo | _ => None end.

(** No expanded input of the router holds a crossbar slot. *)
Definition inputs_unbound (cfg : Config) (r : Router) : Prop :=
  ∀ ei, 0 ≤ ei < _inputs cfg * _input_speedup cfg → vget (_switch_hold_in r) ei = -1.

(** Two inputs, two outputs, one VC each, switches not held.  Input 0 has a
    packet for output 0; input 1 has a packet that may leave on output 0 or
    on output 1. *)
Definition cfg_pair : Config := mkConfig 2 2 1 1 1 1 false.
Definition router_pair : Router :=
  mkRouter [[mkVC vc_alloc 3 [flit_a] [(0, 0, 0)] (-1) (-1) 0];
            [mkVC vc_alloc 3 [flit_b] [(0, 0, 0); (1, 0, 0)] (-1) (-1) 0]]
           [free_tracker 1 4; free_tracker 1 4] [0; 0] [0; 0] [true; true]
           [-1; -1] [-1; -1] [-1; -1] [].

(** VC [v] of input [i]. *)
Definition vc_at (bufs : list Buffer) (i v : Z) : VC := vget (vget bufs i) v.

(** The moves of a VC state that grant resolution makes: a VC in [vc_alloc]
    becomes active, an active VC becomes idle. *)
Definition state_advances (before after : eVCState) : Prop :=
  match before, after with
  | idle, idle | vc_alloc, _ | active, active | active, idle => True
  | _, _ => False
  end.

(** A VC after some grants: its state has advanced, its queue has lost
    flits at the front, its route set and priority are as before. *)
Definition vc_advances (v v' : VC) : Prop :=
  state_advances (vc_state v) (vc_state v')
  ∧ (∃ k, vc_flits v' = drop k (vc_flits v))
  ∧ vc_route_set v' = vc_route_set v
  ∧ vc_pri v' = vc_pri v.

Definition bufs_advance (bufs bufs' : list Buffer) : Prop :=
  ∀ i v, vc_advances (vc_at bufs i v) (vc_at bufs' i v).

(** A downstream tracker after some grants: the buffer size is as before,
    no reservation has been dropped, no occupancy has gone down, and an
    occupancy that was within the buffer size still is. *)
Definition tracker_advances (d d' : BufferState) : Prop :=
  bs_vc_size d' = bs_vc_size d
  ∧ ∀ ov, (vget (bs_in_use d) ov = true → vget (bs_in_use d') ov = true)
          ∧ vget (bs_occupancy d) ov ≤ vget (bs_occupancy d') ov
          ∧ (vget (bs_occupancy d) ov ≤ bs_vc_size d →
             vget (bs_occupancy d') ov ≤ bs_vc_size d).

Definition trackers_advance (t t' : list BufferState) : Prop :=
  ∀ o, tracker_advances (vget t o) (vget t' o).

(** The assertions on the fast-path VC that loses its slot (lines 472, 473
    and 629). *)
Definition demotion_assertion (w : assertion) : bool :=
  match w with A_fast_flag | A_fast_front => true | _ => false end.

(** One input with input speedup 2 and three VCs.  VCs 0 and 1 have lost the
    fast path and each holds a packet, for output 0 and output 1; VC 2 is
    flagged for the fast path and holds a packet for output 1. *)
Definition cfg_twice : Config := mkConfig 1 2 3 2 1 1 false.
Definition router_twice : Router :=
  mkRouter [[mkVC vc_alloc 3 [flit_a] [(0, 0, 0)] (-1) (-1) 0;
             mkVC vc_alloc 3 [mkFlit 11 1 45 0 true] [(1, 0, 0)] (-1) (-1) 0;
             mkVC vc_alloc 3 [mkFlit 12 2 46 0 true] [(1, 0, 0)] (-1) (-1) 0]]
           [free_tracker 1 4; free_tracker 1 4]
           [0; 0; 0] [0; 1] [false; false; true]
           [-1; -1] [-1; -1] [-1; -1] [].

(** The slow path has called [AddRequest] for VC [vc] on the crossbar slot
    ([ei], [eo]), with an input priority of at least [lo] and output
    priority [q]. *)
Definition offered (ei eo vc lo q : Z) (a : ReqSt) : Prop :=
  ∃ pri, lo ≤ pri ∧ EvAddRequest SlowPath ei eo vc pri q ∈ calls a.

(** Two packets interleaved on one input (one input, two outputs, two
    VCs, no speedup, allocation delay 1).  In [router_before] VC 0 is active
    in the middle of a packet for output 1 and holds its last two flits; the
    head flit of a second packet has just arrived in VC 1, which has been in
    state [vc_alloc] for 0 cycles.  Every fast-path flag has the value the
    constructor gave it.  [router_interleaved] is the router one cycle
    later: the allocation step of [router_before] has moved a flit of VC 0,
    and every VC has been in its state for one more cycle. *)
Definition cfg_inter : Config := mkConfig 1 2 2 1 1 1 false.
Definition flit_a2 : Flit := mkFlit 21 0 42 0 false.
Definition flit_a3 : Flit := mkFlit 22 0 42 0 true.
Definition flit_b0 : Flit := mkFlit 23 1 42 0 false.
Definition router_before : Router :=
  mkRouter [[mkVC active 4 [flit_a2; flit_a3] [(1, 0, 0)] 1 0 0;
             mkVC vc_alloc 0 [flit_b0] [(0, 0, 0)] (-1) (-1) 0]]
           [free_tracker 2 4; mkBufferState [true; false] [2; 0] 4]
           [0; 0] [0] [true; true] [-1] [-1; -1] [-1] [].
Definition router_interleaved : Router :=
  mkRouter [[mkVC active 5 [flit_a3] [(1, 0, 0)] 1 0 0;
             mkVC vc_alloc 1 [flit_b0] [(0, 0, 0)] (-1) (-1) 0]]
           [free_tracker 2 4; mkBufferState [true; false] [3; 0] 4]
           [0; 0] [0] [true; true] [-1] [-1; -1] [-1] [].

(** A VC that has spent one more cycle in its state. *)
Definition a_cycle_older (v : VC) : VC :=
  mkVC (vc_state v) (vc_state_time v + 1) (vc_flits v) (vc_route_set v)
       (vc_out_port v) (vc_out_vc v) (vc_pri v).

(** [cfg_held] with input 0 bound to output 1 in the middle of a packet, and
    a one-flit packet for output 1 in VC 0 of input 1, which is flagged for
    the fast path. *)
Definition router_contended : Router :=
  mkRouter [[mkVC active 5 [flit_c] [(1, 0, 0)] 1 0 0; no_vc];
            [mkVC vc_alloc 3 [flit_tail] [(1, 1, 0)] (-1) (-1) 0; no_vc]]
           [free_tracker 2 4; mkBufferState [true; false] [1; 0] 4]
           [0; 0; 0; 0] [0; 0] [false; true; true; true]
           [1; -1] [-1; 0] [0; -1] [].

(** * Properties *)

(** ** Vectors and loops *)

Lemma vget_vset_eq {A} `{Inhabited A} (v : list A) (i : Z) (x : A) :
  0 ≤ i < Z.of_nat (length v) → vget (vset v i x) i = x.
Proof.
  intros Hi. unfold vget, vset.
  destruct (Z.ltb_spec i 0) as [Hneg|_]; [lia|].
  apply list_lookup_total_insert_eq. lia.
Qed.

Lemma vget_vset_ne {A} `{Inhabited A} (v : list A) (i j : Z) (x : A) :
  i ≠ j → vget (vset v i x) j = vget v j.
Proof.
  intros Hij. unfold vget, vset.
  destruct (Z.ltb_spec j 0) as [|Hj]; [reflexivity|].
  destruct (Z.ltb_spec i 0) as [|Hi]; [reflexivity|].
  apply list_lookup_total_insert_ne. lia.
Qed.

Lemma vget_replicate {A} `{Inhabited A} (n : nat) (x : A) (i : Z) :
  0 ≤ i < Z.of_nat n → vget (replicate n x) i = x.
Proof.
  intros Hi. unfold vget. destruct (Z.ltb_spec i 0); [lia|].
  apply list_lookup_total_correct, lookup_replicate_2. lia.
Qed.

Lemma length_vset {A} (v : list A) (i : Z) (x : A) :
  length (vset v i x) = length v.
Proof. unfold vset. destruct (i <? 0); [reflexivity | apply length_insert]. Qed.

(** A property kept by every iteration that returns is kept by the loop. *)
Lemma for_loop_inv {S} (I : S → Prop) (body : Z → S → result (ctl S))
    (idxs : list Z) (s s' : S) :
  I s →
  (∀ i s1 c, i ∈ idxs → I s1 → body i s1 = Ok c → I (ctl_state c)) →
  for_loop body idxs s = Ok s' → I s'.
Proof.
  revert s. induction idxs as [|i rest IH]; intros s Hs Hbody Hrun; simpl in Hrun.
  - congruence.
  - destruct (body i s) as [[s1|s1]|w] eqn:Hb; [| |discriminate].
    + apply (IH s1); [|intros; eapply Hbody; eauto; by right|done].
      apply (Hbody i s (Continue s1)); [by left|done|done].
    + inversion Hrun; subst s'.
      apply (Hbody i s (Break s1)); [by left|done|done].
Qed.

(** ** Request building *)

(** C1, evaluated on the code.  The specification has the slow path skip
    every VC flagged for the fast path.  The VC loop of the slow path (lines
    98-236) never reads [_use_fast_path]: in [router_single] VC 0 of input 0
    carries the flag, and the slow path issues the request for it. *)
Theorem slow_path_requests_flagged_vc :
  vget (_use_fast_path router_single) (0 * _vcs cfg_single + 0) = true
  ∧ ∃ a, slow_path cfg_single router_single 0 (mkReqSt ∅ []) = Ok a
         ∧ calls a = [EvAddRequest SlowPath 0 1 0 0 0].
Proof.
  split; [reflexivity|].
  eexists; split; vm_compute; reflexivity.
Qed.

(** C2, evaluated on the code.  The specification has at most one of the two
    passes call [AddRequest] for a given (expanded input, VC).  In
    [router_held] the slow path requests output 0 for VC 0 of input 0 and
    leaves out output 1, whose slot is held; the fast path, which does not
    look at the hold tables, then requests output 1 for the same VC. *)
Theorem both_passes_request_same_vc :
  ∃ fast_path_vcs a,
    build_requests cfg_held router_held = Ok (fast_path_vcs, a)
    ∧ calls a = [EvAddRequest SlowPath 0 0 0 0 0; EvAddRequest FastPath 0 1 0 0 0]
    ∧ omap (request_of SlowPath) (calls a) = [(0, 0, 0)]
    ∧ omap (request_of FastPath) (calls a) = [(0, 1, 0)].
Proof.
  do 2 eexists; split; [vm_compute; reflexivity|].
  repeat split; vm_compute; reflexivity.
Qed.

Lemma AddRequest_other (m : gmap (Z * Z) Request) (i o i' o' l p q : Z) :
  (i, o) ≠ (i', o') → AddRequest m i o l p q !! (i', o') = m !! (i', o').
Proof.
  intros Hne. unfold AddRequest.
  destruct (m !! (i, o)) as [old|]; [destruct (r_in_pri old <? p)|];
    try reflexivity; by apply lookup_insert_ne.
Qed.

Section FastPathYields.

Variable cfg : Config.
Variable r : Router.

Lemma yielded_refl (a0 : ReqSt) : yielded a0 a0.
Proof.
  exists []. split; [by rewrite app_nil_r|]. split; [|done].
  intros e He. by apply elem_of_nil in He.
Qed.

Lemma yielded_add (a0 a : ReqSt) (i o v p q : Z) :
  yielded a0 a → ReadRequest (reqs a) i o < 0 →
  yielded a0 (add_request FastPath a i o v p q).
Proof.
  intros (new & Hcalls & Hnew & Hkept) Hfree.
  assert (Hfree0 : ReadRequest (reqs a0) i o < 0).
  { destruct (Z.lt_ge_cases (ReadRequest (reqs a0) i o) 0) as [|Hge]; [done|].
    unfold ReadRequest in Hfree. rewrite (Hkept i o Hge) in Hfree.
    unfold ReadRequest in Hge. lia. }
  exists (new ++ [EvAddRequest FastPath i o v p q]). simpl. split; [|split].
  - by rewrite Hcalls, app_assoc.
  - intros e [He|He]%elem_of_app; [by apply Hnew|].
    apply list_elem_of_singleton in He as ->. by exists i, o, v.
  - intros i' o' Hge. rewrite AddRequest_other; [by apply Hkept|].
    intros [= -> ->]. lia.
Qed.

(** Lines 306-318: a slot that already holds a request is left alone; an
    active VC leaves the output loop, a VC in [vc_alloc] goes on to the
    next output. *)
Lemma fast_output_body_taken (input vc : Z) (cur_buf : Buffer)
    (vc_state : eVCState) (route_set : OutputSet) (expanded_input output0 : Z)
    (a : ReqSt) :
  let output := if eVCState_eqb vc_state active then GetOutputPort cur_buf vc
                else output0 in
  0 ≤ ReadRequest (reqs a) expanded_input
        (output * _output_speedup cfg + Z.rem input (_output_speedup cfg)) →
  fast_output_body cfg r input vc cur_buf vc_state route_set expanded_input output0 a
  = Ok (if eVCState_eqb vc_state active then Break a else Continue a).
Proof.
  intros output Hge. unfold fast_output_body. fold output.
  destruct (Z.geb_spec
              (ReadRequest (reqs a) expanded_input
                 (output * _output_speedup cfg + Z.rem input (_output_speedup cfg))) 0)
    as [_|Hlt]; [|lia].
  by destruct (eVCState_eqb vc_state active).
Qed.

Lemma fast_output_body_yielded (a0 : ReqSt) (input vc : Z) (cur_buf : Buffer)
    (vc_state : eVCState) (route_set : OutputSet) (expanded_input output0 : Z)
    (a : ReqSt) (c : ctl ReqSt) :
  yielded a0 a →
  fast_output_body cfg r input vc cur_buf vc_state route_set expanded_input output0 a
  = Ok c →
  yielded a0 (ctl_state c).
Proof.
  intros Hy. unfold fast_output_body.
  set (output := if eVCState_eqb vc_state active then _ else _).
  set (eo := output * _output_speedup cfg + Z.rem input (_output_speedup cfg)).
  destruct (Z.geb_spec (ReadRequest (reqs a) expanded_input eo) 0) as [_|Hlt].
  - destruct (eVCState_eqb vc_state active); intros [= <-]; exact Hy.
  - destruct (assert _ _) as [[]|w]; simpl; [|discriminate].
    destruct (scan_candidates _ _ _ _ _ _ _) as [do_request in_priority].
    destruct do_request, (eVCState_eqb vc_state active);
      intros [= <-]; simpl; auto using yielded_add.
Qed.

Lemma fast_vc_body_yielded (a0 : ReqSt) (input vc : Z) (st : Z * ReqSt)
    (c : ctl (Z * ReqSt)) :
  yielded a0 st.2 → fast_vc_body cfg r input vc st = Ok c →
  yielded a0 (ctl_state c).2.
Proof.
  destruct st as [fv a]. simpl. intros Hy. unfold fast_vc_body.
  destruct (vget (_use_fast_path r) _); [|by intros [= <-]].
  destruct (Empty _ _); [by intros [= <-]|].
  destruct (FrontFlit _ _) as [f|]; [|discriminate].
  destruct (not_ready _ _ _); [by intros [= <-]|].
  destruct (assert _ _) as [[]|w]; simpl; [|discriminate].
  destruct (for_loop _ _ a) as [a'|w] eqn:Hloop; simpl; [|discriminate].
  intros [= <-]. simpl.
  eapply (for_loop_inv (yielded a0)); [exact Hy| |exact Hloop].
  intros i s1 c1 _ Hs1 Hb. eapply fast_output_body_yielded; eauto.
Qed.

Lemma fast_path_yielded (input : Z) (a : ReqSt) (fvc : Z) (a' : ReqSt) :
  fast_path cfg r input a = Ok (fvc, a') → yielded a a'.
Proof.
  unfold fast_path. intros Hrun.
  apply (for_loop_inv (fun st => yielded a st.2)) in Hrun;
    [exact Hrun|apply yielded_refl|].
  intros i s1 c _ Hs1 Hb. eapply fast_vc_body_yielded; eauto.
Qed.

End FastPathYields.

(** C4.  When the fast path comes to a crossbar slot in which the allocator
    already holds a request, it adds nothing for that slot: an active VC
    leaves its output loop there, a VC in state [vc_alloc] goes on with the
    next output.  Hence over the whole fast path of an input, every slot that
    held a request when the fast path began holds the same request when it
    ends, and no [AddRequest] call of the fast path names such a slot. *)
Theorem fast_path_yields_to_slow_path (cfg : Config) (r : Router) (input : Z)
    (a : ReqSt) :
  (∀ vc cur_buf vc_state route_set expanded_input output0,
     let output := if eVCState_eqb vc_state active then GetOutputPort cur_buf vc
                   else output0 in
     0 ≤ ReadRequest (reqs a) expanded_input
           (output * _output_speedup cfg + Z.rem input (_output_speedup cfg)) →
     fast_output_body cfg r input vc cur_buf vc_state route_set expanded_input output0 a
     = Ok (if eVCState_eqb vc_state active then Break a else Continue a))
  ∧ (∀ fvc a',
       fast_path cfg r input a = Ok (fvc, a') →
       ∃ new, calls a' = calls a ++ new
         ∧ ∀ i o, 0 ≤ ReadRequest (reqs a) i o →
             reqs a' !! (i, o) = reqs a !! (i, o)
             ∧ ∀ e, e ∈ new → slot_of e ≠ Some (i, o)).
Proof.
  split.
  - intros. by apply fast_output_body_taken.
  - intros fvc a' Hrun.
    destruct (fast_path_yielded cfg r input a fvc a' Hrun) as (new & Hcalls & Hnew & Hkept).
    exists new. split; [done|]. intros i o Hge. split; [by apply Hkept|].
    intros e He Hslot. destruct (Hnew e He) as (i' & o' & v & Hreq & Hfree).
    destruct e as [[] i0 o0 v0 p0 q0| | | | | | | | |]; try discriminate.
    simpl in Hreq, Hslot. injection Hreq as -> -> ->. injection Hslot as -> ->. lia.
Qed.

Lemma fast_path_yields_to_slow_path_witness :
  0 ≤ ReadRequest (reqs reqs_single) 0 1
  ∧ fast_output_body cfg_single router_single 0 0 (vget (_buf router_single) 0)
      vc_alloc [(1, 0, 0)] 0 1 reqs_single = Ok (Continue reqs_single)
  ∧ fast_path cfg_single router_single 0 reqs_single = Ok (0, reqs_single)
  ∧ ∃ new, calls reqs_single = calls reqs_single ++ new
      ∧ ∀ i o, 0 ≤ ReadRequest (reqs reqs_single) i o →
          reqs reqs_single !! (i, o) = reqs reqs_single !! (i, o)
          ∧ ∀ e, e ∈ new → slot_of e ≠ Some (i, o).
Proof.
  destruct (fast_path_yields_to_slow_path cfg_single router_single 0 reqs_single)
    as [Hstep Hpass].
  assert (Hge : 0 ≤ ReadRequest (reqs reqs_single) 0 1) by (vm_compute; discriminate).
  assert (Hrun : fast_path cfg_single router_single 0 reqs_single = Ok (0, reqs_single))
    by (vm_compute; reflexivity).
  split; [exact Hge|]. split; [|split; [exact Hrun|]].
  - exact (Hstep 0 (vget (_buf router_single) 0) vc_alloc [(1, 0, 0)] 0 1 Hge).
  - exact (Hpass 0 reqs_single Hrun).
Defined.

Lemma FrontFlit_nonempty (b : Buffer) (vc : Z) :
  Empty b vc = false → ∃ f, FrontFlit b vc = Some f.
Proof.
  unfold Empty, FrontFlit. destruct (vc_flits (vget b vc)) as [|f fs]; [done|].
  intros _. by exists f.
Qed.

(** The assertions a loop can fail are those its body can fail. *)
Lemma for_loop_abort {S} (P : assertion → Prop) (body : Z → S → result (ctl S))
    (idxs : list Z) (s : S) (w : assertion) :
  (∀ i s1 w1, body i s1 = Abort w1 → P w1) →
  for_loop body idxs s = Abort w → P w.
Proof.
  intros Hbody. revert s. induction idxs as [|i rest IH]; intros s; simpl; [done|].
  destruct (body i s) as [[s1|s1]|w1] eqn:Hb; [apply IH|done|].
  intros [= <-]. by eapply Hbody.
Qed.

Section SingleFastVC.

Variable cfg : Config.
Variable r : Router.
Variable input : Z.

Lemma fast_vc_body_eq (vc fv : Z) (a : ReqSt) :
  fast_vc_body cfg r input vc (fv, a) =
  if fast_eligible cfg r input vc then
    assert (fv <? 0) A_single_fast_vc;;
    a' ← for_loop (fast_output_body cfg r input vc (vget (_buf r) input)
                     (GetState (vget (_buf r) input) vc)
                     (GetRouteSet (vget (_buf r) input) vc)
                     (input * _input_speedup cfg + Z.rem vc (_input_speedup cfg)))
                  (seqZ 0 (_outputs cfg)) a;
    Ok (Continue (vc, a'))
  else Ok (Continue (fv, a)).
Proof.
  unfold fast_vc_body, fast_eligible.
  destruct (vget (_use_fast_path r) _); simpl; [|done].
  destruct (Empty _ vc) eqn:He; simpl; [done|].
  destruct (FrontFlit_nonempty _ _ He) as [f ->].
  by destruct (not_ready _ _ _).
Qed.

Lemma fast_output_body_abort (vc : Z) (cur_buf : Buffer) (vc_state : eVCState)
    (route_set : OutputSet) (ei output0 : Z) (a : ReqSt) (w : assertion) :
  fast_output_body cfg r input vc cur_buf vc_state route_set ei output0 a = Abort w →
  w = A_active_has_route.
Proof.
  unfold fast_output_body.
  destruct (_ >=? 0); [by destruct (eVCState_eqb vc_state active)|].
  unfold assert. destruct (_ || _); simpl; [|by intros [= <-]].
  destruct (scan_candidates _ _ _ _ _ _ _) as [[] p];
    by destruct (eVCState_eqb vc_state active).
Qed.

(** The run of the VC loop from any point: [fv] is the fast-path VC chosen
    so far, [l] the VCs still to visit. *)
Lemma fast_vcs_run (l : list Z) (fv : Z) (a : ReqSt) :
  Forall (fun vc => 0 ≤ vc) l →
  let chosen := filter (fun vc => fast_eligible cfg r input vc = true) l in
  match for_loop (fast_vc_body cfg r input) l (fv, a) with
  | Ok (fv', a') =>
      (chosen = [] ∧ fv' = fv) ∨ (fv < 0 ∧ chosen = [fv'])
  | Abort w =>
      w = A_active_has_route
      ∨ (w = A_single_fast_vc
         ∧ ((0 ≤ fv ∧ (1 ≤ length chosen)%nat) ∨ (2 ≤ length chosen)%nat))
  end.
Proof.
  revert fv a. induction l as [|vc rest IH]; intros fv a Hpos; cbv zeta; cbn [for_loop].
  { by left. }
  apply Forall_cons in Hpos as [Hvc Hrest].
  rewrite fast_vc_body_eq, filter_cons.
  destruct (fast_eligible cfg r input vc) eqn:Hel.
  - rewrite decide_True by done. unfold assert.
    destruct (Z.ltb_spec fv 0) as [Hfv|Hfv]; simpl.
    + destruct (for_loop _ (seqZ 0 (_outputs cfg)) a) as [a1|w] eqn:Hout; simpl.
      * specialize (IH vc a1 Hrest). cbv zeta in IH.
        destruct (for_loop (fast_vc_body cfg r input) rest (vc, a1)) as [[fv' a']|w].
        -- destruct IH as [[-> ->]|[Hneg _]]; [by right|lia].
        -- destruct IH as [->|[-> Hlen]]; [by left|]. right. split; [done|].
           right. simpl. lia.
      * left. eapply (for_loop_abort (fun w => w = A_active_has_route)); [|exact Hout].
        intros i s1 w1. apply fast_output_body_abort.
    + right. split; [done|]. left. simpl. lia.
  - rewrite decide_False by congruence. apply IH, Hrest.
Qed.

End SingleFastVC.

Lemma two_in_list {A} (l : list A) (x y : A) :
  x ≠ y → x ∈ l → y ∈ l → (2 ≤ length l)%nat.
Proof.
  intros Hne Hx Hy. destruct l as [|z [|z' l]]; simpl; [|exfalso|lia].
  - by apply elem_of_nil in Hx.
  - apply list_elem_of_singleton in Hx, Hy. congruence.
Qed.

(** C5, evaluated on the code.  At most one VC of an input is taken as its
    fast-path VC in a cycle: when the fast path of an input completes, the
    VCs that passed the fast-path test (flagged, holding a flit, ready) are
    none at all, and [fast_path_vcs[input]] is [-1], or exactly the one VC
    recorded there; and when two or more VCs pass the test the step aborts,
    on the assertion of line 287 or on a failed route-set assertion of the
    first VC before that.  But the assertion can fail: the flags are all set
    by the constructor (line 71) and are only cleared for a VC that loses a
    grant, so with the flags as the constructor leaves them the step aborts
    as soon as two VCs of one input hold a flit and are ready.  Two packets
    interleaved on one input get there: the step of [router_before]
    completes, moves a flit of VC 0 over the fast path and leaves every flag
    set, and one cycle later, in [router_interleaved], the step aborts on
    line 287, whatever the allocator. *)
Theorem single_fast_path_vc (cfg : Config) (r : Router) (input : Z) (a : ReqSt) :
  let chosen := filter (fun vc => fast_eligible cfg r input vc = true)
                       (seqZ 0 (_vcs cfg)) in
  (∀ fvc a', fast_path cfg r input a = Ok (fvc, a') →
             (chosen = [] ∧ fvc = -1) ∨ chosen = [fvc])
  ∧ ((2 ≤ length chosen)%nat →
     fast_path cfg r input a = Abort A_single_fast_vc
     ∨ fast_path cfg r input a = Abort A_active_has_route)
  ∧ (∀ base r0 v1 v2,
       IQRouterSplit cfg 0 base = Constructed r0 →
       _use_fast_path r = _use_fast_path r0 →
       0 ≤ input < _inputs cfg → 0 ≤ v1 < v2 → v2 < _vcs cfg →
       Empty (vget (_buf r) input) v1 = false →
       not_ready cfg (vget (_buf r) input) v1 = false →
       Empty (vget (_buf r) input) v2 = false →
       not_ready cfg (vget (_buf r) input) v2 = false →
       fast_path cfg r input a = Abort A_single_fast_vc
       ∨ fast_path cfg r input a = Abort A_active_has_route)
  ∧ (∃ r', _Alloc cfg_inter (greedy_for cfg_inter) router_before = Ok r'
       ∧ _buf router_interleaved = map (map a_cycle_older) (_buf r')
       ∧ _next_buf router_interleaved = _next_buf r'
       ∧ _vc_rr_offset router_interleaved = _vc_rr_offset r'
       ∧ _sw_rr_offset router_interleaved = _sw_rr_offset r'
       ∧ _use_fast_path router_interleaved = _use_fast_path r'
       ∧ _switch_hold_in router_interleaved = _switch_hold_in r'
       ∧ _switch_hold_out router_interleaved = _switch_hold_out r'
       ∧ _switch_hold_vc router_interleaved = _switch_hold_vc r')
  ∧ (∀ Allocate, _Alloc cfg_inter Allocate router_interleaved = Abort A_single_fast_vc).
Proof.
  intros chosen.
  assert (Hpos : Forall (fun vc => 0 ≤ vc) (seqZ 0 (_vcs cfg))).
  { apply Forall_seqZ. lia. }
  pose proof (fast_vcs_run cfg r input _ (-1) a Hpos) as Hrun.
  simpl in Hrun. fold chosen in Hrun.
  assert (Htwo : (2 ≤ length chosen)%nat →
            fast_path cfg r input a = Abort A_single_fast_vc
            ∨ fast_path cfg r input a = Abort A_active_has_route).
  { unfold fast_path. destruct (for_loop _ _ (-1, a)) as [[fv' a1]|w].
    - intros Hlen. destruct Hrun as [[Hnil _]|[_ Hone]].
      + rewrite Hnil in Hlen. simpl in Hlen. lia.
      + rewrite Hone in Hlen. simpl in Hlen. lia.
    - intros _. destruct Hrun as [->|[-> _]]; auto. }
  split; [|split; [exact Htwo|split; [|split]]].
  - unfold fast_path. destruct (for_loop _ _ (-1, a)) as [[fv' a1]|w]; [|done].
    intros fvc a' [= <- <-]. destruct Hrun as [[? ?]|[_ ?]]; auto.
  - intros base r0 v1 v2 Hcons Hflags Hin Hv1 Hv2 He1 Hr1 He2 Hr2. apply Htwo.
    assert (Hflag : ∀ v, 0 ≤ v < _vcs cfg →
              vget (_use_fast_path r) (input * _vcs cfg + v) = true).
    { intros v Hv. rewrite Hflags. unfold IQRouterSplit in Hcons. simpl in Hcons.
      injection Hcons as <-. simpl. apply vget_replicate. nia. }
    assert (Hel : ∀ v, 0 ≤ v < _vcs cfg → Empty (vget (_buf r) input) v = false →
              not_ready cfg (vget (_buf r) input) v = false → v ∈ chosen).
    { intros v Hv He Hr. apply list_elem_of_filter. split; [|apply elem_of_seqZ; lia].
      unfold fast_eligible. by rewrite (Hflag v Hv), He, Hr. }
    apply (two_in_list chosen v1 v2); [lia|apply Hel; [lia|done..]|apply Hel; [lia|done..]].
  - eexists. split; [vm_compute; reflexivity|]. by repeat split.
  - intros Allocate. unfold _Alloc.
    by replace (build_requests cfg_inter router_interleaved)
      with (@Abort (list Z * ReqSt) A_single_fast_vc) by (vm_compute; reflexivity).
Qed.

Lemma single_fast_path_vc_witness :
  (filter (fun vc => fast_eligible cfg_single router_single 0 vc = true)
          (seqZ 0 (_vcs cfg_single)) = [] ∧ 0 = -1
   ∨ filter (fun vc => fast_eligible cfg_single router_single 0 vc = true)
            (seqZ 0 (_vcs cfg_single)) = [0])
  ∧ (fast_path cfg_single router_two_fast 0 (mkReqSt ∅ []) = Abort A_single_fast_vc
     ∨ fast_path cfg_single router_two_fast 0 (mkReqSt ∅ []) = Abort A_active_has_route)
  ∧ (fast_path cfg_inter router_interleaved 0
               (mkReqSt {[(0, 1) := mkRequest 0 0 0; (0, 0) := mkRequest 1 0 0]} [])
     = Abort A_single_fast_vc
     ∨ fast_path cfg_inter router_interleaved 0
                 (mkReqSt {[(0, 1) := mkRequest 0 0 0; (0, 0) := mkRequest 1 0 0]} [])
       = Abort A_active_has_route).
Proof.
  split; [|split].
  - apply (proj1 (single_fast_path_vc cfg_single router_single 0 reqs_single)
             0 reqs_single).
    vm_compute; reflexivity.
  - apply (proj1 (proj2 (single_fast_path_vc cfg_single router_two_fast 0 (mkReqSt ∅ [])))).
    vm_compute. lia.
  - eapply (proj1 (proj2 (proj2 (single_fast_path_vc cfg_inter router_interleaved 0 _)))
              router_interleaved _ 0 1);
      [reflexivity | reflexivity | simpl; lia | lia | simpl; lia
      | reflexivity | reflexivity | reflexivity | reflexivity].
Defined.

(** ** Grant resolution: completing VC allocation *)

(** Reading every index of a vector gives the vector. *)
Lemma vget_seqZ {A} `{Inhabited A} (l : list A) :
  vget l <$> seqZ 0 (Z.of_nat (length l)) = l.
Proof.
  apply list_eq. intros i. rewrite list_lookup_fmap.
  destruct (decide (i < length l)%nat) as [Hlt|Hge].
  - rewrite lookup_seqZ_lt by lia. simpl.
    destruct (lookup_lt_is_Some_2 l i Hlt) as [x Hx]. rewrite Hx. f_equal.
    unfold vget. destruct (Z.ltb_spec (0 + Z.of_nat i) 0); [lia|].
    apply list_lookup_total_correct.
    by replace (Z.to_nat (0 + Z.of_nat i)) with i by lia.
  - rewrite lookup_seqZ_ge by lia. simpl. symmetry. apply lookup_ge_None. lia.
Qed.

Section Finalize.

Variable cfg : Config.

Lemma select_out_vc_fold (dest_buf : BufferState) (route_set : OutputSet) (output : Z) :
  select_out_vc dest_buf route_set output
  = foldl (select_cand dest_buf) (-1, -1) (candidates route_set output).
Proof.
  unfold select_out_vc, NumVCs.
  rewrite <- (vget_seqZ (candidates route_set output)) at 2.
  rewrite foldl_fmap.
  generalize (seqZ 0 (Z.of_nat (length (candidates route_set output)))).
  generalize (-1, -1). intros acc l. revert acc.
  induction l as [|i l IH]; intros acc; simpl; [done|].
  rewrite IH. f_equal. unfold select_step, select_cand, GetVC.
  destruct (vget (candidates route_set output) i) as [out_vc out_prio].
  destruct acc as [sel_vc sel_prio]. simpl.
  destruct (IsAvailableFor dest_buf out_vc), (IsFullFor dest_buf out_vc); done.
Qed.

(** The re-scan keeps the first candidate of highest priority among the
    free ones it has seen, or [(-1, -1)] while every free candidate it has
    seen has a negative priority. *)
Lemma select_fold_best (dest_buf : BufferState) (l : list (Z * Z)) :
  let free := filter (fun c => IsAvailableFor dest_buf c.1 = true
                               ∧ IsFullFor dest_buf c.1 = false) l in
  let sel := foldl (select_cand dest_buf) (-1, -1) l in
  (sel = (-1, -1) ∧ ∀ c, c ∈ free → c.2 ≤ -1)
  ∨ (first_best free sel.1 sel.2 ∧ -1 < sel.2).
Proof.
  induction l as [|c l IH] using rev_ind; cbv zeta.
  { left. split; [done|]. intros c Hc. by apply elem_of_nil in Hc. }
  cbv zeta in IH. rewrite foldl_snoc, filter_app.
  set (free := filter _ l) in *. set (sel := foldl _ _ l) in *.
  unfold select_cand.
  destruct (IsAvailableFor dest_buf c.1) eqn:Hav; simpl.
  2:{ rewrite filter_cons_False, filter_nil, app_nil_r by (intros [? ?]; congruence).
      exact IH. }
  destruct (IsFullFor dest_buf c.1) eqn:Hfull.
  { rewrite filter_cons_False, filter_nil, app_nil_r by (intros [? ?]; congruence).
    exact IH. }
  rewrite filter_cons_True, filter_nil by done.
  destruct (Z.gtb_spec c.2 sel.2) as [Hgt|Hle].
  - right.
    assert (Hbelow : ∀ (j : nat) v' p', free !! j = Some (v', p') → p' < c.2).
    { intros j v' p' Hj. destruct IH as [[Hsel Hneg]|[(i & _ & Hmax & _) _]].
      - rewrite Hsel in Hgt. simpl in Hgt.
        specialize (Hneg (v', p')). simpl in Hneg.
        assert ((v', p') ∈ free) by (eapply list_elem_of_lookup_2; eauto).
        specialize (Hneg ltac:(done)). lia.
      - specialize (Hmax j v' p' Hj). lia. }
    split.
    + exists (length free). destruct c as [v p]. simpl in *. split; [|split].
      * by rewrite list_lookup_middle.
      * intros j v' p' [Hj|[_ [= _ ->]]]%lookup_snoc_Some; [|lia].
        destruct Hj as [_ Hj]. specialize (Hbelow j v' p' Hj). lia.
      * intros j v' p' Hlt Hj. rewrite lookup_app_l in Hj by done. eauto.
    + destruct IH as [[Hsel _]|[_ ?]]; [rewrite Hsel in Hgt; simpl in Hgt|]; lia.
  - destruct IH as [[Hsel Hneg]|[(i & Hi & Hmax & Hfirst) Hpos]].
    + left. split; [done|]. intros c' [Hc'|Hc']%elem_of_app; [by apply Hneg|].
      apply list_elem_of_singleton in Hc' as ->. rewrite Hsel in Hle. simpl in Hle. lia.
    + right. split; [|done]. exists i. split; [|split].
      * rewrite lookup_app_l; [done|]. by eapply lookup_lt_Some.
      * intros j v' p' [Hj|[_ Heq]]%lookup_snoc_Some.
        -- destruct Hj as [_ Hj]. eauto.
        -- subst c. simpl in Hle. lia.
      * intros j v' p' Hlt Hj.
        rewrite lookup_app_l in Hj; [eauto|].
        apply lookup_lt_Some in Hi. lia.
Qed.

End Finalize.

Lemma on_buf_read (r : Router) (input : Z) (op : Buffer → Buffer) :
  0 ≤ input < Z.of_nat (length (_buf r)) →
  vget (_buf (on_buf r input op)) input = op (vget (_buf r) input).
Proof. intros Hin. unfold on_buf. simpl. by apply vget_vset_eq. Qed.

Lemma on_buf_length (r : Router) (input : Z) (op : Buffer → Buffer) :
  length (_buf (on_buf r input op)) = length (_buf r).
Proof. unfold on_buf. simpl. apply length_vset. Qed.

(** What the block of lines 484-543 leaves when it completes. *)
Lemma finalize_vc_ok (cfg : Config) (r r' : Router)
    (input vc output : Z) :
  0 ≤ input < Z.of_nat (length (_buf r)) →
  0 ≤ vc < Z.of_nat (length (vget (_buf r) input)) →
  0 ≤ output < Z.of_nat (length (_next_buf r)) →
  output < _outputs cfg →
  0 ≤ input * _vcs cfg + vc < Z.of_nat (length (_vc_rr_offset r)) →
  finalize_vc cfg r input vc output = Ok r' →
  let cur_buf := vget (_buf r) input in
  let dest_buf := vget (_next_buf r) output in
  ∃ sel_vc sel_prio,
    first_best (free_candidates dest_buf (GetRouteSet cur_buf vc) output) sel_vc sel_prio
    ∧ GetState (vget (_buf r') input) vc = active
    ∧ GetOutputPort (vget (_buf r') input) vc = output
    ∧ GetOutputVC (vget (_buf r') input) vc = sel_vc
    ∧ vget (_next_buf r') output = TakeBuffer dest_buf sel_vc
    ∧ trace r' = trace r ++ [EvTakeBuffer output sel_vc]
    ∧ vget (_vc_rr_offset r') (input * _vcs cfg + vc) = (output + 1) mod _outputs cfg.
Proof.
  intros Hin Hvc Hout Hn Hrr Hrun cur_buf dest_buf.
  unfold finalize_vc in Hrun. fold cur_buf dest_buf in Hrun.
  rewrite select_out_vc_fold in Hrun.
  pose proof (select_fold_best dest_buf (candidates (GetRouteSet cur_buf vc) output))
    as Hbest. cbv zeta in Hbest.
  destruct (foldl _ _ _) as [sel_vc sel_prio]. unfold assert in Hrun.
  destruct (Z.gtb_spec sel_vc (-1)) as [Hsel|Hsel]; simpl in Hrun; [|discriminate].
  injection Hrun as <-. exists sel_vc, sel_prio.
  split.
  { destruct Hbest as [[[= -> _] _]|[Hbest _]]; [lia|exact Hbest]. }
  simpl.
  rewrite !vget_vset_eq by (rewrite ?length_vset; lia).
  unfold GetState, GetOutputPort, GetOutputVC, SetOutput, SetState.
  rewrite !vget_vset_eq by (rewrite ?length_vset; lia). simpl.
  repeat split; try reflexivity.
  apply Z.rem_mod_nonneg; lia.
Qed.

(** A list has at most one first entry of highest priority. *)
Lemma first_best_unique (l : list (Z * Z)) (v p v' p' : Z) :
  first_best l v p → first_best l v' p' → v = v' ∧ p = p'.
Proof.
  intros (i & Hi & Hmax & Hfirst) (i' & Hi' & Hmax' & Hfirst').
  pose proof (Hmax _ _ _ Hi') as Hle. pose proof (Hmax' _ _ _ Hi) as Hle'.
  assert (p = p') as -> by lia.
  destruct (Nat.lt_trichotomy i i') as [Hlt|[->|Hgt]].
  - pose proof (Hfirst' _ _ _ Hlt Hi). lia.
  - rewrite Hi in Hi'. by injection Hi' as ->.
  - pose proof (Hfirst _ _ _ Hgt Hi'). lia.
Qed.

(** C7, evaluated on the code.  For a granted VC in state [vc_alloc], let
    ([v], [p]) be the first candidate of highest priority among the
    candidates at the granted output that the downstream tracker reports
    available and not full.  When [p] is 0 or more (and [v] is a VC number)
    the block of lines 484-543 does what the specification says: [v] is
    chosen, the VC becomes active and is bound to the output and to [v],
    [TakeBuffer] is called for [v], and the output offset of the VC becomes
    (output + 1) mod the number of outputs.  When [p] is negative the
    candidate is passed over, because the re-scan starts from priority [-1]
    (line 487) where the scans of request building start from the least
    [int] (lines 160, 321), and the step aborts on the assertion of
    line 530. *)
Theorem finalize_vc_first_best_unless_negative (cfg : Config) (r : Router)
    (input vc output v p : Z) :
  0 ≤ input < Z.of_nat (length (_buf r)) →
  0 ≤ vc < Z.of_nat (length (vget (_buf r) input)) →
  0 ≤ output < Z.of_nat (length (_next_buf r)) →
  output < _outputs cfg →
  0 ≤ input * _vcs cfg + vc < Z.of_nat (length (_vc_rr_offset r)) →
  let cur_buf := vget (_buf r) input in
  let dest_buf := vget (_next_buf r) output in
  first_best (free_candidates dest_buf (GetRouteSet cur_buf vc) output) v p →
  (0 ≤ p → 0 ≤ v →
   ∃ r', finalize_vc cfg r input vc output = Ok r'
     ∧ GetState (vget (_buf r') input) vc = active
     ∧ GetOutputPort (vget (_buf r') input) vc = output
     ∧ GetOutputVC (vget (_buf r') input) vc = v
     ∧ vget (_next_buf r') output = TakeBuffer dest_buf v
     ∧ trace r' = trace r ++ [EvTakeBuffer output v]
     ∧ vget (_vc_rr_offset r') (input * _vcs cfg + vc) = (output + 1) mod _outputs cfg)
  ∧ (p < 0 → finalize_vc cfg r input vc output = Abort A_sel_vc).
Proof.
  intros Hin Hvc Hout Hn Hrr cur_buf dest_buf Hfb.
  pose proof (select_fold_best dest_buf (candidates (GetRouteSet cur_buf vc) output))
    as Hbest. cbv zeta in Hbest.
  fold (free_candidates dest_buf (GetRouteSet cur_buf vc) output) in Hbest.
  assert (Hmem : (v, p) ∈ free_candidates dest_buf (GetRouteSet cur_buf vc) output).
  { destruct Hfb as (i & Hi & _). by eapply list_elem_of_lookup_2. }
  split.
  - intros Hp Hv.
    assert (Hok : ∃ r', finalize_vc cfg r input vc output = Ok r').
    { unfold finalize_vc. fold cur_buf dest_buf. rewrite select_out_vc_fold.
      destruct (foldl _ _ _) as [sel_vc sel_prio]. cbn [fst snd] in Hbest.
      destruct Hbest as [[_ Hneg]|[Hsel _]].
      - specialize (Hneg _ Hmem). simpl in Hneg. lia.
      - destruct (first_best_unique _ _ _ _ _ Hfb Hsel) as [<- <-].
        unfold assert. destruct (Z.gtb_spec v (-1)); [|lia].
        cbn [mbind result_bind]. by eexists. }
    destruct Hok as [r' Hrun]. exists r'. split; [done|].
    destruct (finalize_vc_ok cfg r r' input vc output Hin Hvc Hout Hn Hrr Hrun)
      as (sel_vc & sel_prio & Hsel & Hrest).
    fold dest_buf cur_buf in Hsel.
    destruct (first_best_unique _ _ _ _ _ Hfb Hsel) as [<- <-]. exact Hrest.
  - intros Hp. unfold finalize_vc. fold cur_buf dest_buf. rewrite select_out_vc_fold.
    destruct (foldl _ _ _) as [sel_vc sel_prio]. cbn [fst snd] in Hbest.
    destruct Hbest as [[[= -> ->] _]|[Hsel Hpos]]; [done|].
    destruct (first_best_unique _ _ _ _ _ Hfb Hsel) as [_ <-]. lia.
Qed.

Lemma finalize_vc_first_best_unless_negative_witness :
  (∃ r', finalize_vc cfg_single router_single 0 0 1 = Ok r'
     ∧ GetState (vget (_buf r') 0) 0 = active
     ∧ GetOutputPort (vget (_buf r') 0) 0 = 1
     ∧ GetOutputVC (vget (_buf r') 0) 0 = 0
     ∧ vget (_next_buf r') 1 = TakeBuffer (vget (_next_buf router_single) 1) 0
     ∧ trace r' = trace router_single ++ [EvTakeBuffer 1 0]
     ∧ vget (_vc_rr_offset r') (0 * _vcs cfg_single + 0) = (1 + 1) mod _outputs cfg_single)
  ∧ first_best (free_candidates (vget (_next_buf router_neg) 0)
                  (GetRouteSet (vget (_buf router_neg) 0) 0) 0) 0 (-1)
  ∧ finalize_vc cfg_neg router_neg 0 0 0 = Abort A_sel_vc
  ∧ _Alloc cfg_neg (greedy_for cfg_neg) router_neg = Abort A_sel_vc.
Proof.
  assert (Hone : ∀ v p : Z, first_best [(v, p)] v p).
  { intros v p. exists 0%nat. split; [done|]. split.
    - intros [|j] v' p' Hj; [|done]. injection Hj as <- <-. lia.
    - intros j v' p' Hj. lia. }
  assert (Hfree1 : free_candidates (vget (_next_buf router_single) 1)
                     (GetRouteSet (vget (_buf router_single) 0) 0) 1 = [(0, 0)])
    by (vm_compute; reflexivity).
  assert (Hfree2 : free_candidates (vget (_next_buf router_neg) 0)
                     (GetRouteSet (vget (_buf router_neg) 0) 0) 0 = [(0, -1)])
    by (vm_compute; reflexivity).
  split; [|split; [|split; [|vm_compute; reflexivity]]].
  - apply (proj1 (finalize_vc_first_best_unless_negative cfg_single router_single
                    0 0 1 0 0 ltac:(simpl; lia) ltac:(simpl; lia) ltac:(simpl; lia)
                    ltac:(simpl; lia) ltac:(simpl; lia)
                    ltac:(rewrite Hfree1; apply Hone))); lia.
  - rewrite Hfree2. apply Hone.
  - apply (proj2 (finalize_vc_first_best_unless_negative cfg_neg router_neg
                    0 0 0 0 (-1) ltac:(simpl; lia) ltac:(simpl; lia) ltac:(simpl; lia)
                    ltac:(simpl; lia) ltac:(simpl; lia)
                    ltac:(rewrite Hfree2; apply Hone))). lia.
Defined.

Lemma vget_vset {A} `{Inhabited A} (v : list A) (i j : Z) (x : A) :
  vget (vset v i x) j
  = if decide (i = j ∧ 0 ≤ i < Z.of_nat (length v)) then x else vget v j.
Proof.
  case_decide as Hd.
  - destruct Hd as [<- Hi]. by apply vget_vset_eq.
  - destruct (decide (i = j)) as [<-|Hne]; [|by apply vget_vset_ne].
    unfold vget, vset. destruct (Z.ltb_spec i 0); [done|].
    rewrite list_insert_ge; [done|lia].
Qed.

Lemma RemoveFlit_out_vc (b : Buffer) (vc vc' : Z) :
  GetOutputVC (RemoveFlit b vc) vc' = GetOutputVC b vc'.
Proof.
  unfold GetOutputVC, RemoveFlit. rewrite vget_vset.
  case_decide as Hd; [|done]. by destruct Hd as [<- _].
Qed.

Lemma on_buf_RemoveFlit_out_vc (r : Router) (input vc : Z) :
  GetOutputVC (vget (_buf (on_buf r input (fun b => RemoveFlit b vc))) input) vc
  = GetOutputVC (vget (_buf r) input) vc.
Proof.
  unfold on_buf. simpl. rewrite vget_vset.
  case_decide; [apply RemoveFlit_out_vc|done].
Qed.

(** ** Grant resolution: aborts, transfers, credits *)

Lemma for_loop_ext {S} (body1 body2 : Z → S → result (ctl S)) (idxs : list Z) (s : S) :
  (∀ i s1, i ∈ idxs → body1 i s1 = body2 i s1) →
  for_loop body1 idxs s = for_loop body2 idxs s.
Proof.
  revert s. induction idxs as [|i rest IH]; intros s Hext; simpl; [done|].
  rewrite (Hext i s) by by left.
  destruct (body2 i s) as [[s1|s1]|w]; try done.
  apply IH. intros j s2 Hj. apply Hext. by right.
Qed.

(** Grant resolution reads the matching only at the expanded inputs of the
    router. *)
Lemma resolve_grants_ext (cfg : Config) (requests : gmap (Z * Z) Request)
    (OA1 OA2 : Z → Z) (fast_path_vcs : list Z) (r : Router) :
  (∀ input s, 0 ≤ input < _inputs cfg → 0 ≤ s < _input_speedup cfg →
     OA1 (input * _input_speedup cfg + s) = OA2 (input * _input_speedup cfg + s)) →
  resolve_grants cfg requests OA1 fast_path_vcs r
  = resolve_grants cfg requests OA2 fast_path_vcs r.
Proof.
  intros Hext. unfold resolve_grants. apply for_loop_ext.
  intros input r1 Hin%elem_of_seqZ. unfold resolve_input.
  rewrite (for_loop_ext (resolve_slot cfg requests OA1 (vget fast_path_vcs input) input)
                        (resolve_slot cfg requests OA2 (vget fast_path_vcs input) input));
    [done|].
  intros s [r2 c] Hs%elem_of_seqZ. unfold resolve_slot, pick_grant.
  rewrite (Hext input s) by lia. done.
Qed.

Lemma _Alloc_eq (cfg : Config) (Allocate : gmap (Z * Z) Request → Z → Z) (r : Router)
    (fast_path_vcs : list Z) (a : ReqSt) :
  build_requests cfg r = Ok (fast_path_vcs, a) →
  _Alloc cfg Allocate r
  = resolve_grants cfg (reqs a) (Allocate (reqs a)) fast_path_vcs (emit r (calls a)).
Proof. intros Hbuild. unfold _Alloc. by rewrite Hbuild. Qed.

(** C6, evaluated on the code.  The specification has the abort of line 530
    unreachable for a grant that answers a request built in the same cycle.
    Two routers reach it.  In [router_neg] the only route candidate has
    priority [-1]: request building starts from the least [int] and issues
    the request, the re-scan of lines 487-517 starts from [sel_prio = -1] and
    selects nothing.  In [router_os2] two inputs are granted the two crossbar
    slots of the same output for its single free output VC: input 0 reserves
    it, and the re-scan of input 1 finds it taken.  Both hold for every
    matching that grants the requests. *)
Theorem granted_request_finds_no_output_vc
    (Allocate : gmap (Z * Z) Request → Z → Z) :
  build_requests cfg_neg router_neg = Ok ([0], reqs_neg)
  ∧ (Allocate (reqs reqs_neg) 0 = 0 →
     _Alloc cfg_neg Allocate router_neg = Abort A_sel_vc)
  ∧ build_requests cfg_os2 router_os2 = Ok ([0; 0], reqs_os2)
  ∧ (Allocate (reqs reqs_os2) 0 = 0 → Allocate (reqs reqs_os2) 1 = 1 →
     _Alloc cfg_os2 Allocate router_os2 = Abort A_sel_vc).
Proof.
  assert (Hneg : build_requests cfg_neg router_neg = Ok ([0], reqs_neg))
    by (vm_compute; reflexivity).
  assert (Hos2 : build_requests cfg_os2 router_os2 = Ok ([0; 0], reqs_os2))
    by (vm_compute; reflexivity).
  split; [exact Hneg|]. split; [|split; [exact Hos2|]].
  - intros H0. rewrite (_Alloc_eq _ _ _ _ _ Hneg).
    rewrite (resolve_grants_ext _ _ _ (fun _ => 0)); [vm_compute; reflexivity|].
    intros input s Hi Hs. simpl in Hi, Hs.
    assert (input = 0) as -> by lia. assert (s = 0) as -> by lia. exact H0.
  - intros H0 H1. rewrite (_Alloc_eq _ _ _ _ _ Hos2).
    rewrite (resolve_grants_ext _ _ _ (fun ei => ei)); [vm_compute; reflexivity|].
    intros input s Hi Hs. simpl in Hi, Hs. assert (s = 0) as -> by lia.
    assert (input = 0 ∨ input = 1) as [-> | ->] by lia; [exact H0|exact H1].
Qed.

Lemma granted_request_finds_no_output_vc_witness :
  _Alloc cfg_neg (greedy_for cfg_neg) router_neg = Abort A_sel_vc
  ∧ _Alloc cfg_os2 (greedy_for cfg_os2) router_os2 = Abort A_sel_vc.
Proof.
  split.
  - apply (proj1 (proj2 (granted_request_finds_no_output_vc (greedy_for cfg_neg)))).
    vm_compute; reflexivity.
  - apply (proj2 (proj2 (proj2 (granted_request_finds_no_output_vc (greedy_for cfg_os2)))));
      vm_compute; reflexivity.
Defined.

Section Transfer.

Variable cfg : Config.

Lemma hold_switch_frame (r : Router) (vc ei eo : Z) :
  let r' := hold_switch cfg r vc ei eo in
  _buf r' = _buf r ∧ _next_buf r' = _next_buf r ∧ trace r' = trace r
  ∧ _use_fast_path r' = _use_fast_path r.
Proof. unfold hold_switch. by destruct (_hold_switch_for_packet cfg). Qed.

Lemma forward_flit_ok (r r' : Router) (c : option Credit) (c' : Credit)
    (input vc eo output : Z) (f0 f : Flit) :
  forward_flit r c input vc eo output f0 = Ok (r', c', f) →
  vc = f_vc f0
  ∧ f = relabel f0 (GetOutputVC (vget (_buf r) input) vc)
  ∧ c' = credit_entry c vc (f_from_router f0)
  ∧ trace r' =
      trace r ++ [EvRemoveFlit input vc f0]
              ++ match c with None => [EvNewCredit input] | Some _ => [] end
              ++ [EvCreditEntry input vc; EvSendingFlit output f; EvCrossbarWrite f eo]
  ∧ _buf r' = vset (_buf r) input (RemoveFlit (vget (_buf r) input) vc)
  ∧ _switch_hold_in r' = _switch_hold_in r
  ∧ _switch_hold_vc r' = _switch_hold_vc r
  ∧ _switch_hold_out r' = _switch_hold_out r
  ∧ _use_fast_path r' = _use_fast_path r.
Proof.
  unfold forward_flit, assert. cbn [f_vc].
  destruct (Z.eqb_spec vc (f_vc f0)) as [Hvc|]; [|discriminate].
  cbn [mbind result_bind]. intros [= <- <- <-].
  split; [done|]. split.
  { unfold relabel. f_equal. destruct c; apply on_buf_RemoveFlit_out_vc. }
  split; [done|]. split.
  { destruct c; simpl; rewrite <- ?app_assoc; simpl; repeat f_equal;
      unfold relabel; f_equal; apply on_buf_RemoveFlit_out_vc. }
  by destruct c.
Qed.

Lemma release_tail_ok (r : Router) (input vc ei eo : Z) (f : Flit) :
  let r' := release_tail r input vc ei eo f in
  (∃ tl, trace r' = trace r ++ tl
         ∧ (tl = [] ∨ (tl = [EvQueueVC input vc] ∧ f_tail f = true)))
  ∧ _use_fast_path r' = _use_fast_path r
  ∧ (if f_tail f
     then _switch_hold_in r' = vset (_switch_hold_in r) ei (-1)
          ∧ _switch_hold_vc r' = vset (_switch_hold_vc r) ei (-1)
          ∧ _switch_hold_out r' = vset (_switch_hold_out r) eo (-1)
     else r' = r).
Proof.
  unfold release_tail. destruct (f_tail f).
  - set (r1 := on_buf r input _).
    destruct (negb (Empty (vget (_buf r1) input) vc)); simpl.
    + split; [|done]. exists [EvQueueVC input vc]. split; [done|]. by right.
    + split; [|done]. exists []. split; [by rewrite app_nil_r|]. by left.
  - cbv zeta. split; [|done]. exists []. split; [by rewrite app_nil_r|]. by left.
Qed.

Lemma advance_sw_rr_frame (r : Router) (input s vc ei : Z) :
  let r' := advance_sw_rr cfg r input s vc ei in
  _buf r' = _buf r ∧ trace r' = trace r
  ∧ _switch_hold_in r' = _switch_hold_in r
  ∧ _switch_hold_vc r' = _switch_hold_vc r
  ∧ _switch_hold_out r' = _switch_hold_out r
  ∧ _use_fast_path r' = _use_fast_path r.
Proof. unfold advance_sw_rr. by destruct (negb _). Qed.

Lemma reenable_fast_path_frame (r : Router) (input vc : Z) :
  let r' := reenable_fast_path cfg r input vc in
  _buf r' = _buf r ∧ trace r' = trace r
  ∧ _switch_hold_in r' = _switch_hold_in r
  ∧ _switch_hold_vc r' = _switch_hold_vc r
  ∧ _switch_hold_out r' = _switch_hold_out r.
Proof. unfold reenable_fast_path. by destruct (_ && _). Qed.

End Transfer.

(** What [transfer] checks and what it hands to its collaborators, in
    order. *)
Lemma transfer_ok (cfg : Config) (r r' : Router) (c c' : option Credit)
    (input s vc expanded_input expanded_output output : Z) :
  transfer cfg r c input s vc expanded_input expanded_output output = Ok (r', c') →
  let cur_buf := vget (_buf r) input in
  ∃ f0 tl,
    FrontFlit cur_buf vc = Some f0
    ∧ vc = f_vc f0
    ∧ GetOutputPort cur_buf vc = output
    ∧ c' = Some (credit_entry c vc (f_from_router f0))
    ∧ (tl = [] ∨ (tl = [EvQueueVC input vc] ∧ f_tail f0 = true))
    ∧ trace r' =
        trace r ++ [EvRemoveFlit input vc f0]
                ++ match c with None => [EvNewCredit input] | Some _ => [] end
                ++ [EvCreditEntry input vc;
                    EvSendingFlit output (relabel f0 (GetOutputVC cur_buf vc));
                    EvCrossbarWrite (relabel f0 (GetOutputVC cur_buf vc)) expanded_output]
                ++ tl.
Proof.
  intros Hrun cur_buf. unfold transfer in Hrun.
  destruct (hold_switch_frame cfg r vc expanded_input expanded_output)
    as (Hbuf & _ & Htr & _).
  set (r0 := hold_switch cfg r vc expanded_input expanded_output) in *.
  rewrite Hbuf in Hrun. fold cur_buf in Hrun. unfold assert in Hrun.
  destruct (Empty cur_buf vc); cbn [negb mbind result_bind] in Hrun; [discriminate|].
  destruct (Z.eqb_spec (GetOutputPort cur_buf vc) output) as [Hport|];
    cbn [mbind result_bind] in Hrun; [|discriminate].
  destruct (IsFullFor _ _); cbn [negb mbind result_bind] in Hrun; [discriminate|].
  destruct (FrontFlit cur_buf vc) as [f0|]; [|discriminate].
  destruct (forward_flit r0 c input vc expanded_output output f0)
    as [[[r1 c1] f1]|w] eqn:Hfw; cbn [mbind result_bind] in Hrun; [|discriminate].
  injection Hrun as <- <-.
  apply forward_flit_ok in Hfw
    as (Hvc & Hf & Hc & Htr1 & _). rewrite Hbuf in Hf. fold cur_buf in Hf.
  destruct (release_tail_ok r1 input vc expanded_input expanded_output f1)
    as ((tl & Htr2 & Htl) & _).
  set (r2 := release_tail r1 input vc expanded_input expanded_output f1) in *.
  destruct (advance_sw_rr_frame cfg r2 input s vc expanded_input) as (_ & Htr3 & _).
  set (r3 := advance_sw_rr cfg r2 input s vc expanded_input) in *.
  destruct (reenable_fast_path_frame cfg r3 input vc) as (_ & Htr4 & _).
  exists f0, tl. subst f1 c1.
  split; [done|]. split; [done|]. split; [done|]. split; [done|].
  split; [exact Htl|].
  rewrite Htr4, Htr3, Htr2, Htr1, Htr. by rewrite <- !app_assoc.
Qed.

(** C10.  Whenever [transfer] completes for VC [vc] of an input, the front
    flit [f0] of that VC carried [vc] in its own VC field (line 592 aborts
    otherwise); the credit of the input ends with the entry [vc]; and the
    flit reported to the downstream tracker and written to the crossbar is
    [f0] with its VC field overwritten with the assigned output VC.  The
    trace orders the calls: the credit entry first, then [SendingFlit], then
    the crossbar write, both with the overwritten flit. *)
Theorem credit_names_input_vc (cfg : Config) (r r' : Router) (c c' : option Credit)
    (input s vc expanded_input expanded_output output : Z) :
  transfer cfg r c input s vc expanded_input expanded_output output = Ok (r', c') →
  let cur_buf := vget (_buf r) input in
  ∃ f0 c1 before after,
    FrontFlit cur_buf vc = Some f0
    ∧ f_vc f0 = vc
    ∧ c' = Some c1
    ∧ c_vc c1 = match c with Some c0 => c_vc c0 | None => [] end ++ [vc]
    ∧ f_vc (relabel f0 (GetOutputVC cur_buf vc)) = GetOutputVC cur_buf vc
    ∧ trace r' =
        trace r ++ before
                ++ [EvCreditEntry input vc;
                    EvSendingFlit output (relabel f0 (GetOutputVC cur_buf vc));
                    EvCrossbarWrite (relabel f0 (GetOutputVC cur_buf vc)) expanded_output]
                ++ after
    ∧ before = EvRemoveFlit input vc f0
               :: match c with None => [EvNewCredit input] | Some _ => [] end
    ∧ (after = [] ∨ after = [EvQueueVC input vc]).
Proof.
  intros Hrun cur_buf.
  destruct (transfer_ok _ _ _ _ _ _ _ _ _ _ _ Hrun)
    as (f0 & tl & Hfront & Hvc & _ & Hc & Htl & Htr).
  fold cur_buf in Hfront, Htr.
  exists f0, (credit_entry c vc (f_from_router f0)),
    (EvRemoveFlit input vc f0 :: match c with None => [EvNewCredit input] | Some _ => [] end),
    tl.
  split; [done|]. split; [done|]. split; [done|].
  split; [by destruct c|]. split; [done|]. split.
  { rewrite Htr. by destruct c. }
  split; [done|]. destruct Htl as [->|[-> _]]; auto.
Qed.

Lemma credit_names_input_vc_witness :
  ∃ r' c',
    transfer cfg_hold router_hold None 0 0 0 0 0 0 = Ok (r', c')
    ∧ ∃ f0 c1 before after,
        FrontFlit (vget (_buf router_hold) 0) 0 = Some f0
        ∧ f_vc f0 = 0
        ∧ c' = Some c1
        ∧ c_vc c1 = [] ++ [0]
        ∧ f_vc (relabel f0 (GetOutputVC (vget (_buf router_hold) 0) 0))
          = GetOutputVC (vget (_buf router_hold) 0) 0
        ∧ trace r' =
            trace router_hold ++ before
              ++ [EvCreditEntry 0 0;
                  EvSendingFlit 0 (relabel f0 (GetOutputVC (vget (_buf router_hold) 0) 0));
                  EvCrossbarWrite (relabel f0 (GetOutputVC (vget (_buf router_hold) 0) 0)) 0]
              ++ after
        ∧ before = [EvRemoveFlit 0 0 f0; EvNewCredit 0]
        ∧ (after = [] ∨ after = [EvQueueVC 0 0]).
Proof.
  do 2 eexists. split; [vm_compute; reflexivity|].
  apply (credit_names_input_vc cfg_hold router_hold _ None _ 0 0 0 0 0 0).
  vm_compute; reflexivity.
Defined.

Section SlotTrace.

Variable cfg : Config.
Variable requests : gmap (Z * Z) Request.
Variable OutputAssigned : Z → Z.

Lemma demote_fast_vc_frame (r r' : Router) (input vc fvc : Z) :
  demote_fast_vc cfg r input vc fvc = Ok r' →
  _buf r' = _buf r ∧ _next_buf r' = _next_buf r ∧ trace r' = trace r
  ∧ _switch_hold_in r' = _switch_hold_in r
  ∧ _switch_hold_vc r' = _switch_hold_vc r
  ∧ _switch_hold_out r' = _switch_hold_out r
  ∧ _vc_rr_offset r' = _vc_rr_offset r.
Proof.
  unfold demote_fast_vc, assert.
  destruct (vc =? fvc); [by intros [= <-]|].
  destruct (fvc >=? 0); [|by intros [= <-]].
  destruct (vget (_use_fast_path r) _); cbn [mbind result_bind]; [|discriminate].
  destruct (bool_decide _); cbn [mbind result_bind]; [|discriminate].
  by intros [= <-].
Qed.

Lemma finalize_vc_frame (r r' : Router) (input vc output : Z) :
  finalize_vc cfg r input vc output = Ok r' →
  (∃ sel_vc, trace r' = trace r ++ [EvTakeBuffer output sel_vc])
  ∧ _switch_hold_in r' = _switch_hold_in r
  ∧ _switch_hold_vc r' = _switch_hold_vc r
  ∧ _switch_hold_out r' = _switch_hold_out r.
Proof.
  unfold finalize_vc, assert.
  destruct (select_out_vc _ _ _) as [sel_vc sel_prio].
  destruct (sel_vc >? -1); cbn [mbind result_bind]; [|discriminate].
  intros [= <-]. split; [by exists sel_vc|done].
Qed.


End SlotTrace.






Section ActiveVC.

Variable cfg : Config.
Variable r : Router.

Lemma scan_candidates_fold (cur_buf : Buffer) (vc : Z) (vc_state : eVCState)
    (dest_buf : BufferState) (route_set : OutputSet) (output : Z) :
  scan_candidates cur_buf vc vc_state dest_buf route_set output (NumVCs route_set output)
  = foldl (scan_cand cur_buf vc vc_state dest_buf) (false, INT_MIN)
          (candidates route_set output).
Proof.
  unfold scan_candidates, NumVCs.
  rewrite <- (vget_seqZ (candidates route_set output)) at 2.
  rewrite foldl_fmap.
  generalize (seqZ 0 (Z.of_nat (length (candidates route_set output)))).
  generalize (false, INT_MIN). intros acc l. revert acc.
  induction l as [|i l IH]; intros acc; simpl; [done|].
  rewrite IH. f_equal. unfold scan_step, scan_cand, GetVC.
  destruct (vget (candidates route_set output) i) as [out_vc vc_prio].
  by destruct acc as [do_request in_priority].
Qed.

(** For an active VC the scan asks for a request only on behalf of the
    assigned output VC. *)
Lemma scan_active (cur_buf : Buffer) (vc : Z) (dest_buf : BufferState)
    (l : list (Z * Z)) (pri : Z) :
  foldl (scan_cand cur_buf vc active dest_buf) (false, INT_MIN) l = (true, pri) →
  (GetOutputVC cur_buf vc, pri) ∈ l
  ∧ IsFullFor dest_buf (GetOutputVC cur_buf vc) = false.
Proof.
  revert pri. induction l as [|c l IH] using rev_ind; intros pri; [done|].
  rewrite foldl_snoc. unfold scan_cand at 1. simpl.
  destruct (foldl _ _ l) as [b p] eqn:Hfold.
  assert (Hkeep : (b, p) = (true, pri) →
            (GetOutputVC cur_buf vc, pri) ∈ l ++ [c]
            ∧ IsFullFor dest_buf (GetOutputVC cur_buf vc) = false).
  { intros [= -> ->]. destruct (IH pri eq_refl) as [Hin Hfull].
    split; [|done]. apply elem_of_app. by left. }
  destruct (Z.eqb_spec c.1 (GetOutputVC cur_buf vc)) as [Heq|]; simpl; [|done].
  destruct (IsFullFor dest_buf c.1) eqn:Hfull; [done|].
  destruct (negb b || (p <? c.2)); [|done].
  intros [= <-]. rewrite <- Heq. split; [|done].
  apply elem_of_app. right. apply list_elem_of_singleton. by destruct c.
Qed.

End ActiveVC.

Section ActiveRequests.

Variable cfg : Config.
Variable r : Router.
Variable input : Z.

Lemma only_assigned_refl (p : path) (ei vc : Z) (a : ReqSt) :
  only_assigned cfg r input p ei vc a a.
Proof.
  exists []. split; [by rewrite app_nil_r|]. intros e He. by apply elem_of_nil in He.
Qed.

Lemma only_assigned_add (p : path) (ei vc pri : Z) (a : ReqSt) :
  let cur_buf := vget (_buf r) input in
  let port := GetOutputPort cur_buf vc in
  foldl (scan_cand cur_buf vc active (vget (_next_buf r) port)) (false, INT_MIN)
        (candidates (GetRouteSet cur_buf vc) port) = (true, pri) →
  only_assigned cfg r input p ei vc a
    (add_request p a ei (port * _output_speedup cfg + Z.rem input (_output_speedup cfg))
                 vc pri (GetPriority cur_buf vc)).
Proof.
  intros cur_buf port Hscan. apply scan_active in Hscan as [Hin Hfull].
  eexists. split; [reflexivity|].
  intros e ->%list_elem_of_singleton. by exists pri.
Qed.

Lemma slow_output_active (s vc idx o : Z) (a : ReqSt) (ct : ctl (Z * ReqSt)) :
  let cur_buf := vget (_buf r) input in
  slow_output_body cfg r input s vc cur_buf active (GetRouteSet cur_buf vc) idx (o, a)
  = Ok ct →
  ∃ o' a', ct = Break (o', a')
    ∧ only_assigned cfg r input SlowPath (input * _input_speedup cfg + s) vc a a'.
Proof.
  intros cur_buf. unfold slow_output_body. cbn [eVCState_eqb]. unfold assert.
  destruct (_ =? _ + _); cbn [mbind result_bind]; [|discriminate].
  destruct (_ && _).
  - destruct (negb _); cbn [mbind result_bind]; [|discriminate].
    rewrite scan_candidates_fold.
    destruct (foldl _ _ _) as [[] pri] eqn:Hscan; cbn [mbind result_bind];
      intros [= <-]; do 2 eexists; (split; [reflexivity|]).
    + by apply only_assigned_add.
    + apply only_assigned_refl.
  - cbn [mbind result_bind]. intros [= <-]. do 2 eexists. split; [reflexivity|].
    apply only_assigned_refl.
Qed.

Lemma slow_vc_active (s v vc : Z) (a : ReqSt) (ct : ctl (Z * ReqSt)) :
  GetState (vget (_buf r) input) vc = active →
  slow_vc_body cfg r input s v (vc, a) = Ok ct →
  only_assigned cfg r input SlowPath (input * _input_speedup cfg + s) vc a (ctl_state ct).2.
Proof.
  intros Hst. unfold slow_vc_body. rewrite Hst.
  destruct (negb _); [|intros [= <-]; apply only_assigned_refl].
  destruct (FrontFlit _ _); [|discriminate].
  destruct (not_ready _ _ _); [intros [= <-]; apply only_assigned_refl|].
  destruct (seqZ 0 (_outputs cfg)) as [|idx rest]; cbn [for_loop mbind result_bind].
  { intros [= <-]. apply only_assigned_refl. }
  destruct (slow_output_body _ _ _ _ _ _ _ _ _ _) as [ct1|w] eqn:Hbody; [|discriminate].
  apply slow_output_active in Hbody as (o' & a' & -> & Hnew).
  cbn [mbind result_bind]. by intros [= <-].
Qed.

Lemma fast_output_active (vc idx : Z) (a : ReqSt) (ct : ctl ReqSt) :
  let cur_buf := vget (_buf r) input in
  let ei := input * _input_speedup cfg + Z.rem vc (_input_speedup cfg) in
  fast_output_body cfg r input vc cur_buf active (GetRouteSet cur_buf vc) ei idx a
  = Ok ct →
  ∃ a', ct = Break a' ∧ only_assigned cfg r input FastPath ei vc a a'.
Proof.
  intros cur_buf ei. unfold fast_output_body. cbn [eVCState_eqb].
  destruct (_ >=? 0).
  { intros [= <-]. eexists. split; [reflexivity|]. apply only_assigned_refl. }
  unfold assert. destruct (_ || _); cbn [mbind result_bind]; [|discriminate].
  rewrite scan_candidates_fold.
  destruct (foldl _ _ _) as [[] pri] eqn:Hscan;
    intros [= <-]; eexists; (split; [reflexivity|]).
  - by apply only_assigned_add.
  - apply only_assigned_refl.
Qed.

Lemma fast_vc_active (vc fv : Z) (a : ReqSt) (ct : ctl (Z * ReqSt)) :
  GetState (vget (_buf r) input) vc = active →
  fast_vc_body cfg r input vc (fv, a) = Ok ct →
  only_assigned cfg r input FastPath (input * _input_speedup cfg + Z.rem vc (_input_speedup cfg))
                vc a (ctl_state ct).2.
Proof.
  intros Hst. rewrite fast_vc_body_eq, Hst.
  destruct (fast_eligible _ _ _ _); [|intros [= <-]; apply only_assigned_refl].
  unfold assert. destruct (fv <? 0); cbn [mbind result_bind]; [|discriminate].
  destruct (seqZ 0 (_outputs cfg)) as [|idx rest]; cbn [for_loop mbind result_bind].
  { intros [= <-]. apply only_assigned_refl. }
  destruct (fast_output_body _ _ _ _ _ _ _ _ _ _) as [ct1|w] eqn:Hbody; [|discriminate].
  apply fast_output_active in Hbody as (a' & -> & Hnew).
  cbn [mbind result_bind]. by intros [= <-].
Qed.

End ActiveRequests.

(** A slot that works on a VC in state [active] moves its front flit to the
    crossbar slot it was granted, which belongs to the assigned port. *)
Lemma resolve_slot_active (cfg : Config) (requests : gmap (Z * Z) Request)
    (OutputAssigned : Z → Z) (fvc input s : Z) (r : Router) (c : option Credit)
    (ct : ctl (Router * option Credit)) (eo vc : Z) :
  pick_grant requests OutputAssigned r input (input * _input_speedup cfg + s)
  = Ok (eo, vc) →
  0 ≤ eo →
  GetState (vget (_buf r) input) vc = active →
  resolve_slot cfg requests OutputAssigned fvc input s (r, c) = Ok ct →
  let cur_buf := vget (_buf r) input in
  ∃ f0 tl,
    FrontFlit cur_buf vc = Some f0
    ∧ GetOutputPort cur_buf vc = Z.quot eo (_output_speedup cfg)
    ∧ (tl = [] ∨ (tl = [EvQueueVC input vc] ∧ f_tail f0 = true))
    ∧ trace (ctl_state ct).1 =
        trace r ++ [EvRemoveFlit input vc f0]
                ++ match c with None => [EvNewCredit input] | Some _ => [] end
                ++ [EvCreditEntry input vc;
                    EvSendingFlit (GetOutputPort cur_buf vc)
                                  (relabel f0 (GetOutputVC cur_buf vc));
                    EvCrossbarWrite (relabel f0 (GetOutputVC cur_buf vc)) eo]
                ++ tl.
Proof.
  intros Hpick Heo Hst Hrun cur_buf. unfold resolve_slot in Hrun.
  rewrite Hpick in Hrun. cbn [mbind result_bind] in Hrun.
  destruct (Z.geb_spec eo 0) as [_|]; [|lia].
  unfold assert at 1 in Hrun.
  destruct (bool_decide _); cbn [mbind result_bind] in Hrun; [|discriminate].
  destruct (demote_fast_vc cfg r input vc fvc) as [r1|w] eqn:Hd;
    cbn [mbind result_bind] in Hrun; [|discriminate].
  apply demote_fast_vc_frame in Hd as (Hbuf & _ & Htr & _).
  rewrite Hbuf, Hst in Hrun. cbn [eVCState_eqb mbind result_bind] in Hrun.
  rewrite Hbuf, Hst in Hrun. cbn [eVCState_eqb] in Hrun.
  destruct (transfer cfg r1 c input s vc _ eo _) as [[r3 c3]|w] eqn:Ht;
    cbn [mbind result_bind] in Hrun; [|discriminate].
  injection Hrun as <-. cbn [ctl_state fst].
  apply transfer_ok in Ht as (f0 & tl & Hfront & _ & Hport & _ & Htl & Ht3).
  rewrite Hbuf in Hfront, Hport, Ht3. fold cur_buf in Hfront, Hport, Ht3.
  exists f0, tl. split; [done|]. split; [done|]. split; [done|].
  by rewrite Ht3, Htr, Hport.
Qed.

(** C9.  A VC in state [active] asks for and gets nothing but its assigned
    output.  Every [AddRequest] call made for it, by the slow path or by the
    fast path, names the crossbar slot of its assigned output port and is
    made on behalf of its assigned output VC; and when grant resolution moves
    its flit, the crossbar slot written belongs to the assigned port (line
    555 aborts otherwise), the downstream tracker told is the one of that
    port, and the flit carries the assigned output VC. *)
Theorem active_vc_keeps_assigned_output (cfg : Config) (r : Router) (input vc : Z) :
  GetState (vget (_buf r) input) vc = active →
  let cur_buf := vget (_buf r) input in
  (∀ s v a ct,
     slow_vc_body cfg r input s v (vc, a) = Ok ct →
     only_assigned cfg r input SlowPath (input * _input_speedup cfg + s) vc
                   a (ctl_state ct).2)
  ∧ (∀ fv a ct,
       fast_vc_body cfg r input vc (fv, a) = Ok ct →
       only_assigned cfg r input FastPath
                     (input * _input_speedup cfg + Z.rem vc (_input_speedup cfg)) vc
                     a (ctl_state ct).2)
  ∧ (∀ requests OutputAssigned fvc s c ct eo,
       pick_grant requests OutputAssigned r input (input * _input_speedup cfg + s)
       = Ok (eo, vc) →
       0 ≤ eo →
       resolve_slot cfg requests OutputAssigned fvc input s (r, c) = Ok ct →
       ∃ f0 before after,
         FrontFlit cur_buf vc = Some f0
         ∧ GetOutputPort cur_buf vc = Z.quot eo (_output_speedup cfg)
         ∧ trace (ctl_state ct).1 =
             trace r ++ before
               ++ [EvSendingFlit (GetOutputPort cur_buf vc)
                                 (relabel f0 (GetOutputVC cur_buf vc));
                   EvCrossbarWrite (relabel f0 (GetOutputVC cur_buf vc)) eo]
               ++ after
         ∧ omap slot_of (before ++ after) = []
         ∧ (∀ e, e ∈ before ++ after →
              ∀ o f, e ≠ EvSendingFlit o f ∧ e ≠ EvCrossbarWrite f o)).
Proof.
  intros Hst cur_buf. split; [|split].
  - intros s v a ct. by apply slow_vc_active.
  - intros fv a ct. by apply fast_vc_active.
  - intros requests OutputAssigned fvc s c ct eo Hpick Heo Hrun.
    destruct (resolve_slot_active _ _ _ _ _ _ _ _ _ _ _ Hpick Heo Hst Hrun)
      as (f0 & tl & Hfront & Hport & Htl & Htr).
    fold cur_buf in Hfront, Hport, Htr.
    exists f0,
      ([EvRemoveFlit input vc f0]
         ++ match c with None => [EvNewCredit input] | Some _ => [] end
         ++ [EvCreditEntry input vc]), tl.
    split; [done|]. split; [done|]. split.
    { rewrite Htr. by rewrite <- !app_assoc. }
    split.
    { destruct c, Htl as [->|[-> _]]; done. }
    intros e He o f.
    destruct c, Htl as [-> | [-> _]]; cbn in He;
      repeat (apply elem_of_cons in He as [-> | He]; [done|]);
      by apply elem_of_nil in He.
Qed.

Lemma active_vc_keeps_assigned_output_witness :
  GetState (vget (_buf router_hold) 0) 0 = active
  ∧ (∃ ct, slow_vc_body cfg_hold router_hold 0 0 0 (0, mkReqSt ∅ []) = Ok ct
           ∧ only_assigned cfg_hold router_hold 0 SlowPath 0 0
                           (mkReqSt ∅ []) (ctl_state ct).2)
  ∧ (∃ ct, fast_vc_body cfg_hold router_hold 0 0 (-1, mkReqSt ∅ []) = Ok ct
           ∧ only_assigned cfg_hold router_hold 0 FastPath 0 0
                           (mkReqSt ∅ []) (ctl_state ct).2)
  ∧ (∃ ct, resolve_slot cfg_hold (reqs reqs_hold) (fun _ => 0) 0 0 0 (router_hold, None)
           = Ok ct
           ∧ ∃ f0 before after,
               FrontFlit (vget (_buf router_hold) 0) 0 = Some f0
               ∧ GetOutputPort (vget (_buf router_hold) 0) 0
                 = Z.quot 0 (_output_speedup cfg_hold)
               ∧ trace (ctl_state ct).1 =
                   trace router_hold ++ before
                     ++ [EvSendingFlit (GetOutputPort (vget (_buf router_hold) 0) 0)
                           (relabel f0 (GetOutputVC (vget (_buf router_hold) 0) 0));
                         EvCrossbarWrite
                           (relabel f0 (GetOutputVC (vget (_buf router_hold) 0) 0)) 0]
                     ++ after
               ∧ omap slot_of (before ++ after) = []
               ∧ (∀ e, e ∈ before ++ after →
                    ∀ o f, e ≠ EvSendingFlit o f ∧ e ≠ EvCrossbarWrite f o)).
Proof.
  pose proof (active_vc_keeps_assigned_output cfg_hold router_hold 0 0 eq_refl) as H.
  cbv zeta in H. destruct H as (Hslow & Hfast & Hmove).
  split; [reflexivity|]. split; [|split].
  - eexists. split; [vm_compute; reflexivity|].
    apply (Hslow 0 0 (mkReqSt ∅ [])). vm_compute; reflexivity.
  - eexists. split; [vm_compute; reflexivity|].
    apply (Hfast (-1) (mkReqSt ∅ [])). vm_compute; reflexivity.
  - eexists. split; [vm_compute; reflexivity|].
    apply (Hmove (reqs reqs_hold) (fun _ => 0) 0 0 None _ 0);
      [vm_compute; reflexivity | lia | vm_compute; reflexivity].
Defined.

(** ** Switch holding *)

(** C3, as the specification states it, fails on the code: a binding is not
    cleared when the bound VC runs empty.  In [router_hold] the first cycle
    moves a body flit and binds the slot; the VC is then empty, and the
    binding is still there after that cycle and after the next one. *)
Lemma hold_survives_empty_vc :
  ∃ r1 r2,
    _Alloc cfg_hold (greedy_for cfg_hold) router_hold = Ok r1
    ∧ Empty (vget (_buf r1) 0) 0 = true
    ∧ vget (_switch_hold_in r1) 0 = 0
    ∧ vget (_switch_hold_vc r1) 0 = 0
    ∧ vget (_switch_hold_out r1) 0 = 0
    ∧ _Alloc cfg_hold (greedy_for cfg_hold) r1 = Ok r2
    ∧ vget (_switch_hold_in r2) 0 = 0
    ∧ vget (_switch_hold_vc r2) 0 = 0
    ∧ vget (_switch_hold_out r2) 0 = 0.
Proof.
  do 2 eexists. split; [vm_compute; reflexivity|].
  repeat split; vm_compute; reflexivity.
Qed.

Lemma vget_vset_same {A} `{Inhabited A} (v : list A) (i : Z) (x : A) :
  vget v i = x → vget (vset v i x) i = x.
Proof. intros Hx. rewrite vget_vset. by case_decide. Qed.

Lemma pick_grant_held (requests : gmap (Z * Z) Request) (OutputAssigned : Z → Z)
    (r : Router) (input ei eo vc : Z) (g : Z * Z) :
  vget (_switch_hold_in r) ei = eo → eo ≠ -1 → vget (_switch_hold_vc r) ei = vc →
  pick_grant requests OutputAssigned r input ei = Ok g →
  0 ≤ eo ∧ g = (if Empty (vget (_buf r) input) vc then -1 else eo, vc).
Proof.
  intros Hin Hne Hvc. unfold pick_grant, assert. rewrite Hin, Hvc.
  destruct (Z.eqb_spec eo (-1)) as [|_]; [done|]. cbn [negb].
  destruct (Z.geb_spec eo 0) as [Hge|]; cbn [mbind result_bind]; [|discriminate].
  destruct (Empty _ _); by intros [= <-].
Qed.

Lemma hold_switch_binds (cfg : Config) (r : Router) (vc ei eo : Z) :
  vget (_switch_hold_in r) ei = eo → vget (_switch_hold_vc r) ei = vc →
  let r0 := hold_switch cfg r vc ei eo in
  vget (_switch_hold_in r0) ei = eo ∧ vget (_switch_hold_vc r0) ei = vc
  ∧ length (_switch_hold_in r0) = length (_switch_hold_in r)
  ∧ length (_switch_hold_vc r0) = length (_switch_hold_vc r)
  ∧ length (_switch_hold_out r0) = length (_switch_hold_out r).
Proof.
  intros Hin Hvc. unfold hold_switch.
  destruct (_hold_switch_for_packet cfg); simpl; [|done].
  rewrite !length_vset. by rewrite !vget_vset_same.
Qed.

(** The hold tables after [transfer]: those of [hold_switch], cleared at the
    slot when the flit moved is a tail flit. *)
Lemma transfer_holds (cfg : Config) (r r' : Router) (c c' : option Credit)
    (input s vc ei eo output : Z) :
  transfer cfg r c input s vc ei eo output = Ok (r', c') →
  let r0 := hold_switch cfg r vc ei eo in
  ∃ f0, FrontFlit (vget (_buf r) input) vc = Some f0
    ∧ if f_tail f0
      then _switch_hold_in r' = vset (_switch_hold_in r0) ei (-1)
           ∧ _switch_hold_vc r' = vset (_switch_hold_vc r0) ei (-1)
           ∧ _switch_hold_out r' = vset (_switch_hold_out r0) eo (-1)
      else _switch_hold_in r' = _switch_hold_in r0
           ∧ _switch_hold_vc r' = _switch_hold_vc r0
           ∧ _switch_hold_out r' = _switch_hold_out r0.
Proof.
  intros Hrun r0. unfold transfer in Hrun. fold r0 in Hrun.
  destruct (hold_switch_frame cfg r vc ei eo) as (Hbuf & _). fold r0 in Hbuf.
  rewrite Hbuf in Hrun. unfold assert in Hrun.
  destruct (negb (Empty _ _)); cbn [mbind result_bind] in Hrun; [|discriminate].
  destruct (_ =? output); cbn [mbind result_bind] in Hrun; [|discriminate].
  destruct (negb (IsFullFor _ _)); cbn [mbind result_bind] in Hrun; [|discriminate].
  destruct (FrontFlit _ vc) as [f0|]; [|discriminate].
  destruct (forward_flit r0 c input vc eo output f0)
    as [[[r1 c1] f1]|w] eqn:Hfw; cbn [mbind result_bind] in Hrun; [|discriminate].
  injection Hrun as <- <-.
  apply forward_flit_ok in Hfw as (_ & Hf & _ & _ & _ & Hi1 & Hv1 & Ho1 & _).
  destruct (release_tail_ok r1 input vc ei eo f1) as (_ & _ & Hrel).
  set (r2 := release_tail r1 input vc ei eo f1) in *.
  destruct (advance_sw_rr_frame cfg r2 input s vc ei) as (_ & _ & Hi3 & Hv3 & Ho3 & _).
  set (r3 := advance_sw_rr cfg r2 input s vc ei) in *.
  destruct (reenable_fast_path_frame cfg r3 input vc) as (_ & _ & Hi4 & Hv4 & Ho4).
  exists f0. split; [done|]. rewrite Hi4, Hv4, Ho4, Hi3, Hv3, Ho3.
  replace (f_tail f1) with (f_tail f0) in Hrel by (by subst f1).
  destruct (f_tail f0).
  - destruct Hrel as (-> & -> & ->). by rewrite Hi1, Hv1, Ho1.
  - rewrite Hrel. by rewrite Hi1, Hv1, Ho1.
Qed.

(** One speedup slot of a bound expanded input.  Grant resolution works for
    it on the bound (expanded output, VC), whatever the allocator assigned,
    when the bound VC holds a flit; when the bound VC is empty nothing moves
    and the hold tables stay as they are.  Any flit the slot moves comes
    from the bound VC and goes to the bound output.  Afterwards the entries
    of the expanded input are either still in place, and no tail flit was
    moved, or the tail flit of the bound VC was moved and the binding is
    cleared on the input side and on the output side. *)
Lemma resolve_slot_held (cfg : Config) (requests : gmap (Z * Z) Request)
    (OutputAssigned : Z → Z) (fvc input s : Z) (r : Router) (c : option Credit)
    (ct : ctl (Router * option Credit)) (eo vc : Z) :
  let ei := input * _input_speedup cfg + s in
  vget (_switch_hold_in r) ei = eo → eo ≠ -1 →
  vget (_switch_hold_vc r) ei = vc →
  0 ≤ ei < Z.of_nat (length (_switch_hold_in r)) →
  0 ≤ ei < Z.of_nat (length (_switch_hold_vc r)) →
  0 ≤ eo < Z.of_nat (length (_switch_hold_out r)) →
  resolve_slot cfg requests OutputAssigned fvc input s (r, c) = Ok ct →
  let r' := (ctl_state ct).1 in
  let cur_buf := vget (_buf r) input in
  pick_grant requests OutputAssigned r input ei
  = Ok (if Empty cur_buf vc then -1 else eo, vc)
  ∧ (Empty cur_buf vc = true →
       trace r' = trace r
       ∧ _switch_hold_in r' = _switch_hold_in r
       ∧ _switch_hold_vc r' = _switch_hold_vc r
       ∧ _switch_hold_out r' = _switch_hold_out r)
  ∧ ∃ evs, trace r' = trace r ++ evs
      ∧ (∀ i v f, EvRemoveFlit i v f ∈ evs → i = input ∧ v = vc)
      ∧ (∀ f o, EvCrossbarWrite f o ∈ evs → o = eo)
      ∧ ((vget (_switch_hold_in r') ei = eo ∧ vget (_switch_hold_vc r') ei = vc
          ∧ ∀ i v f, EvRemoveFlit i v f ∈ evs → f_tail f = false)
         ∨ (∃ f, EvRemoveFlit input vc f ∈ evs ∧ f_tail f = true
              ∧ vget (_switch_hold_in r') ei = -1
              ∧ vget (_switch_hold_vc r') ei = -1
              ∧ vget (_switch_hold_out r') eo = -1)).
Proof.
  intros ei Hin Hne Hvc Hri Hrv Hro Hrun r' cur_buf.
  unfold resolve_slot in Hrun. fold ei in Hrun.
  destruct (pick_grant requests OutputAssigned r input ei) as [g|w] eqn:Hpick;
    cbn [mbind result_bind] in Hrun; [|discriminate].
  destruct (pick_grant_held _ _ _ _ _ _ _ _ Hin Hne Hvc Hpick) as [Hge ->].
  fold cur_buf in Hrun |- *. split; [done|].
  destruct (Empty cur_buf vc) eqn:Hempty.
  - assert (Hsame : trace r' = trace r
              ∧ _switch_hold_in r' = _switch_hold_in r
              ∧ _switch_hold_vc r' = _switch_hold_vc r
              ∧ _switch_hold_out r' = _switch_hold_out r).
    { subst r'. change (-1 >=? 0) with false in Hrun. cbv iota in Hrun.
      destruct (_ && _).
      - unfold assert in Hrun.
        destruct (vget (_use_fast_path r) _); cbn [mbind result_bind] in Hrun;
          [|discriminate].
        destruct (bool_decide _); cbn [mbind result_bind] in Hrun; [|discriminate].
        by injection Hrun as <-.
      - by injection Hrun as <-. }
    split; [done|]. destruct Hsame as (Htr & Hi & Hv & Ho).
    exists []. split; [by rewrite app_nil_r|].
    split; [intros i v f Hel; by apply elem_of_nil in Hel|].
    split; [intros f o Hel; by apply elem_of_nil in Hel|].
    left. rewrite Hi, Hv. split; [done|]. split; [done|].
    intros i v f Hel. by apply elem_of_nil in Hel.
  - split; [discriminate|].
    destruct (Z.geb_spec eo 0) as [_|]; [|lia].
    unfold assert at 1 in Hrun.
    destruct (bool_decide _); cbn [mbind result_bind] in Hrun; [|discriminate].
    destruct (demote_fast_vc cfg r input vc fvc) as [r1|w] eqn:Hd;
      cbn [mbind result_bind] in Hrun; [|discriminate].
    apply demote_fast_vc_frame in Hd as (_ & _ & Htr1 & Hi1 & Hv1 & Ho1 & _).
    destruct (if eVCState_eqb (GetState (vget (_buf r1) input) vc) vc_alloc
              then finalize_vc cfg r1 input vc (Z.quot eo (_output_speedup cfg))
              else Ok r1) as [r2|w] eqn:Hf; cbn [mbind result_bind] in Hrun;
      [|discriminate].
    assert (Hr2 : (∃ pre, trace r2 = trace r ++ pre
                     ∧ (pre = [] ∨ ∃ o v, pre = [EvTakeBuffer o v]))
                  ∧ _switch_hold_in r2 = _switch_hold_in r
                  ∧ _switch_hold_vc r2 = _switch_hold_vc r
                  ∧ _switch_hold_out r2 = _switch_hold_out r).
    { destruct (eVCState_eqb _ vc_alloc).
      - apply finalize_vc_frame in Hf as ((sel_vc & Ht) & Hi2 & Hv2 & Ho2).
        rewrite Hi2, Hv2, Ho2, Ht, Htr1. split; [|done].
        eexists. split; [reflexivity|]. right. by do 2 eexists.
      - injection Hf as <-. split; [|done]. exists []. rewrite app_nil_r. auto. }
    destruct Hr2 as ((pre & Htr2 & Hpre) & Hi2 & Hv2 & Ho2).
    destruct (eVCState_eqb (GetState (vget (_buf r2) input) vc) active).
    + destruct (transfer cfg r2 c input s vc ei eo _) as [[r3 c3]|w] eqn:Ht;
        cbn [mbind result_bind] in Hrun; [|discriminate].
      injection Hrun as <-. subst r'. cbn [ctl_state fst].
      destruct (transfer_ok _ _ _ _ _ _ _ _ _ _ _ Ht)
        as (f0 & tl & Hfront & _ & _ & _ & Htl & Ht3).
      destruct (transfer_holds _ _ _ _ _ _ _ _ _ _ _ Ht) as (f0' & Hfront' & Hholds).
      rewrite Hfront in Hfront'. injection Hfront' as <-.
      rewrite <- Hi2 in Hin, Hri. rewrite <- Hv2 in Hvc, Hrv. rewrite <- Ho2 in Hro.
      destruct (hold_switch_binds cfg r2 vc ei eo Hin Hvc)
        as (Hbi & Hbv & Hli & Hlv & Hlo).
      eexists. split; [rewrite Ht3, Htr2, <- app_assoc; reflexivity|].
      assert (Hev : ∀ e, e ∈ pre ++ [EvRemoveFlit input vc f0]
                       ++ match c with None => [EvNewCredit input] | Some _ => [] end
                       ++ [EvCreditEntry input vc;
                           EvSendingFlit (Z.quot eo (_output_speedup cfg))
                             (relabel f0 (GetOutputVC (vget (_buf r2) input) vc));
                           EvCrossbarWrite
                             (relabel f0 (GetOutputVC (vget (_buf r2) input) vc)) eo]
                       ++ tl →
                  e = EvRemoveFlit input vc f0
                  ∨ (∃ f, e = EvCrossbarWrite f eo)
                  ∨ ((∀ i v f, e ≠ EvRemoveFlit i v f) ∧ ∀ f o, e ≠ EvCrossbarWrite f o)).
      { intros e He.
        destruct Hpre as [-> | (o & v & ->)], c, Htl as [-> | [-> _]]; cbn in He;
          repeat (apply elem_of_cons in He as [-> | He]; [by eauto|]);
          by apply elem_of_nil in He. }
      split.
      { intros i v f [[= -> -> ->] | [[f' [=]] | [Hno _]]]%Hev; [done|].
        by destruct (Hno i v f). }
      split.
      { intros f o [[=] | [[f' [= -> ->]] | [_ Hno]]]%Hev; [done|].
        by destruct (Hno f o). }
      destruct (f_tail f0) eqn:Htail.
      * right. exists f0. destruct Hholds as (-> & -> & ->).
        split; [|split; [done|]].
        { rewrite !elem_of_app. right. left. by apply list_elem_of_singleton. }
        rewrite !vget_vset_eq by lia. done.
      * left. destruct Hholds as (-> & -> & _). split; [done|]. split; [done|].
        intros i v f [[= -> -> ->] | [[f' [=]] | [Hno _]]]%Hev; [done|].
        by destruct (Hno i v f).
    + injection Hrun as <-. subst r'. cbn [ctl_state fst].
      exists pre. split; [done|].
      assert (Hev : ∀ e, e ∈ pre →
                (∀ i v f, e ≠ EvRemoveFlit i v f) ∧ ∀ f o, e ≠ EvCrossbarWrite f o).
      { intros e He. destruct Hpre as [-> | (o & v & ->)].
        - by apply elem_of_nil in He.
        - by apply list_elem_of_singleton in He as ->. }
      split; [intros i v f [Hno _]%Hev; by destruct (Hno i v f)|].
      split; [intros f o [_ Hno]%Hev; by destruct (Hno f o)|].
      left. rewrite Hi2, Hv2. split; [done|]. split; [done|].
      intros i v f [Hno _]%Hev. by destruct (Hno i v f).
Qed.


(** ** The constructor *)

Lemma Z_rem_slot (input s S : Z) :
  0 ≤ input → 0 ≤ s < S → Z.rem (input * S + s) S = s.
Proof.
  intros Hi Hs. rewrite Z.rem_mod_nonneg by nia.
  rewrite Z.add_comm, Z.mod_add by lia. apply Z.mod_small. lia.
Qed.

(** Writing [f i] at every index [0 .. n-1] of a vector. *)
Lemma foldl_vset_seqZ (f : Z → Z) (v : list Z) (n : nat) :
  let v' := foldl (fun v i => vset v i (f i)) v (seqZ 0 (Z.of_nat n)) in
  length v' = length v
  ∧ ∀ i, 0 ≤ i < Z.of_nat n → i < Z.of_nat (length v) → vget v' i = f i.
Proof.
  induction n as [|n IH]; cbv zeta.
  { split; [done|]. intros i Hi. lia. }
  rewrite seqZ_S, foldl_snoc. cbv zeta in IH. destruct IH as [Hlen IH].
  rewrite Z.add_0_l. split; [by rewrite length_vset|].
  intros i Hi Hlt. rewrite vget_vset. case_decide as Hd.
  - by destruct Hd as [-> _].
  - apply IH; [|done]. rewrite Hlen in Hd. lia.
Qed.

(** X1.  The constructor refuses a router with a routing delay.  Otherwise
    it leaves the round-robin pointer of every expanded input at the slot
    index of that input, so that the assertion of line 96 holds for every
    input and slot; it flags every VC for the fast path and zeroes the
    output offsets; and it leaves alone what the base class set up. *)
Theorem constructor_sets_round_robin (cfg : Config) (_routing_delay : Z)
    (base : Router) :
  (_routing_delay ≠ 0 →
     IQRouterSplit cfg _routing_delay base = Error_requires_lookahead_routing)
  ∧ (_routing_delay = 0 →
     ∃ r, IQRouterSplit cfg _routing_delay base = Constructed r
       ∧ (∀ input s, 0 ≤ input < _inputs cfg → 0 ≤ s < _input_speedup cfg →
            vget (_sw_rr_offset r) (input * _input_speedup cfg + s) = s
            ∧ Z.rem (vget (_sw_rr_offset r) (input * _input_speedup cfg + s))
                    (_input_speedup cfg) = s)
       ∧ (∀ i, 0 ≤ i < _inputs cfg * _vcs cfg →
            vget (_use_fast_path r) i = true ∧ vget (_vc_rr_offset r) i = 0)
       ∧ _buf r = _buf base ∧ _next_buf r = _next_buf base
       ∧ _switch_hold_in r = _switch_hold_in base
       ∧ _switch_hold_out r = _switch_hold_out base
       ∧ _switch_hold_vc r = _switch_hold_vc base).
Proof.
  unfold IQRouterSplit. split.
  - intros Hne. by destruct (Z.eqb_spec _routing_delay 0).
  - intros ->. simpl. eexists. split; [reflexivity|]. simpl. split; [|split].
    + intros input s Hin Hs.
      assert (Hget : vget (init_sw_rr_offset cfg
                        (replicate (Z.to_nat (_inputs cfg * _input_speedup cfg)) 0))
                        (input * _input_speedup cfg + s)
                     = Z.rem (input * _input_speedup cfg + s) (_input_speedup cfg)).
      { unfold init_sw_rr_offset.
        pose proof (foldl_vset_seqZ (fun i => Z.rem i (_input_speedup cfg))
                      (replicate (Z.to_nat (_inputs cfg * _input_speedup cfg)) 0)
                      (Z.to_nat (_inputs cfg * _input_speedup cfg))) as [_ Hf].
        rewrite Z2Nat.id in Hf by nia.
        apply Hf; [nia|]. rewrite length_replicate. nia. }
      rewrite Hget, Z_rem_slot by lia. split; [done|]. apply Z.rem_small. lia.
    + intros i Hi. rewrite !vget_replicate by lia. done.
    + done.
Qed.

Lemma constructor_sets_round_robin_witness :
  IQRouterSplit cfg_single 1 base_single = Error_requires_lookahead_routing
  ∧ ∃ r, IQRouterSplit cfg_single 0 base_single = Constructed r
      ∧ (∀ input s, 0 ≤ input < _inputs cfg_single → 0 ≤ s < _input_speedup cfg_single →
           vget (_sw_rr_offset r) (input * _input_speedup cfg_single + s) = s
           ∧ Z.rem (vget (_sw_rr_offset r) (input * _input_speedup cfg_single + s))
                   (_input_speedup cfg_single) = s)
      ∧ (∀ i, 0 ≤ i < _inputs cfg_single * _vcs cfg_single →
           vget (_use_fast_path r) i = true ∧ vget (_vc_rr_offset r) i = 0)
      ∧ _buf r = _buf base_single ∧ _next_buf r = _next_buf base_single
      ∧ _switch_hold_in r = _switch_hold_in base_single
      ∧ _switch_hold_out r = _switch_hold_out base_single
      ∧ _switch_hold_vc r = _switch_hold_vc base_single.
Proof.
  split.
  - apply (proj1 (constructor_sets_round_robin cfg_single 1 base_single)). lia.
  - apply (proj2 (constructor_sets_round_robin cfg_single 0 base_single)). reflexivity.
Defined.

(** ** Request building: what is requested *)

Lemma scan_cand_eq (cur_buf : Buffer) (vc : Z) (vc_state : eVCState)
    (dest_buf : BufferState) (acc : bool * Z) (c : Z * Z) :
  scan_cand cur_buf vc vc_state dest_buf acc c
  = if cand_eligible cur_buf vc vc_state dest_buf c
    then (if negb acc.1 || (acc.2 <? c.2) then (true, c.2) else acc)
    else acc.
Proof.
  unfold scan_cand, cand_eligible.
  destruct (eVCState_eqb vc_state vc_alloc && _); [done|].
  destruct (eVCState_eqb vc_state active && _); [done|].
  by destruct (IsFullFor dest_buf c.1).
Qed.

Lemma scan_fold_max (cur_buf : Buffer) (vc : Z) (vc_state : eVCState)
    (dest_buf : BufferState) (l : list (Z * Z)) :
  let el := filter (fun c => cand_eligible cur_buf vc vc_state dest_buf c = true) l in
  let acc := foldl (scan_cand cur_buf vc vc_state dest_buf) (false, INT_MIN) l in
  (el = [] ∧ acc = (false, INT_MIN))
  ∨ (acc.1 = true ∧ acc.2 ∈ el.*2 ∧ Forall (fun c => c.2 ≤ acc.2) el).
Proof.
  induction l as [|c l IH] using rev_ind; cbv zeta; [by left|].
  cbv zeta in IH. rewrite foldl_snoc, filter_app, scan_cand_eq.
  set (el := filter _ l) in *. set (acc := foldl _ _ l) in *.
  destruct (cand_eligible cur_buf vc vc_state dest_buf c) eqn:Hel.
  2:{ rewrite filter_cons_False, filter_nil, app_nil_r by congruence. exact IH. }
  rewrite filter_cons_True, filter_nil by done. right.
  destruct IH as [[-> ->]|(Hdo & Hin & Hmax)].
  - simpl. split; [done|]. split; [by apply list_elem_of_singleton|].
    by apply Forall_singleton.
  - rewrite Hdo. simpl. destruct (Z.ltb_spec acc.2 c.2) as [Hlt|Hge]; simpl.
    + split; [done|]. rewrite fmap_app. split; [apply elem_of_app; right; by left|].
      apply Forall_app. split; [|by apply Forall_singleton].
      eapply Forall_impl; [exact Hmax|]. simpl. intros; lia.
    + split; [done|]. rewrite fmap_app. split; [apply elem_of_app; by left|].
      apply Forall_app. split; [done|]. by apply Forall_singleton.
Qed.

Lemma scan_requests_highest_priority_aux (cur_buf : Buffer) (vc : Z)
    (vc_state : eVCState) (dest_buf : BufferState) (route_set : OutputSet)
    (output : Z) :
  let el := filter (fun c => cand_eligible cur_buf vc vc_state dest_buf c = true)
                   (candidates route_set output) in
  let res := scan_candidates cur_buf vc vc_state dest_buf route_set output
                             (NumVCs route_set output) in
  (el = [] ∧ res = (false, INT_MIN))
  ∨ (res.1 = true ∧ res.2 ∈ el.*2 ∧ Forall (fun c => c.2 ≤ res.2) el).
Proof.
  cbv zeta. rewrite scan_candidates_fold. apply scan_fold_max.
Qed.

(** X2.  The scan of the route set at an output, shared by both passes,
    asks for a request exactly when some candidate passes the test, and then
    with the highest priority among the candidates that pass it; with none
    it asks for nothing. *)
Theorem scan_requests_highest_priority (cur_buf : Buffer) (vc : Z)
    (vc_state : eVCState) (dest_buf : BufferState) (route_set : OutputSet)
    (output : Z) :
  let el := filter (fun c => cand_eligible cur_buf vc vc_state dest_buf c = true)
                   (candidates route_set output) in
  let res := scan_candidates cur_buf vc vc_state dest_buf route_set output
                             (NumVCs route_set output) in
  (el = [] ∧ res = (false, INT_MIN))
  ∨ (res.1 = true ∧ res.2 ∈ el.*2 ∧ Forall (fun c => c.2 ≤ res.2) el).
Proof.
  cbv zeta. rewrite scan_candidates_fold. apply scan_fold_max.
Qed.

Section JustifiedRequests.

Variable cfg : Config.
Variable r : Router.
Variable input : Z.
Hypothesis Hinput : 0 ≤ input < _inputs cfg.

Lemma scan_true_eligible (cur_buf : Buffer) (vc : Z) (vc_state : eVCState)
    (dest_buf : BufferState) (route_set : OutputSet) (output pri : Z) :
  scan_candidates cur_buf vc vc_state dest_buf route_set output (NumVCs route_set output)
  = (true, pri) →
  pri ∈ (filter (fun c => cand_eligible cur_buf vc vc_state dest_buf c = true)
                (candidates route_set output)).*2.
Proof.
  intros Hscan.
  pose proof (scan_requests_highest_priority_aux cur_buf vc vc_state dest_buf
                route_set output) as Hmax.
  cbv zeta in Hmax. rewrite Hscan in Hmax.
  by destruct Hmax as [[_ [=]]|(_ & Hin & _)].
Qed.

Lemma justified_add (p : path) (a : ReqSt) (vc output pri : Z) :
  let cur_buf := vget (_buf r) input in
  Forall (request_justified cfg r) (calls a) →
  Empty cur_buf vc = false →
  not_ready cfg cur_buf vc = false →
  pri ∈ (filter (fun c => cand_eligible cur_buf vc (GetState cur_buf vc)
                              (vget (_next_buf r) output) c = true)
                  (candidates (GetRouteSet cur_buf vc) output)).*2 →
  match p with
  | SlowPath =>
      vget (_switch_hold_in r)
           (input * _input_speedup cfg + Z.rem vc (_input_speedup cfg)) = -1
      ∧ vget (_switch_hold_out r)
             (output * _output_speedup cfg + Z.rem input (_output_speedup cfg)) = -1
  | FastPath => vget (_use_fast_path r) (input * _vcs cfg + vc) = true
  end →
  Forall (request_justified cfg r)
    (calls (add_request p a
              (input * _input_speedup cfg + Z.rem vc (_input_speedup cfg))
              (output * _output_speedup cfg + Z.rem input (_output_speedup cfg))
              vc pri (GetPriority cur_buf vc))).
Proof.
  intros cur_buf Hall Hne Hready Hpri Hp. simpl.
  apply Forall_app. split; [done|]. apply Forall_singleton.
  by exists p, input, vc, output, pri.
Qed.

Lemma slow_output_body_justified (s vc idx o : Z) (a : ReqSt) (ct : ctl (Z * ReqSt)) :
  let cur_buf := vget (_buf r) input in
  Empty cur_buf vc = false →
  not_ready cfg cur_buf vc = false →
  Forall (request_justified cfg r) (calls a) →
  slow_output_body cfg r input s vc cur_buf (GetState cur_buf vc)
                   (GetRouteSet cur_buf vc) idx (o, a) = Ok ct →
  Forall (request_justified cfg r) (calls (ctl_state ct).2).
Proof.
  intros cur_buf Hne Hready Hall. unfold slow_output_body.
  set (output := if eVCState_eqb (GetState cur_buf vc) active then _ else o).
  unfold assert.
  destruct (Z.eqb_spec (input * _input_speedup cfg + s)
              (input * _input_speedup cfg + Z.rem vc (_input_speedup cfg)))
    as [Hei|]; cbn [mbind result_bind]; [|discriminate].
  rewrite Hei.
  destruct (Z.eqb_spec (vget (_switch_hold_in r)
              (input * _input_speedup cfg + Z.rem vc (_input_speedup cfg))) (-1))
    as [Hhi|]; cbn [andb].
  2:{ cbn [mbind result_bind].
      destruct (eVCState_eqb _ active); by intros [= <-]. }
  destruct (Z.eqb_spec (vget (_switch_hold_out r)
              (output * _output_speedup cfg + Z.rem input (_output_speedup cfg))) (-1))
    as [Hho|].
  2:{ cbn [mbind result_bind].
      destruct (eVCState_eqb _ active); by intros [= <-]. }
  destruct (negb _); cbn [mbind result_bind]; [|discriminate].
  destruct (scan_candidates _ _ _ _ _ _ _) as [[] pri] eqn:Hscan;
    cbn [mbind result_bind].
  - apply scan_true_eligible in Hscan.
    destruct (eVCState_eqb _ active); intros [= <-]; cbn [ctl_state snd];
      by apply (justified_add SlowPath).
  - destruct (eVCState_eqb _ active); by intros [= <-].
Qed.

Lemma slow_vc_body_justified (s v : Z) (st : Z * ReqSt) (ct : ctl (Z * ReqSt)) :
  Forall (request_justified cfg r) (calls st.2) →
  slow_vc_body cfg r input s v st = Ok ct →
  Forall (request_justified cfg r) (calls (ctl_state ct).2).
Proof.
  destruct st as [vc a]. cbn [snd]. intros Hall. unfold slow_vc_body.
  destruct (Empty (vget (_buf r) input) vc) eqn:Hne; cbn [negb];
    [by intros [= <-]|].
  destruct (FrontFlit _ _); [|discriminate].
  destruct (not_ready cfg _ vc) eqn:Hready; [by intros [= <-]|].
  destruct (for_loop _ _ _) as [[o a']|w] eqn:Hloop; cbn [mbind result_bind];
    [|discriminate].
  intros [= <-]. cbn [ctl_state snd].
  apply (for_loop_inv (fun st => Forall (request_justified cfg r) (calls st.2)))
    in Hloop; [done|done|].
  intros i [o1 a1] c1 _ Ha1 Hb. by eapply slow_output_body_justified.
Qed.

Lemma slow_path_justified (a a' : ReqSt) :
  Forall (request_justified cfg r) (calls a) →
  slow_path cfg r input a = Ok a' →
  Forall (request_justified cfg r) (calls a').
Proof.
  intros Hall Hrun. unfold slow_path in Hrun.
  apply (for_loop_inv (fun a => Forall (request_justified cfg r) (calls a)))
    in Hrun; [done|done|].
  intros s a1 c1 _ Ha1. unfold slow_slot, assert.
  destruct (_ =? s); cbn [mbind result_bind]; [|discriminate].
  destruct (for_loop (slow_vc_body cfg r input s) _ _) as [[vc a2]|w] eqn:Hloop;
    cbn [mbind result_bind]; [|discriminate].
  intros [= <-]. cbn [ctl_state].
  apply (for_loop_inv (fun st => Forall (request_justified cfg r) (calls st.2)))
    in Hloop; [done|done|].
  intros v st c2 _ Hst Hb. by eapply slow_vc_body_justified.
Qed.

Lemma fast_output_body_justified (vc idx : Z) (a : ReqSt) (ct : ctl ReqSt) :
  let cur_buf := vget (_buf r) input in
  Empty cur_buf vc = false →
  not_ready cfg cur_buf vc = false →
  vget (_use_fast_path r) (input * _vcs cfg + vc) = true →
  Forall (request_justified cfg r) (calls a) →
  fast_output_body cfg r input vc cur_buf (GetState cur_buf vc)
                   (GetRouteSet cur_buf vc)
                   (input * _input_speedup cfg + Z.rem vc (_input_speedup cfg)) idx a
  = Ok ct →
  Forall (request_justified cfg r) (calls (ctl_state ct)).
Proof.
  intros cur_buf Hne Hready Hflag Hall. unfold fast_output_body.
  set (output := if eVCState_eqb (GetState cur_buf vc) active then _ else idx).
  destruct (_ >=? 0).
  { destruct (eVCState_eqb _ active); by intros [= <-]. }
  unfold assert. destruct (_ || _); cbn [mbind result_bind]; [|discriminate].
  destruct (scan_candidates _ _ _ _ _ _ _) as [[] pri] eqn:Hscan.
  - apply scan_true_eligible in Hscan.
    destruct (eVCState_eqb _ active); intros [= <-]; cbn [ctl_state];
      by apply (justified_add FastPath).
  - destruct (eVCState_eqb _ active); by intros [= <-].
Qed.

Lemma fast_path_justified (a a' : ReqSt) (fvc : Z) :
  Forall (request_justified cfg r) (calls a) →
  fast_path cfg r input a = Ok (fvc, a') →
  Forall (request_justified cfg r) (calls a').
Proof.
  intros Hall Hrun. unfold fast_path in Hrun.
  apply (for_loop_inv (fun st => Forall (request_justified cfg r) (calls st.2)))
    in Hrun; [done|done|].
  intros vc [fv a1] c1 _ Ha1. cbn [snd] in Ha1. rewrite fast_vc_body_eq.
  destruct (fast_eligible cfg r input vc) eqn:Hel; [|by intros [= <-]].
  unfold fast_eligible in Hel.
  apply andb_prop in Hel as [[Hflag Hne]%andb_prop Hready].
  apply negb_true_iff in Hne, Hready.
  unfold assert. destruct (fv <? 0); cbn [mbind result_bind]; [|discriminate].
  destruct (for_loop _ _ a1) as [a2|w] eqn:Hloop; cbn [mbind result_bind];
    [|discriminate].
  intros [= <-]. cbn [ctl_state snd].
  apply (for_loop_inv (fun a => Forall (request_justified cfg r) (calls a)))
    in Hloop; [done|done|].
  intros idx a3 c3 _ Ha3 Hb. by eapply fast_output_body_justified.
Qed.

End JustifiedRequests.

Lemma build_requests_justified_aux (cfg : Config) (r : Router)
    (fast_path_vcs : list Z) (a : ReqSt) :
  build_requests cfg r = Ok (fast_path_vcs, a) →
  Forall (request_justified cfg r) (calls a).
Proof.
  unfold build_requests. intros Hrun.
  apply (for_loop_inv (fun st => Forall (request_justified cfg r) (calls st.2)))
    in Hrun; [done|by apply Forall_nil|].
  intros input [fvcs a1] c1 Hin%elem_of_seqZ Ha1. cbn [snd] in Ha1.
  unfold input_body.
  destruct (slow_path cfg r input a1) as [a2|w] eqn:Hslow; cbn [mbind result_bind];
    [|discriminate].
  destruct (fast_path cfg r input a2) as [[fvc a3]|w] eqn:Hfast;
    cbn [mbind result_bind]; [|discriminate].
  intros [= <-]. cbn [ctl_state snd].
  assert (Hinput : 0 ≤ input < _inputs cfg) by lia.
  apply (fast_path_justified cfg r input Hinput a2 a3 fvc); [|exact Hfast].
  exact (slow_path_justified cfg r input Hinput a1 a2 Ha1 Hslow).
Qed.

(** X3.  Every [AddRequest] call of a cycle is justified by the state of the
    router: it is made for a VC that holds a flit, is in state [vc_alloc] or
    [active] and has been there for [_sw_alloc_delay] cycles; it names the
    crossbar input of that VC; and its priority is that of a route candidate
    that passes the test at the requested output.  The slow path never
    requests a crossbar slot that is held on either side, and the fast path
    requests only for VCs flagged for it. *)
Theorem build_requests_justified (cfg : Config) (r : Router)
    (fast_path_vcs : list Z) (a : ReqSt) :
  build_requests cfg r = Ok (fast_path_vcs, a) →
  Forall (request_justified cfg r) (calls a).
Proof. apply build_requests_justified_aux. Qed.

Lemma build_requests_justified_witness :
  build_requests cfg_held router_held = Ok ([0; -1], mkReqSt
      {[(0, 0) := mkRequest 0 0 0; (0, 1) := mkRequest 0 0 0]}
      [EvAddRequest SlowPath 0 0 0 0 0; EvAddRequest FastPath 0 1 0 0 0])
  ∧ Forall (request_justified cfg_held router_held)
      [EvAddRequest SlowPath 0 0 0 0 0; EvAddRequest FastPath 0 1 0 0 0].
Proof.
  assert (Hrun : build_requests cfg_held router_held = Ok ([0; -1], mkReqSt
      {[(0, 0) := mkRequest 0 0 0; (0, 1) := mkRequest 0 0 0]}
      [EvAddRequest SlowPath 0 0 0 0 0; EvAddRequest FastPath 0 1 0 0 0]))
    by (vm_compute; reflexivity).
  split; [exact Hrun|].
  exact (build_requests_justified cfg_held router_held _ _ Hrun).
Defined.

(** ** Request building: which assertions can fail *)

Lemma for_loop_abort_inv {S} (I : S → Prop) (P : assertion → Prop)
    (body : Z → S → result (ctl S)) (idxs : list Z) (s : S) (w : assertion) :
  I s →
  (∀ i s1 c, i ∈ idxs → I s1 → body i s1 = Ok c → I (ctl_state c)) →
  (∀ i s1 w1, i ∈ idxs → I s1 → body i s1 = Abort w1 → P w1) →
  for_loop body idxs s = Abort w → P w.
Proof.
  revert s. induction idxs as [|i rest IH]; intros s Hs Hok Hab; simpl; [done|].
  destruct (body i s) as [[s1|s1]|w1] eqn:Hb; [|done|].
  - apply IH.
    + apply (Hok i s (Continue s1)); [by left|done|done].
    + intros j s2 c Hj. apply Hok. by right.
    + intros j s2 w2 Hj. apply Hab. by right.
  - intros [= <-]. apply (Hab i s); [by left|done|done].
Qed.

Lemma next_vc_class (cfg : Config) (s vc : Z) :
  0 < _input_speedup cfg → 0 ≤ s < _input_speedup cfg →
  0 ≤ vc ∧ Z.rem vc (_input_speedup cfg) = s →
  0 ≤ next_vc cfg s vc ∧ Z.rem (next_vc cfg s vc) (_input_speedup cfg) = s.
Proof.
  intros HS Hs [Hvc Hrem]. unfold next_vc.
  destruct (_ >=? _).
  - split; [lia|]. apply Z.rem_small. lia.
  - split; [lia|]. rewrite Z.rem_mod_nonneg in * by lia.
    rewrite <- Hrem. rewrite <- (Z.mul_1_l (_input_speedup cfg)) at 1.
    apply Z.mod_add. lia.
Qed.

Section RequestAborts.

Variable cfg : Config.
Variable r : Router.
Variable input : Z.

Lemma slow_output_body_abort (s vc idx : Z) (cur_buf : Buffer) (vc_state : eVCState)
    (route_set : OutputSet) (st : Z * ReqSt) (w : assertion) :
  Z.rem vc (_input_speedup cfg) = s →
  slow_output_body cfg r input s vc cur_buf vc_state route_set idx st = Abort w →
  w = A_active_has_route.
Proof.
  intros Hclass. destruct st as [o a]. unfold slow_output_body, assert.
  rewrite Hclass, Z.eqb_refl. cbn [mbind result_bind].
  destruct (_ && _).
  - destruct (negb _); cbn [mbind result_bind].
    + destruct (scan_candidates _ _ _ _ _ _ _) as [[] pri]; cbn [mbind result_bind];
        by destruct (eVCState_eqb vc_state active).
    + by intros [= <-].
  - cbn [mbind result_bind]. by destruct (eVCState_eqb vc_state active).
Qed.

Lemma slow_vc_body_class (s v : Z) (st : Z * ReqSt) :
  0 < _input_speedup cfg → 0 ≤ s < _input_speedup cfg →
  0 ≤ st.1 ∧ Z.rem st.1 (_input_speedup cfg) = s →
  match slow_vc_body cfg r input s v st with
  | Ok ct => 0 ≤ (ctl_state ct).1 ∧ Z.rem (ctl_state ct).1 (_input_speedup cfg) = s
  | Abort w => w = A_active_has_route
  end.
Proof.
  intros HS Hs Hclass. destruct st as [vc a]. cbn [fst] in Hclass.
  pose proof (next_vc_class cfg s vc HS Hs Hclass) as Hnext.
  unfold slow_vc_body.
  destruct (Empty (vget (_buf r) input) vc) eqn:Hne; cbn [negb]; [done|].
  destruct (FrontFlit_nonempty _ _ Hne) as [f ->].
  destruct (not_ready cfg _ vc); [done|].
  destruct (for_loop _ _ _) as [[o a']|w] eqn:Hloop; cbn [mbind result_bind]; [done|].
  eapply (for_loop_abort (fun w => w = A_active_has_route)); [|exact Hloop].
  intros i s1 w1. apply slow_output_body_abort. apply Hclass.
Qed.

Lemma slow_path_abort (a : ReqSt) (w : assertion) :
  0 < _input_speedup cfg →
  (∀ s, 0 ≤ s < _input_speedup cfg →
     0 ≤ vget (_sw_rr_offset r) (input * _input_speedup cfg + s)
     ∧ Z.rem (vget (_sw_rr_offset r) (input * _input_speedup cfg + s))
             (_input_speedup cfg) = s) →
  slow_path cfg r input a = Abort w → w = A_active_has_route.
Proof.
  intros HS Hrr. unfold slow_path.
  apply (for_loop_abort_inv (fun _ => True) (fun w => w = A_active_has_route));
    [done|done|].
  intros s a1 w1 Hs%elem_of_seqZ _. unfold slow_slot, assert.
  destruct (Hrr s ltac:(lia)) as [Hpos Hrem]. rewrite Hrem, Z.eqb_refl.
  cbn [mbind result_bind].
  destruct (for_loop (slow_vc_body cfg r input s) _ _) as [[vc a2]|w2] eqn:Hloop;
    cbn [mbind result_bind]; [done|].
  intros [= <-].
  apply (for_loop_abort_inv
           (fun st : Z * ReqSt => 0 ≤ st.1 ∧ Z.rem st.1 (_input_speedup cfg) = s)
           (fun w => w = A_active_has_route)) in Hloop; [done|done| |].
  - intros v st c _ Hst Hb.
    pose proof (slow_vc_body_class s v st HS ltac:(lia) Hst) as Hc. by rewrite Hb in Hc.
  - intros v st w2' _ Hst Hb.
    pose proof (slow_vc_body_class s v st HS ltac:(lia) Hst) as Hc. by rewrite Hb in Hc.
Qed.

Lemma fast_path_abort (a : ReqSt) (w : assertion) :
  fast_path cfg r input a = Abort w →
  w = A_active_has_route ∨ w = A_single_fast_vc.
Proof.
  unfold fast_path. intros Hrun.
  assert (Hpos : Forall (fun vc => 0 ≤ vc) (seqZ 0 (_vcs cfg))).
  { apply Forall_seqZ. lia. }
  pose proof (fast_vcs_run cfg r input _ (-1) a Hpos) as H. cbv zeta in H.
  rewrite Hrun in H. destruct H as [->|[-> _]]; auto.
Qed.

End RequestAborts.

(** X4.  While every round-robin pointer is a VC of its own slot
    ([_sw_rr_offset[input * S + s]] is non-negative and congruent to [s]
    modulo the input speedup [S]), request building can abort on two
    assertions only: an active VC whose route set has no candidate at its
    assigned output (lines 165 and 324), and a second fast-path VC at an
    input (line 287).  The assertions on the slot of the pointer (line 96),
    on the front flit (lines 112 and 252) and on the expanded input (line
    151) do not fail. *)
Theorem build_requests_aborts (cfg : Config) (r : Router) (w : assertion) :
  0 < _input_speedup cfg →
  (∀ input s, 0 ≤ input < _inputs cfg → 0 ≤ s < _input_speedup cfg →
     0 ≤ vget (_sw_rr_offset r) (input * _input_speedup cfg + s)
     ∧ Z.rem (vget (_sw_rr_offset r) (input * _input_speedup cfg + s))
             (_input_speedup cfg) = s) →
  build_requests cfg r = Abort w →
  w = A_active_has_route ∨ w = A_single_fast_vc.
Proof.
  intros HS Hrr. unfold build_requests.
  apply (for_loop_abort_inv (fun _ => True)
           (fun w => w = A_active_has_route ∨ w = A_single_fast_vc)); [done|done|].
  intros input [fvcs a] w1 Hin%elem_of_seqZ _. unfold input_body.
  destruct (slow_path cfg r input a) as [a1|w2] eqn:Hslow; cbn [mbind result_bind].
  - destruct (fast_path cfg r input a1) as [[fvc a2]|w2] eqn:Hfast;
      cbn [mbind result_bind]; [done|].
    intros [= <-]. by eapply fast_path_abort.
  - intros [= <-]. left. eapply slow_path_abort; [done| |exact Hslow].
    intros s Hs. apply Hrr; lia.
Qed.

Lemma build_requests_aborts_witness :
  build_requests cfg_single router_two_fast = Abort A_single_fast_vc
  ∧ (A_single_fast_vc = A_active_has_route ∨ A_single_fast_vc = A_single_fast_vc).
Proof.
  assert (Hrun : build_requests cfg_single router_two_fast = Abort A_single_fast_vc)
    by (vm_compute; reflexivity).
  split; [exact Hrun|].
  apply (build_requests_aborts cfg_single router_two_fast A_single_fast_vc);
    [simpl; lia | | exact Hrun].
  intros input s Hin Hs. simpl in Hin, Hs.
  assert (input = 0) as -> by lia. assert (s = 0) as -> by lia.
  split; [vm_compute; discriminate | reflexivity].
Defined.

(** ** Grant resolution: more on completing VC allocation *)

(** X5.  The re-scan of lines 484-543 aborts on the assertion of line 530
    exactly when it has nothing to choose: when every candidate at the
    granted output that is available and not full has a negative priority
    (in particular when there is none).  With a free candidate of priority 0
    or more, and no negative VC number among the free candidates, it
    completes. *)
Theorem finalize_vc_abort_iff (cfg : Config) (r : Router) (input vc output : Z) :
  let free := free_candidates (vget (_next_buf r) output)
                (GetRouteSet (vget (_buf r) input) vc) output in
  (Forall (fun c => c.2 < 0) free →
     finalize_vc cfg r input vc output = Abort A_sel_vc)
  ∧ (Exists (fun c => 0 ≤ c.2) free → Forall (fun c => 0 ≤ c.1) free →
     ∃ r', finalize_vc cfg r input vc output = Ok r').
Proof.
  intros free. unfold finalize_vc. rewrite select_out_vc_fold.
  pose proof (select_fold_best (vget (_next_buf r) output)
                (candidates (GetRouteSet (vget (_buf r) input) vc) output)) as Hbest.
  cbv zeta in Hbest. fold (free_candidates (vget (_next_buf r) output)
                (GetRouteSet (vget (_buf r) input) vc) output) in Hbest.
  fold free in Hbest.
  destruct (foldl _ _ _) as [sel_vc sel_prio]. cbn [fst snd] in Hbest.
  split.
  - intros Hneg. destruct Hbest as [[[= -> ->] _]|[(i & Hi & _) Hpos]]; [done|].
    apply list_elem_of_lookup_2 in Hi.
    rewrite Forall_forall in Hneg. specialize (Hneg _ Hi). simpl in Hneg. lia.
  - intros Hex Hvcs. destruct Hbest as [[_ Hneg]|[(i & Hi & _) Hpos]].
    + apply Exists_exists in Hex as (c & Hc & Hc0). specialize (Hneg c Hc). lia.
    + apply list_elem_of_lookup_2 in Hi.
      rewrite Forall_forall in Hvcs. specialize (Hvcs _ Hi). simpl in Hvcs.
      unfold assert. destruct (Z.gtb_spec sel_vc (-1)); [|lia].
      cbn [mbind result_bind]. by eexists.
Qed.

Lemma finalize_vc_abort_iff_witness :
  finalize_vc cfg_neg router_taken 0 0 0 = Abort A_sel_vc
  ∧ ∃ r', finalize_vc cfg_single router_single 0 0 1 = Ok r'.
Proof.
  split.
  - apply (proj1 (finalize_vc_abort_iff cfg_neg router_taken 0 0 0)).
    replace (free_candidates _ _ _) with (@nil (Z * Z)) by (vm_compute; reflexivity).
    constructor.
  - apply (proj2 (finalize_vc_abort_iff cfg_single router_single 0 0 1)).
    + replace (free_candidates _ _ _) with [(0, 0)] by (vm_compute; reflexivity).
      apply Exists_cons_hd. simpl. lia.
    + replace (free_candidates _ _ _) with [(0, 0)] by (vm_compute; reflexivity).
      apply Forall_singleton. simpl. lia.
Defined.

(** ** Grant resolution: what a transfer does to the router *)

Lemma release_tail_buf (r : Router) (input vc ei eo : Z) (f : Flit) :
  let r' := release_tail r input vc ei eo f in
  let b := SetState (vget (_buf r) input) vc idle in
  _buf r' = (if f_tail f then vset (_buf r) input b else _buf r)
  ∧ trace r' =
      trace r ++ (if f_tail f && negb (Empty (vget (vset (_buf r) input b) input) vc)
                  then [EvQueueVC input vc] else []).
Proof.
  unfold release_tail. destruct (f_tail f); cbn [andb].
  - unfold on_buf. cbn [_buf set_buf].
    destruct (negb (Empty _ vc)); simpl; [done|]. by rewrite app_nil_r.
  - cbv zeta. by rewrite app_nil_r.
Qed.

(** The buffers and the fast-path flags after [transfer]. *)
Lemma transfer_state (cfg : Config) (r r' : Router) (c c' : option Credit)
    (input s vc ei eo output : Z) :
  transfer cfg r c input s vc ei eo output = Ok (r', c') →
  let cur_buf := vget (_buf r) input in
  let b1 := vset (_buf r) input (RemoveFlit cur_buf vc) in
  ∃ f0, FrontFlit cur_buf vc = Some f0
    ∧ _buf r' = (if f_tail f0
                 then vset b1 input (SetState (vget b1 input) vc idle) else b1)
    ∧ _use_fast_path r' =
        (if Empty (vget (_buf r') input) vc
            && negb (vget (_use_fast_path r) (input * _vcs cfg + vc))
         then vset (_use_fast_path r) (input * _vcs cfg + vc) true
         else _use_fast_path r)
    ∧ (EvQueueVC input vc ∈ drop (length (trace r)) (trace r')
       ↔ f_tail f0 = true ∧ Empty (vget (_buf r') input) vc = false).
Proof.
  intros Hrun cur_buf b1.
  destruct (transfer_ok _ _ _ _ _ _ _ _ _ _ _ Hrun)
    as (f0' & tl & Hfront' & _ & _ & _ & Htl & Htr).
  unfold transfer in Hrun.
  destruct (hold_switch_frame cfg r vc ei eo) as (Hbuf & _ & Htr0 & Hufp0).
  set (r0 := hold_switch cfg r vc ei eo) in *.
  rewrite Hbuf in Hrun. fold cur_buf in Hrun, Hfront'. unfold assert in Hrun.
  destruct (negb (Empty _ _)); cbn [mbind result_bind] in Hrun; [|discriminate].
  destruct (_ =? output); cbn [mbind result_bind] in Hrun; [|discriminate].
  destruct (negb (IsFullFor _ _)); cbn [mbind result_bind] in Hrun; [|discriminate].
  destruct (FrontFlit cur_buf vc) as [f0|]; [|discriminate].
  injection Hfront' as <-.
  destruct (forward_flit r0 c input vc eo output f0)
    as [[[r1 c1] f1]|w] eqn:Hfw; cbn [mbind result_bind] in Hrun; [|discriminate].
  injection Hrun as <- <-.
  apply forward_flit_ok in Hfw as (_ & Hf & _ & Htr1 & Hb1 & _ & _ & _ & Hufp1).
  rewrite Hbuf in Hb1. fold cur_buf in Hb1. fold b1 in Hb1.
  destruct (release_tail_buf r1 input vc ei eo f1) as (Hb2 & Htr2).
  destruct (release_tail_ok r1 input vc ei eo f1) as (_ & Hufp2 & _).
  set (r2 := release_tail r1 input vc ei eo f1) in *.
  destruct (advance_sw_rr_frame cfg r2 input s vc ei) as (Hb3 & Htr3 & _ & _ & _ & Hufp3).
  set (r3 := advance_sw_rr cfg r2 input s vc ei) in *.
  destruct (reenable_fast_path_frame cfg r3 input vc) as (Hb4 & Htr4 & _).
  replace (f_tail f1) with (f_tail f0) in Hb2, Htr2 by (by subst f1).
  rewrite Hb1 in Hb2, Htr2.
  assert (Hbuf' : _buf (reenable_fast_path cfg r3 input vc)
                  = if f_tail f0
                    then vset b1 input (SetState (vget b1 input) vc idle) else b1).
  { by rewrite Hb4, Hb3, Hb2. }
  exists f0. split; [done|]. split; [exact Hbuf'|]. split.
  - unfold reenable_fast_path at 1. rewrite Hb4.
    destruct (Empty (vget (_buf r3) input) vc
              && negb (vget (_use_fast_path r3) (input * _vcs cfg + vc))) eqn:Hc;
      rewrite Hufp3, Hufp2, Hufp1, Hufp0 in Hc; rewrite Hc; cbn [_use_fast_path set_use_fast_path];
      by rewrite ?Hufp3, ?Hufp2, ?Hufp1, ?Hufp0.
  - rewrite Htr4, Htr3, Htr2, Htr1, Htr0, Hbuf'.
    rewrite <- !app_assoc, drop_app_length.
    destruct (f_tail f0); cbn [andb].
    + destruct (Empty _ vc); cbn [negb].
      * split; [|by intros [_ [=]]]. intros Hel. exfalso.
        destruct c; cbn in Hel;
          repeat (apply elem_of_cons in Hel as [[=]|Hel]); by apply elem_of_nil in Hel.
      * split; [done|]. intros _.
        rewrite !elem_of_app. right. right. right. by apply list_elem_of_singleton.
    + split; [|by intros [[=] _]]. intros Hel. exfalso.
      destruct c; cbn in Hel;
        repeat (apply elem_of_cons in Hel as [[=]|Hel]); by apply elem_of_nil in Hel.
Qed.

Lemma RemoveFlit_read (b : Buffer) (vc v2 : Z) :
  0 ≤ vc < Z.of_nat (length b) →
  length (RemoveFlit b vc) = length b
  ∧ vget (RemoveFlit b vc) v2
    = if decide (vc = v2)
      then mkVC (vc_state (vget b vc)) (vc_state_time (vget b vc))
                (tail (vc_flits (vget b vc))) (vc_route_set (vget b vc))
                (vc_out_port (vget b vc)) (vc_out_vc (vget b vc)) (vc_pri (vget b vc))
      else vget b v2.
Proof.
  intros Hvc. unfold RemoveFlit. split; [apply length_vset|].
  rewrite vget_vset. destruct (decide (vc = v2)) as [<-|Hne].
  - by rewrite decide_True by done.
  - rewrite decide_False; [done|]. by intros [? _].
Qed.

Lemma SetState_read (b : Buffer) (vc v2 : Z) (st : eVCState) :
  0 ≤ vc < Z.of_nat (length b) →
  vget (SetState b vc st) v2
  = if decide (vc = v2)
    then mkVC st 0 (vc_flits (vget b vc)) (vc_route_set (vget b vc))
              (vc_out_port (vget b vc)) (vc_out_vc (vget b vc)) (vc_pri (vget b vc))
    else vget b v2.
Proof.
  intros Hvc. unfold SetState.
  rewrite vget_vset. destruct (decide (vc = v2)) as [<-|Hne].
  - by rewrite decide_True by done.
  - rewrite decide_False; [done|]. by intros [? _].
Qed.

(** X6.  A completed transfer takes exactly the front flit out of the
    granted VC and touches no other VC and no other input.  The VC keeps its
    route set and its output; it keeps its state unless the flit is a tail
    flit, in which case it becomes idle, and it is queued for a new packet
    exactly when flits remain behind that tail. *)
Theorem transfer_dequeues_front_flit (cfg : Config) (r r' : Router)
    (c c' : option Credit) (input s vc ei eo output : Z) :
  0 ≤ input < Z.of_nat (length (_buf r)) →
  0 ≤ vc < Z.of_nat (length (vget (_buf r) input)) →
  transfer cfg r c input s vc ei eo output = Ok (r', c') →
  let old := vget (vget (_buf r) input) vc in
  let new := vget (vget (_buf r') input) vc in
  ∃ f0 rest,
    vc_flits old = f0 :: rest
    ∧ vc_flits new = rest
    ∧ vc_state new = (if f_tail f0 then idle else vc_state old)
    ∧ vc_route_set new = vc_route_set old
    ∧ vc_out_port new = vc_out_port old
    ∧ vc_out_vc new = vc_out_vc old
    ∧ (∀ v2, v2 ≠ vc → vget (vget (_buf r') input) v2 = vget (vget (_buf r) input) v2)
    ∧ (∀ i2, i2 ≠ input → vget (_buf r') i2 = vget (_buf r) i2)
    ∧ (EvQueueVC input vc ∈ drop (length (trace r)) (trace r')
       ↔ f_tail f0 = true ∧ rest ≠ []).
Proof.
  intros Hin Hvc Hrun old new.
  destruct (transfer_state _ _ _ _ _ _ _ _ _ _ _ Hrun) as (f0 & Hfront & Hbuf & _ & Hq).
  set (cur_buf := vget (_buf r) input) in *.
  set (b1 := vset (_buf r) input (RemoveFlit cur_buf vc)) in *.
  destruct (RemoveFlit_read cur_buf vc vc Hvc) as [Hlen1 Hrd1].
  rewrite decide_True in Hrd1 by done.
  assert (Hb1 : vget b1 input = RemoveFlit cur_buf vc).
  { subst b1. by apply vget_vset_eq. }
  assert (Hflits : ∃ rest, vc_flits old = f0 :: rest).
  { unfold FrontFlit in Hfront. fold old in Hfront.
    destruct (vc_flits old) as [|f rest]; [done|]. injection Hfront as ->. by eexists. }
  destruct Hflits as [rest Hflits]. exists f0, rest.
  assert (Hnew : vget (_buf r') input
                 = if f_tail f0 then SetState (RemoveFlit cur_buf vc) vc idle
                   else RemoveFlit cur_buf vc).
  { rewrite Hbuf. destruct (f_tail f0); [|done].
    rewrite vget_vset_eq by (subst b1; rewrite length_vset; lia). by rewrite Hb1. }
  assert (Hvcnew : vget (vget (_buf r') input) vc
                   = mkVC (if f_tail f0 then idle else vc_state old)
                              (if f_tail f0 then 0 else vc_state_time old)
                              rest (vc_route_set old) (vc_out_port old)
                              (vc_out_vc old) (vc_pri old)).
  { rewrite Hnew. destruct (f_tail f0).
    - rewrite SetState_read by lia. rewrite decide_True by done. rewrite Hrd1.
      fold old. rewrite Hflits. done.
    - rewrite Hrd1. fold old. rewrite Hflits. done. }
  split; [done|]. subst new. rewrite Hvcnew.
  cbn [vc_flits vc_state vc_route_set vc_out_port vc_out_vc].
  do 5 (split; [done|]). split; [|split].
  - intros v2 Hne. rewrite Hnew. destruct (f_tail f0).
    + rewrite SetState_read by lia. rewrite decide_False by done.
      destruct (RemoveFlit_read cur_buf vc v2 Hvc) as [_ ->]. by rewrite decide_False.
    + destruct (RemoveFlit_read cur_buf vc v2 Hvc) as [_ ->]. by rewrite decide_False.
  - intros i2 Hne. rewrite Hbuf. subst b1.
    destruct (f_tail f0); rewrite ?vget_vset_ne by done; done.
  - rewrite Hq. unfold Empty. rewrite Hvcnew.
    cbn [vc_flits]. destruct rest as [|f l]; split; intros [Ht Hr]; split; done.
Qed.

(** X7.  A completed transfer changes one fast-path flag at most, that of
    the VC it served: afterwards that flag is set if it was set before or if
    the VC has run empty (lines 618-624). *)
Theorem transfer_reenables_fast_path (cfg : Config) (r r' : Router)
    (c c' : option Credit) (input s vc ei eo output : Z) :
  0 ≤ input * _vcs cfg + vc < Z.of_nat (length (_use_fast_path r)) →
  transfer cfg r c input s vc ei eo output = Ok (r', c') →
  vget (_use_fast_path r') (input * _vcs cfg + vc)
  = vget (_use_fast_path r) (input * _vcs cfg + vc)
    || Empty (vget (_buf r') input) vc
  ∧ ∀ j, j ≠ input * _vcs cfg + vc →
      vget (_use_fast_path r') j = vget (_use_fast_path r) j.
Proof.
  intros Hidx Hrun.
  destruct (transfer_state _ _ _ _ _ _ _ _ _ _ _ Hrun) as (f0 & _ & _ & Hufp & _).
  rewrite Hufp.
  destruct (Empty (vget (_buf r') input) vc);
    destruct (vget (_use_fast_path r) (input * _vcs cfg + vc)) eqn:Hflag; cbn [andb negb orb];
    rewrite ?Hflag; (split; [|intros j Hj; by rewrite ?vget_vset_ne]);
    rewrite ?vget_vset_eq by lia; done.
Qed.

Lemma transfer_dequeues_front_flit_witness :
  ∃ r' c',
    transfer cfg_hold router_bound None 0 0 0 0 0 0 = Ok (r', c')
    ∧ ∃ f0 rest,
        vc_flits (vget (vget (_buf router_bound) 0) 0) = f0 :: rest
        ∧ vc_flits (vget (vget (_buf r') 0) 0) = rest
        ∧ vc_state (vget (vget (_buf r') 0) 0)
          = (if f_tail f0 then idle else vc_state (vget (vget (_buf router_bound) 0) 0))
        ∧ vc_route_set (vget (vget (_buf r') 0) 0)
          = vc_route_set (vget (vget (_buf router_bound) 0) 0)
        ∧ vc_out_port (vget (vget (_buf r') 0) 0)
          = vc_out_port (vget (vget (_buf router_bound) 0) 0)
        ∧ vc_out_vc (vget (vget (_buf r') 0) 0)
          = vc_out_vc (vget (vget (_buf router_bound) 0) 0)
        ∧ (∀ v2, v2 ≠ 0 →
             vget (vget (_buf r') 0) v2 = vget (vget (_buf router_bound) 0) v2)
        ∧ (∀ i2, i2 ≠ 0 → vget (_buf r') i2 = vget (_buf router_bound) i2)
        ∧ (EvQueueVC 0 0 ∈ drop (length (trace router_bound)) (trace r')
           ↔ f_tail f0 = true ∧ rest ≠ []).
Proof.
  do 2 eexists. split; [vm_compute; reflexivity|].
  eapply (transfer_dequeues_front_flit cfg_hold router_bound _ None _ 0 0 0 0 0 0);
    [simpl; lia | simpl; lia | vm_compute; reflexivity].
Defined.

Lemma transfer_reenables_fast_path_witness :
  ∃ r' c',
    transfer cfg_hold router_bound None 0 0 0 0 0 0 = Ok (r', c')
    ∧ vget (_use_fast_path r') (0 * _vcs cfg_hold + 0)
      = vget (_use_fast_path router_bound) (0 * _vcs cfg_hold + 0)
        || Empty (vget (_buf r') 0) 0
    ∧ ∀ j, j ≠ 0 * _vcs cfg_hold + 0 →
        vget (_use_fast_path r') j = vget (_use_fast_path router_bound) j.
Proof.
  do 2 eexists. split; [vm_compute; reflexivity|].
  eapply (transfer_reenables_fast_path cfg_hold router_bound _ None _ 0 0 0 0 0 0);
    [simpl; lia | vm_compute; reflexivity].
Defined.

(** ** Switch holding: creating bindings *)

(** X8.  With switches held for whole packets, a completed transfer of a
    flit that is not a tail flit leaves the crossbar slot bound: the expanded
    input to the expanded output and the VC, the expanded output to the
    expanded input (lines 547-551). *)
Theorem transfer_binds_switch (cfg : Config) (r r' : Router) (c c' : option Credit)
    (input s vc ei eo output : Z) (f0 : Flit) :
  _hold_switch_for_packet cfg = true →
  0 ≤ ei < Z.of_nat (length (_switch_hold_in r)) →
  0 ≤ ei < Z.of_nat (length (_switch_hold_vc r)) →
  0 ≤ eo < Z.of_nat (length (_switch_hold_out r)) →
  FrontFlit (vget (_buf r) input) vc = Some f0 →
  f_tail f0 = false →
  transfer cfg r c input s vc ei eo output = Ok (r', c') →
  vget (_switch_hold_in r') ei = eo
  ∧ vget (_switch_hold_vc r') ei = vc
  ∧ vget (_switch_hold_out r') eo = ei.
Proof.
  intros Hhold Hri Hrv Hro Hfront Htail Hrun.
  destruct (transfer_holds _ _ _ _ _ _ _ _ _ _ _ Hrun) as (f0' & Hfront' & Hholds).
  rewrite Hfront in Hfront'. injection Hfront' as <-. rewrite Htail in Hholds.
  destruct Hholds as (-> & -> & ->). unfold hold_switch. rewrite Hhold. simpl.
  by rewrite !vget_vset_eq by lia.
Qed.

Lemma transfer_binds_switch_witness :
  ∃ r' c',
    transfer cfg_hold router_hold None 0 0 0 0 0 0 = Ok (r', c')
    ∧ vget (_switch_hold_in r') 0 = 0
    ∧ vget (_switch_hold_vc r') 0 = 0
    ∧ vget (_switch_hold_out r') 0 = 0.
Proof.
  do 2 eexists. split; [vm_compute; reflexivity|].
  eapply (transfer_binds_switch cfg_hold router_hold _ None _ 0 0 0 0 0 0 flit_b);
    [reflexivity | simpl; lia | simpl; lia | simpl; lia | reflexivity | reflexivity
    | vm_compute; reflexivity].
Defined.

(** ** Grant resolution: one slot, one transfer *)

(** The round-robin pointers after [transfer] (lines 612-616). *)
Lemma transfer_sw_rr (cfg : Config) (r r' : Router) (c c' : option Credit)
    (input s vc ei eo output : Z) :
  transfer cfg r c input s vc ei eo output = Ok (r', c') →
  _sw_rr_offset r' =
    if negb (vget (_use_fast_path r) (input * _vcs cfg + vc))
    then vset (_sw_rr_offset r) ei
              (if vc + _input_speedup cfg <? _vcs cfg then vc + _input_speedup cfg else s)
    else _sw_rr_offset r.
Proof.
  intros Hrun. unfold transfer in Hrun.
  assert (H0 : _sw_rr_offset (hold_switch cfg r vc ei eo) = _sw_rr_offset r
               ∧ _use_fast_path (hold_switch cfg r vc ei eo) = _use_fast_path r).
  { unfold hold_switch. by destruct (_hold_switch_for_packet cfg). }
  destruct H0 as [Hrr0 Hufp0].
  set (r0 := hold_switch cfg r vc ei eo) in *. unfold assert in Hrun.
  destruct (negb (Empty _ _)); cbn [mbind result_bind] in Hrun; [|discriminate].
  destruct (_ =? output); cbn [mbind result_bind] in Hrun; [|discriminate].
  destruct (negb (IsFullFor _ _)); cbn [mbind result_bind] in Hrun; [|discriminate].
  destruct (FrontFlit _ vc) as [f0|]; [|discriminate].
  destruct (forward_flit r0 c input vc eo output f0)
    as [[[r1 c1] f1]|w] eqn:Hfw; cbn [mbind result_bind] in Hrun; [|discriminate].
  injection Hrun as <- <-.
  assert (Hrr1 : _sw_rr_offset r1 = _sw_rr_offset r0).
  { unfold forward_flit, assert in Hfw. destruct (vc =? _); [|discriminate].
    cbn [mbind result_bind] in Hfw. injection Hfw as <- _ _. by destruct c. }
  apply forward_flit_ok in Hfw as (_ & _ & _ & _ & _ & _ & _ & _ & Hufp1).
  destruct (release_tail_ok r1 input vc ei eo f1) as (_ & Hufp2 & _).
  assert (Hrr2 : _sw_rr_offset (release_tail r1 input vc ei eo f1) = _sw_rr_offset r1).
  { unfold release_tail. destruct (f_tail f1); [|done].
    by destruct (negb (Empty _ vc)). }
  set (r2 := release_tail r1 input vc ei eo f1) in *.
  assert (Hrr4 : ∀ r3, _sw_rr_offset (reenable_fast_path cfg r3 input vc)
                        = _sw_rr_offset r3).
  { intros r3. unfold reenable_fast_path. by destruct (_ && _). }
  rewrite Hrr4. unfold advance_sw_rr. rewrite Hufp2, Hufp1, Hufp0.
  destruct (negb _); simpl; by rewrite Hrr2, Hrr1, Hrr0.
Qed.

(** A slot either leaves the tables alone or runs one [transfer], on a router
    with the same tables, for the pair it picked. *)
Lemma resolve_slot_cases (cfg : Config) (requests : gmap (Z * Z) Request)
    (OutputAssigned : Z → Z) (fvc input s : Z) (r : Router) (c : option Credit)
    (ct : ctl (Router * option Credit)) :
  resolve_slot cfg requests OutputAssigned fvc input s (r, c) = Ok ct →
  ∃ eo vc,
    pick_grant requests OutputAssigned r input (input * _input_speedup cfg + s)
    = Ok (eo, vc)
    ∧ ((∃ r2, same_tables r2 r
          ∧ 0 ≤ eo
          ∧ is_Some (FrontFlit (vget (_buf r) input) vc)
          ∧ transfer cfg r2 c input s vc (input * _input_speedup cfg + s) eo
                     (Z.quot eo (_output_speedup cfg)) = Ok (ctl_state ct))
       ∨ (same_tables (ctl_state ct).1 r ∧ (ctl_state ct).2 = c)).
Proof.
  unfold resolve_slot.
  destruct (pick_grant _ _ _ _ _) as [[eo vc]|w]; cbn [mbind result_bind]; [|discriminate].
  intros Hrun. exists eo, vc. split; [done|].
  destruct (Z.geb_spec eo 0) as [Hge|_].
  - unfold assert at 1 in Hrun.
    destruct (bool_decide_reflect (is_Some (FrontFlit (vget (_buf r) input) vc)))
      as [Hsome|]; cbn [mbind result_bind] in Hrun; [|discriminate].
    destruct (demote_fast_vc cfg r input vc fvc) as [r1|w] eqn:Hd;
      cbn [mbind result_bind] in Hrun; [|discriminate].
    assert (Ht1 : same_tables r1 r).
    { unfold demote_fast_vc, assert in Hd. unfold same_tables.
      destruct (vc =? fvc); [by injection Hd as <-|].
      destruct (fvc >=? 0); [|by injection Hd as <-].
      destruct (vget (_use_fast_path r) _); cbn [mbind result_bind] in Hd; [|discriminate].
      destruct (bool_decide _); cbn [mbind result_bind] in Hd; [|discriminate].
      by injection Hd as <-. }
    destruct (if eVCState_eqb (GetState (vget (_buf r1) input) vc) vc_alloc
              then finalize_vc cfg r1 input vc (Z.quot eo (_output_speedup cfg))
              else Ok r1) as [r2|w] eqn:Hf; cbn [mbind result_bind] in Hrun;
      [|discriminate].
    assert (Ht2 : same_tables r2 r).
    { destruct (eVCState_eqb _ vc_alloc); [|by injection Hf as <-].
      unfold finalize_vc, assert in Hf.
      destruct (select_out_vc _ _ _) as [sel_vc sel_prio].
      destruct (sel_vc >? -1); cbn [mbind result_bind] in Hf; [|discriminate].
      injection Hf as <-. exact Ht1. }
    destruct (eVCState_eqb (GetState (vget (_buf r2) input) vc) active).
    + destruct (transfer cfg r2 c input s vc _ eo _) as [st|w] eqn:Ht;
        cbn [mbind result_bind] in Hrun; [|discriminate].
      injection Hrun as <-. left. exists r2. by rewrite Ht.
    + injection Hrun as <-. by right.
  - right. destruct (_ && _).
    + unfold assert in Hrun.
      destruct (vget (_use_fast_path r) _); cbn [mbind result_bind] in Hrun;
        [|discriminate].
      destruct (bool_decide _); cbn [mbind result_bind] in Hrun; [|discriminate].
      by injection Hrun as <-.
    + by injection Hrun as <-.
Qed.

(** ** Switch holding: routers that do not hold switches *)

Lemma Forall_vset {A} (P : A → Prop) (v : list A) (i : Z) (x : A) :
  Forall P v → P x → Forall P (vset v i x).
Proof.
  intros Hv Hx. unfold vset. destruct (i <? 0); [done|]. by apply Forall_insert.
Qed.

Lemma no_bindings_same_tables (r1 r2 : Router) :
  same_tables r1 r2 → no_bindings r2 → no_bindings r1.
Proof. intros (Hi & Hv & Ho & _). unfold no_bindings. by rewrite Hi, Hv, Ho. Qed.

Lemma transfer_no_bindings (cfg : Config) (r r' : Router) (c c' : option Credit)
    (input s vc ei eo output : Z) :
  _hold_switch_for_packet cfg = false →
  no_bindings r →
  transfer cfg r c input s vc ei eo output = Ok (r', c') →
  no_bindings r'.
Proof.
  intros Hoff (Hi & Hv & Ho) Hrun.
  destruct (transfer_holds _ _ _ _ _ _ _ _ _ _ _ Hrun) as (f0 & _ & Hholds).
  unfold hold_switch in Hholds. rewrite Hoff in Hholds. unfold no_bindings.
  destruct (f_tail f0); destruct Hholds as (-> & -> & ->);
    auto using Forall_vset.
Qed.

Lemma resolve_grants_no_bindings (cfg : Config) (requests : gmap (Z * Z) Request)
    (OutputAssigned : Z → Z) (fast_path_vcs : list Z) (r r' : Router) :
  _hold_switch_for_packet cfg = false →
  no_bindings r →
  resolve_grants cfg requests OutputAssigned fast_path_vcs r = Ok r' →
  no_bindings r'.
Proof.
  intros Hoff Hnb Hrun. unfold resolve_grants in Hrun.
  apply (for_loop_inv no_bindings) in Hrun; [done|done|].
  intros input r1 ct _ Hr1. unfold resolve_input.
  destruct (for_loop (resolve_slot cfg requests OutputAssigned _ input) _ _)
    as [[r2 c2]|w] eqn:Hloop; cbn [mbind result_bind]; [|discriminate].
  intros [= <-]. cbn [ctl_state].
  apply (for_loop_inv (fun st : Router * option Credit => no_bindings st.1)) in Hloop;
    [done|done|].
  intros s [r3 c3] ct3 _ Hr3 Hslot. cbn [fst] in Hr3.
  destruct (resolve_slot_cases _ _ _ _ _ _ _ _ _ Hslot)
    as (eo & vc & _ & [(r4 & Hsame & _ & _ & Ht)|[Hsame _]]).
  - destruct (ctl_state ct3) as [r5 c5]. cbn [fst].
    eapply transfer_no_bindings; [done| |exact Ht].
    by eapply no_bindings_same_tables.
  - by eapply no_bindings_same_tables.
Qed.

(** X9.  A router that is not configured to hold switches for whole packets
    never binds a crossbar slot: when no slot is bound before an allocation
    step, none is bound after it, whatever the allocator assigns. *)
Theorem no_holding_no_bindings (cfg : Config)
    (Allocate : gmap (Z * Z) Request → Z → Z) (r r' : Router) :
  _hold_switch_for_packet cfg = false →
  no_bindings r →
  _Alloc cfg Allocate r = Ok r' →
  no_bindings r'.
Proof.
  intros Hoff Hnb. unfold _Alloc.
  destruct (build_requests cfg r) as [[fvcs a]|w]; cbn [mbind result_bind];
    [|discriminate].
  by apply resolve_grants_no_bindings.
Qed.

Lemma no_holding_no_bindings_witness :
  ∃ r', _Alloc cfg_single (greedy_for cfg_single) router_single = Ok r'
        ∧ no_bindings r'.
Proof.
  eexists. split; [vm_compute; reflexivity|].
  eapply (no_holding_no_bindings cfg_single (greedy_for cfg_single) router_single);
    [reflexivity | repeat constructor | vm_compute; reflexivity].
Defined.

(** ** The round-robin invariant *)

(** A property of the allocator that every [AddRequest] call keeps is kept
    by request building. *)
Lemma build_requests_inv (I : ReqSt → Prop) (cfg : Config) (r : Router)
    (fast_path_vcs : list Z) (a : ReqSt) :
  I (mkReqSt ∅ []) →
  (∀ p a ei eo vc pri q, I a → I (add_request p a ei eo vc pri q)) →
  build_requests cfg r = Ok (fast_path_vcs, a) → I a.
Proof.
  intros Hinit Hadd Hrun. unfold build_requests in Hrun.
  apply (for_loop_inv (fun st : list Z * ReqSt => I st.2)) in Hrun; [done|done|].
  intros input [fvcs a1] c1 _ Ha1. cbn [snd] in Ha1. unfold input_body.
  destruct (slow_path cfg r input a1) as [a2|w] eqn:Hslow; cbn [mbind result_bind];
    [|discriminate].
  destruct (fast_path cfg r input a2) as [[fvc a3]|w] eqn:Hfast;
    cbn [mbind result_bind]; [|discriminate].
  intros [= <-]. cbn [ctl_state snd].
  assert (Ha2 : I a2).
  { unfold slow_path in Hslow.
    apply (for_loop_inv I) in Hslow; [done|done|].
    intros s a4 c4 _ Ha4. unfold slow_slot, assert.
    destruct (_ =? s); cbn [mbind result_bind]; [|discriminate].
    destruct (for_loop (slow_vc_body cfg r input s) _ _) as [[vc a5]|w] eqn:Hloop;
      cbn [mbind result_bind]; [|discriminate].
    intros [= <-]. cbn [ctl_state].
    apply (for_loop_inv (fun st : Z * ReqSt => I st.2)) in Hloop; [done|done|].
    intros v [vc1 a6] c6 _ Ha6. cbn [snd] in Ha6. unfold slow_vc_body.
    destruct (negb _); [|by intros [= <-]].
    destruct (FrontFlit _ _); [|discriminate].
    destruct (not_ready _ _ _); [by intros [= <-]|].
    destruct (for_loop (slow_output_body _ _ _ _ _ _ _ _) _ _) as [[o a7]|w] eqn:Hout;
      cbn [mbind result_bind]; [|discriminate].
    intros [= <-]. cbn [ctl_state snd].
    apply (for_loop_inv (fun st : Z * ReqSt => I st.2)) in Hout; [done|done|].
    intros idx [o1 a8] c8 _ Ha8. cbn [snd] in Ha8. unfold slow_output_body, assert.
    destruct (_ =? _ + _); cbn [mbind result_bind]; [|discriminate].
    destruct (_ && _).
    - destruct (negb _); cbn [mbind result_bind]; [|discriminate].
      destruct (scan_candidates _ _ _ _ _ _ _) as [[] pri]; cbn [mbind result_bind];
        destruct (eVCState_eqb _ active); intros [= <-]; cbn [ctl_state snd]; auto.
    - cbn [mbind result_bind].
      destruct (eVCState_eqb _ active); by intros [= <-]. }
  unfold fast_path in Hfast.
  apply (for_loop_inv (fun st : Z * ReqSt => I st.2)) in Hfast; [done|done|].
  intros vc [fv a4] c4 _ Ha4. cbn [snd] in Ha4. rewrite fast_vc_body_eq.
  destruct (fast_eligible _ _ _ _); [|by intros [= <-]].
  unfold assert. destruct (fv <? 0); cbn [mbind result_bind]; [|discriminate].
  destruct (for_loop _ _ a4) as [a5|w] eqn:Hout; cbn [mbind result_bind];
    [|discriminate].
  intros [= <-]. cbn [ctl_state snd].
  apply (for_loop_inv I) in Hout; [done|done|].
  intros idx a6 c6 _ Ha6. unfold fast_output_body.
  destruct (_ >=? 0); [destruct (eVCState_eqb _ active); by intros [= <-]|].
  unfold assert. destruct (_ || _); cbn [mbind result_bind]; [|discriminate].
  destruct (scan_candidates _ _ _ _ _ _ _) as [[] pri];
    destruct (eVCState_eqb _ active); intros [= <-]; cbn [ctl_state]; auto.
Qed.

(** The request matrix is what the recorded calls build. *)
Lemma build_requests_replay (cfg : Config) (r : Router) (fast_path_vcs : list Z)
    (a : ReqSt) :
  build_requests cfg r = Ok (fast_path_vcs, a) → reqs a = replay (calls a).
Proof.
  apply (build_requests_inv (fun a => reqs a = replay (calls a))); [done|].
  intros p a1 ei eo vc pri q Ha1. simpl. unfold replay.
  rewrite foldl_snoc. fold (replay (calls a1)). by rewrite <- Ha1.
Qed.

Lemma replay_lookup (evs : list event) (ei eo : Z) (req : Request) :
  replay evs !! (ei, eo) = Some req →
  ∃ p pri q, EvAddRequest p ei eo (r_label req) pri q ∈ evs.
Proof.
  induction evs as [|e evs IH] using rev_ind; [done|].
  unfold replay. rewrite foldl_snoc. fold (replay evs).
  intros Hlook.
  assert (Hold : replay evs !! (ei, eo) = Some req →
            ∃ p pri q, EvAddRequest p ei eo (r_label req) pri q ∈ evs ++ [e]).
  { intros (p & pri & q & Hin)%IH. exists p, pri, q. apply elem_of_app. by left. }
  destruct e as [p i o v pri q| | | | | | | | |]; simpl in Hlook; auto.
  unfold AddRequest in Hlook.
  assert (Hnew : <[(i, o) := mkRequest v pri q]> (replay evs) !! (ei, eo) = Some req →
            ∃ p' pri' q', EvAddRequest p' ei eo (r_label req) pri' q'
                          ∈ evs ++ [EvAddRequest p i o v pri q]).
  { destruct (decide ((i, o) = (ei, eo))) as [[= -> ->]|Hne].
    - rewrite lookup_insert_eq. intros [= <-]. exists p, pri, q.
      apply elem_of_app. right. by apply list_elem_of_singleton.
    - rewrite lookup_insert_ne by done. apply Hold. }
  destruct (replay evs !! (i, o)) as [old|]; [|auto].
  destruct (r_in_pri old <? pri); auto.
Qed.

Lemma Empty_false_nonneg (b : Buffer) (vc : Z) : Empty b vc = false → 0 ≤ vc.
Proof.
  unfold Empty, vget. destruct (Z.ltb_spec vc 0); [done|lia].
Qed.

Lemma FrontFlit_nonneg (b : Buffer) (vc : Z) : is_Some (FrontFlit b vc) → 0 ≤ vc.
Proof.
  unfold FrontFlit, vget. destruct (Z.ltb_spec vc 0); [|lia]. by intros [f [=]].
Qed.

Lemma slot_unique (S a b a' b' : Z) :
  0 ≤ b < S → 0 ≤ b' < S → a * S + b = a' * S + b' → a = a' ∧ b = b'.
Proof.
  intros Hb Hb' Heq.
  assert (a = a') as ->.
  { destruct (Z.lt_trichotomy a a') as [Hlt|[Heq'|Hgt]]; [|done|].
    - assert (a + 1 ≤ a') by lia. nia.
    - assert (a' + 1 ≤ a) by lia. nia. }
  split; [done|lia].
Qed.

Lemma build_requests_in_class (cfg : Config) (r : Router) (fast_path_vcs : list Z)
    (a : ReqSt) :
  0 < _input_speedup cfg →
  build_requests cfg r = Ok (fast_path_vcs, a) →
  reqs_in_class cfg (reqs a).
Proof.
  intros HS Hrun input s eo req Hin Hs Hlook.
  rewrite (build_requests_replay _ _ _ _ Hrun) in Hlook.
  apply replay_lookup in Hlook as (p & pri & q & Hel).
  pose proof (build_requests_justified_aux _ _ _ _ Hrun) as Hall.
  rewrite Forall_forall in Hall. specialize (Hall _ Hel).
  destruct Hall as (p' & input0 & vc & output & pri' & Heq & _ & Hne & _).
  injection Heq as _ Hei _ Hvc _ _. rewrite Hvc in *.
  apply Empty_false_nonneg in Hne.
  pose proof (Z.rem_bound_pos vc (_input_speedup cfg) Hne HS) as Hb.
  destruct (slot_unique _ _ _ _ _ Hs Hb Hei) as [_ ->]. done.
Qed.

Lemma rr_inv_same_tables (cfg : Config) (r1 r2 : Router) :
  same_tables r1 r2 → rr_inv cfg r2 → rr_inv cfg r1.
Proof. intros (Hi & Hv & _ & Hr). unfold rr_inv. by rewrite Hi, Hv, Hr. Qed.

(** The VC a slot picks is a VC of that slot. *)
Lemma pick_grant_in_class (cfg : Config) (requests : gmap (Z * Z) Request)
    (OutputAssigned : Z → Z) (r : Router) (input s eo vc : Z) :
  0 ≤ input < _inputs cfg → 0 ≤ s < _input_speedup cfg →
  rr_inv cfg r → reqs_in_class cfg requests →
  pick_grant requests OutputAssigned r input (input * _input_speedup cfg + s)
  = Ok (eo, vc) →
  0 ≤ vc →
  Z.rem vc (_input_speedup cfg) = s.
Proof.
  intros Hin Hs (_ & _ & _ & Hrr) Hreq Hpick Hvc.
  destruct (Hrr input s Hin Hs) as [_ Hheld].
  unfold pick_grant, assert in Hpick.
  destruct (Z.eqb_spec (vget (_switch_hold_in r) (input * _input_speedup cfg + s)) (-1))
    as [|Hne]; cbn [negb] in Hpick.
  - destruct (OutputAssigned _ >=? 0); [|injection Hpick as _ <-; lia].
    injection Hpick as <- <-. unfold ReadRequest in *.
    destruct (requests !! _) as [req|] eqn:Hlook; [|lia].
    by destruct (Hreq _ _ _ _ Hin Hs Hlook).
  - destruct (_ >=? 0); cbn [mbind result_bind] in Hpick; [|discriminate].
    destruct (Hheld Hne) as [_ Hclass].
    destruct (Empty _ _); by injection Hpick as _ <-.
Qed.

Lemma transfer_rr_inv (cfg : Config) (r r' : Router) (c c' : option Credit)
    (input s vc eo output : Z) :
  0 < _input_speedup cfg →
  0 ≤ input < _inputs cfg → 0 ≤ s < _input_speedup cfg →
  0 ≤ vc → Z.rem vc (_input_speedup cfg) = s →
  rr_inv cfg r →
  transfer cfg r c input s vc (input * _input_speedup cfg + s) eo output = Ok (r', c') →
  rr_inv cfg r'.
Proof.
  intros HS Hin Hs Hvc Hclass (Hl1 & Hl2 & Hl3 & Hrr) Hrun.
  set (ei := input * _input_speedup cfg + s) in *.
  assert (Hei : 0 ≤ ei < _inputs cfg * _input_speedup cfg) by (subst ei; nia).
  pose proof (transfer_sw_rr _ _ _ _ _ _ _ _ _ _ _ Hrun) as Hsw.
  destruct (transfer_holds _ _ _ _ _ _ _ _ _ _ _ Hrun) as (f0 & _ & Hholds).
  set (r0 := hold_switch cfg r vc ei eo) in *.
  assert (H0 : (_switch_hold_in r0 = _switch_hold_in r
                ∧ _switch_hold_vc r0 = _switch_hold_vc r)
               ∨ (_switch_hold_in r0 = vset (_switch_hold_in r) ei eo
                  ∧ _switch_hold_vc r0 = vset (_switch_hold_vc r) ei vc)).
  { subst r0. unfold hold_switch. destruct (_hold_switch_for_packet cfg); auto. }
  assert (Hnext : ∀ x, x = (if vc + _input_speedup cfg <? _vcs cfg
                            then vc + _input_speedup cfg else s) →
                  0 ≤ x ∧ Z.rem x (_input_speedup cfg) = s).
  { intros x ->. destruct (_ <? _).
    - split; [lia|]. rewrite Z.rem_mod_nonneg in * by lia. rewrite <- Hclass.
      rewrite <- (Z.mul_1_l (_input_speedup cfg)) at 1. apply Z.mod_add. lia.
    - split; [lia|]. apply Z.rem_small. lia. }
  assert (Hlen : length (_sw_rr_offset r') = length (_sw_rr_offset r)
                 ∧ length (_switch_hold_in r') = length (_switch_hold_in r)
                 ∧ length (_switch_hold_vc r') = length (_switch_hold_vc r)).
  { rewrite Hsw. split; [destruct (negb _); by rewrite ?length_vset|].
    destruct (f_tail f0); destruct Hholds as (-> & -> & _);
      destruct H0 as [[-> ->]|[-> ->]]; by rewrite ?length_vset. }
  destruct Hlen as (Hn1 & Hn2 & Hn3). unfold rr_inv. rewrite Hn1, Hn2, Hn3.
  do 3 (split; [done|]). intros input' s' Hin' Hs'. cbv zeta.
  set (ei' := input' * _input_speedup cfg + s').
  destruct (Hrr input' s' Hin' Hs') as [Hptr Hheld]. fold ei' in Hptr, Hheld.
  destruct (decide (ei = ei')) as [Heq|Hne].
  - assert (s = s') as <-.
    { subst ei ei'. by destruct (slot_unique _ _ _ _ _ Hs Hs' Heq). }
    rewrite <- Heq in *. split.
    + rewrite Hsw. destruct (negb _); [|done].
      rewrite vget_vset_eq by lia. by apply Hnext.
    + destruct (f_tail f0); destruct Hholds as (-> & -> & _);
        destruct H0 as [[-> ->]|[-> ->]];
        rewrite ?vget_vset_eq by (rewrite ?length_vset; lia); done.
  - split.
    + rewrite Hsw. destruct (negb _); [|done]. by rewrite vget_vset_ne.
    + destruct (f_tail f0); destruct Hholds as (-> & -> & _);
        destruct H0 as [[-> ->]|[-> ->]]; rewrite ?vget_vset_ne by done; done.
Qed.

Lemma resolve_slot_rr_inv (cfg : Config) (requests : gmap (Z * Z) Request)
    (OutputAssigned : Z → Z) (fvc input s : Z) (r : Router) (c : option Credit)
    (ct : ctl (Router * option Credit)) :
  0 < _input_speedup cfg →
  0 ≤ input < _inputs cfg → 0 ≤ s < _input_speedup cfg →
  reqs_in_class cfg requests →
  rr_inv cfg r →
  resolve_slot cfg requests OutputAssigned fvc input s (r, c) = Ok ct →
  rr_inv cfg (ctl_state ct).1.
Proof.
  intros HS Hin Hs Hreq Hinv Hslot.
  destruct (resolve_slot_cases _ _ _ _ _ _ _ _ _ Hslot)
    as (eo & vc & Hpick & [(r2 & Hsame & _ & Hfront & Ht)|[Hsame _]]).
  - apply FrontFlit_nonneg in Hfront.
    pose proof (pick_grant_in_class _ _ _ _ _ _ _ _ Hin Hs Hinv Hreq Hpick Hfront)
      as Hclass.
    destruct (ctl_state ct) as [r3 c3]. cbn [fst].
    eapply transfer_rr_inv; [done|exact Hin|exact Hs|exact Hfront|exact Hclass| |exact Ht].
    by eapply rr_inv_same_tables.
  - by eapply rr_inv_same_tables.
Qed.

Lemma resolve_grants_rr_inv (cfg : Config) (requests : gmap (Z * Z) Request)
    (OutputAssigned : Z → Z) (fast_path_vcs : list Z) (r r' : Router) :
  0 < _input_speedup cfg →
  reqs_in_class cfg requests →
  rr_inv cfg r →
  resolve_grants cfg requests OutputAssigned fast_path_vcs r = Ok r' →
  rr_inv cfg r'.
Proof.
  intros HS Hreq Hinv Hrun. unfold resolve_grants in Hrun.
  apply (for_loop_inv (rr_inv cfg)) in Hrun; [done|done|].
  intros input r1 ct Hin%elem_of_seqZ Hr1. unfold resolve_input.
  destruct (for_loop (resolve_slot cfg requests OutputAssigned _ input) _ _)
    as [[r2 c2]|w] eqn:Hloop; cbn [mbind result_bind]; [|discriminate].
  intros [= <-]. cbn [ctl_state].
  apply (for_loop_inv (fun st : Router * option Credit => rr_inv cfg st.1)) in Hloop;
    [done|done|].
  intros s [r3 c3] ct3 Hs%elem_of_seqZ Hr3 Hslot. cbn [fst] in Hr3.
  eapply resolve_slot_rr_inv; [done| | |done|exact Hr3|exact Hslot]; lia.
Qed.

Lemma init_sw_rr_offset_length (cfg : Config) (v : list Z) :
  length (init_sw_rr_offset cfg v) = length v.
Proof.
  unfold init_sw_rr_offset. generalize (seqZ 0 (_inputs cfg * _input_speedup cfg)).
  intros l. revert v. induction l as [|i l IH]; intros v; simpl; [done|].
  by rewrite IH, length_vset.
Qed.

Lemma init_sw_rr_offset_read (cfg : Config) (input s : Z) :
  0 ≤ input < _inputs cfg → 0 ≤ s < _input_speedup cfg →
  let v := init_sw_rr_offset cfg
             (replicate (Z.to_nat (_inputs cfg * _input_speedup cfg)) 0) in
  length v = Z.to_nat (_inputs cfg * _input_speedup cfg)
  ∧ vget v (input * _input_speedup cfg + s) = s.
Proof.
  intros Hin Hs. cbv zeta. unfold init_sw_rr_offset.
  pose proof (foldl_vset_seqZ (fun i => Z.rem i (_input_speedup cfg))
                (replicate (Z.to_nat (_inputs cfg * _input_speedup cfg)) 0)
                (Z.to_nat (_inputs cfg * _input_speedup cfg))) as [Hlen Hf].
  rewrite Z2Nat.id in Hf, Hlen by nia. rewrite length_replicate in Hlen, Hf.
  split; [done|]. rewrite Hf by nia. apply Z_rem_slot; lia.
Qed.

(** X10.  The round-robin invariant (every round-robin pointer and every
    VC of a bound slot is a non-negative VC of its own speedup slot) holds
    after the constructor, when the base class leaves no slot bound, and is
    kept by every allocation step that completes, whatever the allocator
    assigns.  So the assertions of lines 96 and 151 never fail. *)
Theorem round_robin_invariant (cfg : Config) :
  0 < _input_speedup cfg →
  (∀ base r,
     _inputs cfg * _input_speedup cfg ≤ Z.of_nat (length (_switch_hold_in base)) →
     _inputs cfg * _input_speedup cfg ≤ Z.of_nat (length (_switch_hold_vc base)) →
     Forall (fun x => x = -1) (_switch_hold_in base) →
     IQRouterSplit cfg 0 base = Constructed r → rr_inv cfg r)
  ∧ (∀ Allocate r r',
       rr_inv cfg r → _Alloc cfg Allocate r = Ok r' → rr_inv cfg r').
Proof.
  intros HS. split.
  - intros base r Hl1 Hl2 Hfree [= <-]. unfold rr_inv. simpl.
    split; [|split; [done|split; [done|]]].
    + rewrite init_sw_rr_offset_length, length_replicate. lia.
    + intros input s Hin Hs.
      destruct (init_sw_rr_offset_read cfg input s Hin Hs) as [_ ->].
      split; [split; [lia|apply Z.rem_small; lia]|].
      intros Hne. exfalso. apply Hne.
      assert (Hei : 0 ≤ input * _input_speedup cfg + s
                    < Z.of_nat (length (_switch_hold_in base))) by nia.
      unfold vget. destruct (Z.ltb_spec (input * _input_speedup cfg + s) 0); [lia|].
      destruct (lookup_lt_is_Some_2 (_switch_hold_in base)
                  (Z.to_nat (input * _input_speedup cfg + s)) ltac:(lia)) as [x Hx].
      rewrite (list_lookup_total_correct _ _ _ Hx).
      rewrite Forall_lookup in Hfree. by apply (Hfree _ _ Hx).
  - intros Allocate r r' Hinv. unfold _Alloc.
    destruct (build_requests cfg r) as [[fvcs a]|w] eqn:Hbuild; cbn [mbind result_bind];
      [|discriminate].
    apply resolve_grants_rr_inv; [done| |done].
    by eapply build_requests_in_class.
Qed.

Lemma round_robin_invariant_witness :
  (∃ r, IQRouterSplit cfg_single 0 base_single = Constructed r ∧ rr_inv cfg_single r)
  ∧ (rr_inv cfg_single router_single
     ∧ ∃ r', _Alloc cfg_single (greedy_for cfg_single) router_single = Ok r'
             ∧ rr_inv cfg_single r').
Proof.
  assert (HS : 0 < _input_speedup cfg_single) by (simpl; lia).
  destruct (round_robin_invariant cfg_single HS) as [Hinit Hkeep].
  assert (Hbase : ∃ r, IQRouterSplit cfg_single 0 base_single = Constructed r
                       ∧ rr_inv cfg_single r).
  { eexists. split; [reflexivity|].
    apply (Hinit base_single); [simpl; lia | simpl; lia | repeat constructor | reflexivity]. }
  split; [exact Hbase|].
  assert (Hsingle : rr_inv cfg_single router_single).
  { unfold rr_inv. simpl. repeat (split; [lia|]). intros input s Hin Hs.
    assert (input = 0) as -> by lia. assert (s = 0) as -> by lia.
    split; [split; [vm_compute; discriminate|reflexivity]|].
    intros Hne. exfalso. by apply Hne. }
  split; [exact Hsingle|].
  eexists. split; [vm_compute; reflexivity|].
  eapply (Hkeep (greedy_for cfg_single) router_single); [exact Hsingle|].
  vm_compute; reflexivity.
Defined.

(** ** A whole cycle of grant resolution *)

(** A loop whose body never breaks visits every index; a property of the
    indices visited so far and of the state is then a property of the whole
    index list. *)
Lemma for_loop_inv_all {S} (J : list Z → S → Prop) (body : Z → S → result (ctl S))
    (idxs : list Z) (s s' : S) :
  J [] s →
  (∀ visited i s1 c, J visited s1 → body i s1 = Ok c →
     ∃ s2, c = Continue s2 ∧ J (visited ++ [i]) s2) →
  for_loop body idxs s = Ok s' → J idxs s'.
Proof.
  intros Hinit Hbody.
  assert (Hgen : ∀ visited s, J visited s → for_loop body idxs s = Ok s' →
                   J (visited ++ idxs) s').
  { clear s Hinit. induction idxs as [|i rest IH]; intros visited s Hs Hrun.
    - simpl in Hrun. injection Hrun as <-. by rewrite app_nil_r.
    - simpl in Hrun. destruct (body i s) as [c|w] eqn:Hb; [|discriminate].
      destruct (Hbody visited i s c Hs Hb) as (s2 & -> & Hs2).
      rewrite cons_middle, app_assoc. by apply (IH _ s2). }
  apply (Hgen [] s Hinit).
Qed.

Lemma count_app (k : kind) (l1 l2 : list event) :
  count k (l1 ++ l2) = (count k l1 + count k l2)%nat.
Proof. induction l1 as [|e l1 IH]; simpl; [done|]. rewrite IH. lia. Qed.

Lemma conserved_app (n1 n2 : nat) (l1 l2 : list event) :
  conserved n1 l1 → conserved n2 l2 → conserved (n1 + n2) (l1 ++ l2).
Proof.
  intros (He1 & Hs1 & Hw1 & Hb1 & Ha1) (He2 & Hs2 & Hw2 & Hb2 & Ha2). unfold conserved.
  rewrite !count_app. lia.
Qed.

(** The calls of one speedup slot: an optional [TakeBuffer], then either
    nothing or the calls of one transfer. *)
Lemma resolve_slot_events (cfg : Config) (requests : gmap (Z * Z) Request)
    (OutputAssigned : Z → Z) (fvc input s : Z) (r : Router) (c : option Credit)
    (ct : ctl (Router * option Credit)) :
  resolve_slot cfg requests OutputAssigned fvc input s (r, c) = Ok ct →
  ∃ st evs, ct = Continue st ∧ trace st.1 = trace r ++ evs
    ∧ count KCreditWrite evs = 0%nat ∧ count KWriteAllNull evs = 0%nat
    ∧ conserved 1 evs.
Proof.
  intros Hrun.
  assert (Hct : ∃ st, ct = Continue st).
  { unfold resolve_slot in Hrun.
    destruct (pick_grant _ _ _ _ _) as [[eo vc]|w]; cbn [mbind result_bind] in Hrun;
      [|discriminate].
    destruct (eo >=? 0).
    - unfold assert at 1 in Hrun.
      destruct (bool_decide _); cbn [mbind result_bind] in Hrun; [|discriminate].
      destruct (demote_fast_vc _ _ _ _ _) as [r1|w]; cbn [mbind result_bind] in Hrun;
        [|discriminate].
      destruct (if eVCState_eqb _ vc_alloc then _ else _) as [r2|w];
        cbn [mbind result_bind] in Hrun; [|discriminate].
      destruct (eVCState_eqb _ active).
      + destruct (transfer _ _ _ _ _ _ _ _ _) as [st|w];
          cbn [mbind result_bind] in Hrun; [|discriminate].
        injection Hrun as <-. by eexists.
      + injection Hrun as <-. by eexists.
    - destruct (_ && _).
      + unfold assert in Hrun.
        destruct (vget (_use_fast_path r) _); cbn [mbind result_bind] in Hrun;
          [|discriminate].
        destruct (bool_decide _); cbn [mbind result_bind] in Hrun; [|discriminate].
        injection Hrun as <-. by eexists.
      + injection Hrun as <-. by eexists. }
  destruct Hct as [st ->]. exists st.
  unfold resolve_slot in Hrun.
  destruct (pick_grant _ _ _ _ _) as [[eo vc]|w]; cbn [mbind result_bind] in Hrun;
    [|discriminate].
  destruct (eo >=? 0).
  - unfold assert at 1 in Hrun.
    destruct (bool_decide _); cbn [mbind result_bind] in Hrun; [|discriminate].
    destruct (demote_fast_vc cfg r input vc fvc) as [r1|w] eqn:Hd;
      cbn [mbind result_bind] in Hrun; [|discriminate].
    apply demote_fast_vc_frame in Hd as (_ & _ & Htr1 & _).
    destruct (if eVCState_eqb (GetState (vget (_buf r1) input) vc) vc_alloc
              then finalize_vc cfg r1 input vc (Z.quot eo (_output_speedup cfg))
              else Ok r1) as [r2|w] eqn:Hf; cbn [mbind result_bind] in Hrun;
      [|discriminate].
    assert (Hpre : ∃ pre, trace r2 = trace r ++ pre
                     ∧ (pre = [] ∨ ∃ o v, pre = [EvTakeBuffer o v])).
    { destruct (eVCState_eqb _ vc_alloc).
      - apply finalize_vc_frame in Hf as ((sel_vc & Ht) & _).
        eexists. rewrite Ht, Htr1. split; [reflexivity|]. right. by do 2 eexists.
      - injection Hf as <-. exists []. rewrite app_nil_r. auto. }
    destruct Hpre as (pre & Htr2 & Hpre).
    destruct (eVCState_eqb (GetState (vget (_buf r2) input) vc) active).
    + destruct (transfer cfg r2 c input s vc _ eo _) as [[r3 c3]|w] eqn:Ht;
        cbn [mbind result_bind] in Hrun; [|discriminate].
      injection Hrun as <-. cbn [fst].
      apply transfer_ok in Ht as (f0 & tl & _ & _ & _ & _ & Htl & Ht3).
      eexists. split; [reflexivity|]. split; [rewrite Ht3, Htr2, <- app_assoc; reflexivity|].
      unfold conserved.
      destruct Hpre as [-> | (o & v & ->)], c, Htl as [-> | [-> _]];
        cbn; repeat split; lia.
    + injection Hrun as <-. cbn [fst]. exists pre. split; [done|]. split; [done|].
      unfold conserved. destruct Hpre as [-> | (o & v & ->)]; cbn; repeat split; lia.
  - exists []. destruct (_ && _).
    + unfold assert in Hrun.
      destruct (vget (_use_fast_path r) _); cbn [mbind result_bind] in Hrun;
        [|discriminate].
      destruct (bool_decide _); cbn [mbind result_bind] in Hrun; [|discriminate].
      injection Hrun as <-. cbn [fst]. rewrite app_nil_r.
      unfold conserved. cbn. repeat split; lia.
    + injection Hrun as <-. cbn [fst]. rewrite app_nil_r.
      unfold conserved. cbn. repeat split; lia.
Qed.

Lemma no_credit_write (evs : list event) :
  count KCreditWrite evs = 0%nat → omap credit_write_input evs = [].
Proof.
  induction evs as [|e evs IH]; [done|]. simpl.
  destruct e; simpl; try (intros; apply IH; lia). lia.
Qed.

Lemma resolve_grants_conserves (cfg : Config) (requests : gmap (Z * Z) Request)
    (OutputAssigned : Z → Z) (fast_path_vcs : list Z) (r r' : Router) :
  resolve_grants cfg requests OutputAssigned fast_path_vcs r = Ok r' →
  ∃ evs, trace r' = trace r ++ EvCrossbarWriteAllNull :: evs
    ∧ count KWriteAllNull evs = 0%nat
    ∧ omap credit_write_input evs = seqZ 0 (_inputs cfg)
    ∧ conserved (length (seqZ 0 (_inputs cfg)) * length (seqZ 0 (_input_speedup cfg)))
                evs.
Proof.
  intros Hrun. unfold resolve_grants in Hrun.
  set (nS := length (seqZ 0 (_input_speedup cfg))).
  apply (for_loop_inv_all
           (fun visited r1 => ∃ evs,
              trace r1 = trace r ++ EvCrossbarWriteAllNull :: evs
              ∧ count KWriteAllNull evs = 0%nat
              ∧ omap credit_write_input evs = visited
              ∧ conserved (length visited * nS) evs)) in Hrun; [done| |].
  { exists []. unfold conserved. simpl. repeat split; try done; lia. }
  intros visited input r1 ct (evs & Htr & Hclr & Hcw & Hcons). unfold resolve_input.
  destruct (for_loop (resolve_slot cfg requests OutputAssigned _ input) _ _)
    as [[r2 c2]|w] eqn:Hloop; cbn [mbind result_bind]; [|discriminate].
  intros [= <-]. eexists. split; [reflexivity|].
  apply (for_loop_inv_all
           (fun seen (st : Router * option Credit) => ∃ evs2,
              trace st.1 = trace r1 ++ evs2
              ∧ count KCreditWrite evs2 = 0%nat
              ∧ count KWriteAllNull evs2 = 0%nat
              ∧ conserved (length seen) evs2)) in Hloop.
  - destruct Hloop as (evs2 & Htr2 & Hcw2 & Hclr2 & Hcons2). cbn [fst] in Htr2.
    fold nS in Hcons2.
    exists (evs ++ evs2 ++ [EvCreditWrite c2 input]). simpl.
    split; [rewrite Htr2, Htr, <- !app_assoc; by simpl|].
    split; [rewrite !count_app; simpl; lia|].
    split; [rewrite !omap_app, Hcw, (no_credit_write _ Hcw2); by simpl|].
    rewrite length_app. simpl.
    replace ((length visited + 1) * nS)%nat with (length visited * nS + (nS + 0))%nat
      by lia.
    apply conserved_app; [done|]. apply conserved_app; [done|].
    unfold conserved. simpl. repeat split; lia.
  - exists []. cbn [fst]. rewrite app_nil_r. unfold conserved. simpl. repeat split; lia.
  - intros seen s [r3 c3] ct3 (evs3 & Htr3 & Hcw3 & Hclr3 & Hcons3) Hslot.
    cbn [fst] in Htr3.
    destruct (resolve_slot_events _ _ _ _ _ _ _ _ _ Hslot)
      as (st & evs4 & -> & Htr4 & Hcw4 & Hclr4 & Hcons4).
    exists st. split; [done|]. exists (evs3 ++ evs4).
    split; [by rewrite Htr4, Htr3, app_assoc|].
    split; [rewrite count_app; lia|]. split; [rewrite count_app; lia|].
    rewrite length_app. simpl. by apply conserved_app.
Qed.

Lemma justified_are_requests (cfg : Config) (r : Router) (l : list event) :
  Forall (request_justified cfg r) l → count KAddRequest l = length l.
Proof.
  induction 1 as [|e l (p & i & v & o & pri & He) _ IH]; [done|].
  cbn zeta in He. destruct He as [-> _]. simpl. by rewrite IH.
Qed.

(** X11.  The calls of a completed allocation step, in order: the
    [AddRequest] calls of request building; one [WriteAll(NULL)] on the
    crossbar pipeline; then grant resolution, which adds no request, writes
    the credit pipeline exactly once per input, in ascending order of inputs,
    and enters every flit it dequeues in a credit, reports it to a downstream
    tracker and writes it to the crossbar, each exactly once.  No more flits
    move than there are expanded inputs. *)
Theorem alloc_step_trace (cfg : Config) (Allocate : gmap (Z * Z) Request → Z → Z)
    (r r' : Router) :
  _Alloc cfg Allocate r = Ok r' →
  ∃ fast_path_vcs a evs,
    build_requests cfg r = Ok (fast_path_vcs, a)
    ∧ trace r' = trace r ++ calls a ++ EvCrossbarWriteAllNull :: evs
    ∧ count KAddRequest (calls a) = length (calls a)
    ∧ count KWriteAllNull evs = 0%nat
    ∧ omap credit_write_input evs = seqZ 0 (_inputs cfg)
    ∧ conserved (length (seqZ 0 (_inputs cfg)) * length (seqZ 0 (_input_speedup cfg)))
                evs.
Proof.
  unfold _Alloc.
  destruct (build_requests cfg r) as [[fvcs a]|w] eqn:Hbuild; cbn [mbind result_bind];
    [|discriminate].
  intros Hrun. exists fvcs, a.
  destruct (resolve_grants_conserves _ _ _ _ _ _ Hrun) as (evs & Htr & Hclr & Hcw & Hcons).
  exists evs. split; [done|]. split; [by rewrite Htr; simpl; rewrite <- app_assoc|].
  split; [|done].
  apply (justified_are_requests cfg r), (build_requests_justified_aux _ _ _ _ Hbuild).
Qed.

Lemma alloc_step_trace_witness :
  ∃ r', _Alloc cfg_single (greedy_for cfg_single) router_single = Ok r'
    ∧ ∃ fast_path_vcs a evs,
        build_requests cfg_single router_single = Ok (fast_path_vcs, a)
        ∧ trace r' = trace router_single ++ calls a ++ EvCrossbarWriteAllNull :: evs
        ∧ count KAddRequest (calls a) = length (calls a)
        ∧ count KWriteAllNull evs = 0%nat
        ∧ omap credit_write_input evs = seqZ 0 (_inputs cfg_single)
        ∧ conserved (length (seqZ 0 (_inputs cfg_single))
                     * length (seqZ 0 (_input_speedup cfg_single))) evs.
Proof.
  eexists. split; [vm_compute; reflexivity|].
  apply (alloc_step_trace cfg_single (greedy_for cfg_single) router_single).
  vm_compute; reflexivity.
Defined.

(** ** The fast-path flags over a cycle *)

Lemma flag_step_mono (cfg : Config) (fvcs : list Z) (evs more : list event)
    (before after : bool) (k : Z) :
  flag_step cfg fvcs evs before after k →
  flag_step cfg fvcs (evs ++ more) before after k.
Proof.
  intros [H|[H|(H & i & vc & f & Hi & Hk & Hel)]]; [by left|by right; left|].
  right. right. split; [done|]. exists i, vc, f. rewrite elem_of_app. auto.
Qed.

Lemma flag_step_trans (cfg : Config) (fvcs : list Z) (evs more : list event)
    (before mid after : bool) (k : Z) :
  flag_step cfg fvcs evs before mid k →
  flag_step cfg fvcs more mid after k →
  flag_step cfg fvcs (evs ++ more) before after k.
Proof.
  intros H1 [->|[H|(H & i & vc & f & Hi & Hk & Hel)]].
  - by apply flag_step_mono.
  - by right; left.
  - right. right. split; [done|]. exists i, vc, f. rewrite elem_of_app. auto.
Qed.

Lemma demote_fast_vc_flags (cfg : Config) (r r' : Router) (input vc fvc : Z) :
  demote_fast_vc cfg r input vc fvc = Ok r' →
  ∀ k, vget (_use_fast_path r') k = vget (_use_fast_path r) k
       ∨ (vget (_use_fast_path r') k = false ∧ 0 ≤ fvc ∧ k = input * _vcs cfg + fvc).
Proof.
  unfold demote_fast_vc, assert.
  destruct (vc =? fvc); [intros [= <-]; auto|].
  destruct (Z.geb_spec fvc 0) as [Hge|_]; [|intros [= <-]; auto].
  destruct (vget (_use_fast_path r) _); cbn [mbind result_bind]; [|discriminate].
  destruct (bool_decide _); cbn [mbind result_bind]; [|discriminate].
  intros [= <-] k. cbn [_use_fast_path set_use_fast_path]. rewrite vget_vset.
  case_decide as Hd; [|by left]. right. destruct Hd as [<- _]. split; [done|]. lia.
Qed.

Lemma finalize_vc_flags (cfg : Config) (r r' : Router) (input vc output : Z) :
  finalize_vc cfg r input vc output = Ok r' → _use_fast_path r' = _use_fast_path r.
Proof.
  unfold finalize_vc, assert.
  destruct (select_out_vc _ _ _) as [sel_vc sel_prio].
  destruct (sel_vc >? -1); cbn [mbind result_bind]; [|discriminate].
  by intros [= <-].
Qed.

Lemma transfer_flags (cfg : Config) (r r' : Router) (c c' : option Credit)
    (input s vc ei eo output : Z) :
  transfer cfg r c input s vc ei eo output = Ok (r', c') →
  ∃ f tl, trace r' = trace r ++ EvRemoveFlit input vc f :: tl
    ∧ ∀ k, vget (_use_fast_path r') k = vget (_use_fast_path r) k
           ∨ (vget (_use_fast_path r') k = true ∧ k = input * _vcs cfg + vc).
Proof.
  intros Hrun.
  destruct (transfer_ok _ _ _ _ _ _ _ _ _ _ _ Hrun) as (f0 & tl & _ & _ & _ & _ & _ & Htr).
  destruct (transfer_state _ _ _ _ _ _ _ _ _ _ _ Hrun) as (_ & _ & _ & Hflags & _).
  exists f0. eexists. split; [exact Htr|].
  intros k. rewrite Hflags. destruct (_ && _); [|by left].
  rewrite vget_vset. case_decide as Hd; [|by left]. right. by destruct Hd as [<- _].
Qed.

(** The flags over one speedup slot. *)
Lemma resolve_slot_flags (cfg : Config) (requests : gmap (Z * Z) Request)
    (OutputAssigned : Z → Z) (fvcs : list Z) (input s : Z) (r : Router)
    (c : option Credit) (st : Router * option Credit) (evs : list event) :
  0 ≤ input < _inputs cfg →
  resolve_slot cfg requests OutputAssigned (vget fvcs input) input s (r, c)
  = Ok (Continue st) →
  trace st.1 = trace r ++ evs →
  ∀ k, flag_step cfg fvcs evs (vget (_use_fast_path r) k)
                 (vget (_use_fast_path st.1) k) k.
Proof.
  intros Hin Hrun Htr k. unfold resolve_slot in Hrun.
  destruct (pick_grant _ _ _ _ _) as [[eo vc]|w]; cbn [mbind result_bind] in Hrun;
    [|discriminate].
  destruct (eo >=? 0).
  - unfold assert at 1 in Hrun.
    destruct (bool_decide _); cbn [mbind result_bind] in Hrun; [|discriminate].
    destruct (demote_fast_vc cfg r input vc (vget fvcs input)) as [r1|w] eqn:Hd;
      cbn [mbind result_bind] in Hrun; [|discriminate].
    assert (H1 : flag_step cfg fvcs [] (vget (_use_fast_path r) k)
                           (vget (_use_fast_path r1) k) k).
    { destruct (demote_fast_vc_flags _ _ _ _ _ _ Hd k) as [->|(Hoff & Hge & Hk)];
        [by left|].
      right. left. split; [done|]. by exists input. }
    apply demote_fast_vc_frame in Hd as (_ & _ & Htr1 & _).
    destruct (if eVCState_eqb (GetState (vget (_buf r1) input) vc) vc_alloc
              then finalize_vc cfg r1 input vc (Z.quot eo (_output_speedup cfg))
              else Ok r1) as [r2|w] eqn:Hf; cbn [mbind result_bind] in Hrun;
      [|discriminate].
    assert (H2 : _use_fast_path r2 = _use_fast_path r1
                 ∧ ∃ pre, trace r2 = trace r ++ pre).
    { destruct (eVCState_eqb _ vc_alloc).
      - split; [by eapply finalize_vc_flags|].
        apply finalize_vc_frame in Hf as ((sel_vc & Ht) & _).
        eexists. by rewrite Ht, Htr1.
      - injection Hf as <-. split; [done|]. exists []. by rewrite app_nil_r. }
    destruct H2 as (Hfl2 & pre & Htr2).
    destruct (eVCState_eqb (GetState (vget (_buf r2) input) vc) active).
    + destruct (transfer cfg r2 c input s vc _ eo _) as [[r3 c3]|w] eqn:Ht;
        cbn [mbind result_bind] in Hrun; [|discriminate].
      injection Hrun as <-. cbn [fst] in *.
      destruct (transfer_flags _ _ _ _ _ _ _ _ _ _ _ Ht) as (f & tl & Htr3 & Hfl3).
      rewrite Htr3, Htr2, <- app_assoc in Htr. apply app_inv_head in Htr as <-.
      apply (flag_step_trans _ _ [] _ _ (vget (_use_fast_path r1) k)); [done|].
      rewrite <- Hfl2.
      destruct (Hfl3 k) as [->|[Hon Hk]]; [by left|].
      right. right. split; [done|]. exists input, vc, f. split; [done|]. split; [done|].
      rewrite elem_of_app. right. by left.
    + injection Hrun as <-. cbn [fst] in *. rewrite Hfl2.
      eapply (flag_step_mono _ _ [] evs) in H1. exact H1.
  - destruct (Z.geb_spec (vget fvcs input) 0) as [Hge|_]; cbn [andb] in Hrun.
    + destruct (_ =? s).
      * unfold assert in Hrun.
        destruct (vget (_use_fast_path r) _); cbn [mbind result_bind] in Hrun;
          [|discriminate].
        destruct (bool_decide _); cbn [mbind result_bind] in Hrun; [|discriminate].
        injection Hrun as <-. cbn [fst _use_fast_path set_use_fast_path].
        rewrite vget_vset. case_decide as Hd; [|by left].
        right. left. split; [done|]. exists input. destruct Hd as [<- _].
        split; [done|]. split; [lia|done].
      * injection Hrun as <-. by left.
    + injection Hrun as <-. by left.
Qed.

Lemma resolve_grants_flags (cfg : Config) (requests : gmap (Z * Z) Request)
    (OutputAssigned : Z → Z) (fvcs : list Z) (r r' : Router) :
  resolve_grants cfg requests OutputAssigned fvcs r = Ok r' →
  ∃ evs, trace r' = trace r ++ evs
    ∧ ∀ k, flag_step cfg fvcs evs (vget (_use_fast_path r) k)
                     (vget (_use_fast_path r') k) k.
Proof.
  unfold resolve_grants. intros Hrun.
  apply (for_loop_inv
           (fun r1 => ∃ evs, trace r1 = trace r ++ evs
              ∧ ∀ k, flag_step cfg fvcs evs (vget (_use_fast_path r) k)
                               (vget (_use_fast_path r1) k) k)) in Hrun; [done| |].
  { exists [EvCrossbarWriteAllNull]. split; [done|]. intros k. by left. }
  intros input r1 ct Hin%elem_of_seqZ (evs & Htr & Hfl). unfold resolve_input.
  destruct (for_loop (resolve_slot cfg requests OutputAssigned _ input) _ _)
    as [[r2 c2]|w] eqn:Hloop; cbn [mbind result_bind]; [|discriminate].
  intros [= <-]. cbn [ctl_state].
  apply (for_loop_inv
           (fun st : Router * option Credit => ∃ evs, trace st.1 = trace r ++ evs
              ∧ ∀ k, flag_step cfg fvcs evs (vget (_use_fast_path r) k)
                               (vget (_use_fast_path st.1) k) k)) in Hloop.
  - destruct Hloop as (evs2 & Htr2 & Hfl2). cbn [fst] in *.
    exists (evs2 ++ [EvCreditWrite c2 input]). split.
    + cbn. by rewrite Htr2, app_assoc.
    + intros k. cbn. by apply flag_step_mono.
  - by exists evs.
  - intros s [r3 c3] ct3 _ (evs3 & Htr3 & Hfl3) Hslot. cbn [fst] in *.
    destruct (resolve_slot_events _ _ _ _ _ _ _ _ _ Hslot) as (st & evs4 & -> & Htr4 & _).
    cbn [ctl_state]. exists (evs3 ++ evs4). split; [by rewrite Htr4, Htr3, app_assoc|].
    intros k. eapply flag_step_trans; [apply Hfl3|].
    eapply resolve_slot_flags; [|exact Hslot|exact Htr4]. lia.
Qed.

(** X12.  What an allocation step does to the fast-path flags.  A flag that
    was on and is off afterwards belongs to the fast-path VC that request
    building chose for some input; a flag that was off and is on afterwards
    belongs to a VC that had a flit dequeued in this step.  Every other flag
    is as before. *)
Theorem fast_path_flag_changes (cfg : Config) (Allocate : gmap (Z * Z) Request → Z → Z)
    (r r' : Router) (fast_path_vcs : list Z) (a : ReqSt) (k : Z) :
  build_requests cfg r = Ok (fast_path_vcs, a) →
  _Alloc cfg Allocate r = Ok r' →
  (vget (_use_fast_path r) k = true → vget (_use_fast_path r') k = false →
   ∃ input, 0 ≤ input < _inputs cfg ∧ 0 ≤ vget fast_path_vcs input
            ∧ k = input * _vcs cfg + vget fast_path_vcs input)
  ∧ (vget (_use_fast_path r) k = false → vget (_use_fast_path r') k = true →
     ∃ input vc f, 0 ≤ input < _inputs cfg ∧ k = input * _vcs cfg + vc
                   ∧ EvRemoveFlit input vc f ∈ drop (length (trace r)) (trace r')).
Proof.
  intros Hbuild. unfold _Alloc. rewrite Hbuild. cbn [mbind result_bind]. intros Hrun.
  destruct (resolve_grants_flags _ _ _ _ _ _ Hrun) as (evs & Htr & Hfl).
  cbn [_use_fast_path emit] in Hfl. cbn in Htr.
  split; intros Hb Ha; destruct (Hfl k) as [H|[[H Hd]|[H Hd]]]; try congruence.
  destruct Hd as (i & vc & f & Hi & Hk & Hel). exists i, vc, f.
  split; [done|]. split; [done|].
  rewrite Htr, <- app_assoc, drop_app_length, elem_of_app. by right.
Qed.

Lemma fast_path_flag_changes_witness :
  ∃ r' fast_path_vcs a,
    build_requests cfg_held router_held = Ok (fast_path_vcs, a)
    ∧ _Alloc cfg_held (greedy_for cfg_held) router_held = Ok r'
    ∧ vget (_use_fast_path router_held) 2 = false
    ∧ vget (_use_fast_path r') 2 = true
    ∧ ∃ input vc f, 0 ≤ input < _inputs cfg_held ∧ 2 = input * _vcs cfg_held + vc
        ∧ EvRemoveFlit input vc f ∈ drop (length (trace router_held)) (trace r').
Proof.
  do 3 eexists.
  split; [vm_compute; reflexivity|]. split; [vm_compute; reflexivity|].
  split; [reflexivity|]. split; [reflexivity|].
  refine (proj2 (fast_path_flag_changes cfg_held (greedy_for cfg_held) router_held
                   _ _ _ 2 ltac:(vm_compute; reflexivity)
                   ltac:(vm_compute; reflexivity)) eq_refl eq_refl).
Defined.

(** ** The crossbar outputs written in a cycle *)

(** A loop over [0 .. n-1] whose body never breaks: a property of the next
    index and of the state. *)
Lemma for_loop_inv_upto {S} (J : Z → S → Prop) (body : Z → S → result (ctl S))
    (n : Z) (s s' : S) :
  0 ≤ n → J 0 s →
  (∀ i s1 c, 0 ≤ i < n → J i s1 → body i s1 = Ok c →
     ∃ s2, c = Continue s2 ∧ J (i + 1) s2) →
  for_loop body (seqZ 0 n) s = Ok s' → J n s'.
Proof.
  intros Hn Hinit Hbody.
  assert (Hgen : ∀ (k : nat) a s, 0 ≤ a → a + Z.of_nat k = n → J a s →
                   for_loop body (seqZ a (Z.of_nat k)) s = Ok s' → J n s').
  { induction k as [|k IH]; intros a s0 Ha Hak Hs Hrun.
    - simpl in Hrun. injection Hrun as <-. by replace n with a by lia.
    - rewrite seqZ_cons in Hrun by lia. simpl in Hrun.
      destruct (body a s0) as [c|w] eqn:Hb; [|discriminate].
      destruct (Hbody a s0 c ltac:(lia) Hs Hb) as (s2 & -> & Hs2).
      replace (Z.pred (Z.of_nat (Datatypes.S k))) with (Z.of_nat k) in Hrun by lia.
      apply (IH (Z.succ a) s2); [lia|lia|by replace (Z.succ a) with (a + 1) by lia|done]. }
  intros Hrun. apply (Hgen (Z.to_nat n) 0 s); [lia|lia|done|].
  by rewrite Z2Nat.id.
Qed.

Lemma slot_in_range (n S input s : Z) :
  0 ≤ input < n → 0 ≤ s < S → 0 ≤ input * S + s < n * S.
Proof. intros Hi Hs. nia. Qed.

(** One speedup slot of an unbound expanded input writes at most once to
    the crossbar, to the output that the allocator assigned to it. *)
Lemma resolve_slot_crossbar (cfg : Config) (requests : gmap (Z * Z) Request)
    (OutputAssigned : Z → Z) (fvc input s : Z) (r : Router) (c : option Credit)
    (st : Router * option Credit) (evs : list event) :
  vget (_switch_hold_in r) (input * _input_speedup cfg + s) = -1 →
  resolve_slot cfg requests OutputAssigned fvc input s (r, c) = Ok (Continue st) →
  trace st.1 = trace r ++ evs →
  omap crossbar_output evs = []
  ∨ (0 ≤ OutputAssigned (input * _input_speedup cfg + s)
     ∧ omap crossbar_output evs = [OutputAssigned (input * _input_speedup cfg + s)]).
Proof.
  intros Hfree Hrun Htr. unfold resolve_slot, pick_grant in Hrun.
  rewrite Hfree in Hrun. cbn [negb Z.eqb Pos.eqb] in Hrun.
  set (ei := input * _input_speedup cfg + s) in *.
  destruct (Z.geb_spec (OutputAssigned ei) 0) as [Hge|Hlt]; cbn [mbind result_bind] in Hrun.
  - rewrite (proj2 (Z.geb_le _ _) Hge) in Hrun.
    set (vc := ReadRequest requests ei (OutputAssigned ei)) in *.
    unfold assert at 1 in Hrun.
    destruct (bool_decide _); cbn [mbind result_bind] in Hrun; [|discriminate].
    destruct (demote_fast_vc cfg r input vc fvc) as [r1|w] eqn:Hd;
      cbn [mbind result_bind] in Hrun; [|discriminate].
    apply demote_fast_vc_frame in Hd as (_ & _ & Htr1 & _).
    destruct (if eVCState_eqb (GetState (vget (_buf r1) input) vc) vc_alloc
              then finalize_vc cfg r1 input vc
                     (Z.quot (OutputAssigned ei) (_output_speedup cfg))
              else Ok r1) as [r2|w] eqn:Hf; cbn [mbind result_bind] in Hrun;
      [|discriminate].
    assert (Hpre : ∃ pre, trace r2 = trace r ++ pre
                     ∧ (pre = [] ∨ ∃ o v, pre = [EvTakeBuffer o v])).
    { destruct (eVCState_eqb _ vc_alloc).
      - apply finalize_vc_frame in Hf as ((sel_vc & Ht) & _).
        eexists. rewrite Ht, Htr1. split; [reflexivity|]. right. by do 2 eexists.
      - injection Hf as <-. exists []. rewrite app_nil_r. auto. }
    destruct Hpre as (pre & Htr2 & Hpre).
    destruct (eVCState_eqb (GetState (vget (_buf r2) input) vc) active).
    + destruct (transfer cfg r2 c input s vc _ _ _) as [[r3 c3]|w] eqn:Ht;
        cbn [mbind result_bind] in Hrun; [|discriminate].
      injection Hrun as <-. cbn [fst] in Htr.
      apply transfer_ok in Ht as (f0 & tl & _ & _ & _ & _ & Htl & Ht3).
      rewrite Ht3, Htr2, <- app_assoc in Htr. apply app_inv_head in Htr as <-.
      right. split; [done|].
      destruct Hpre as [-> | (o & v & ->)], c, Htl as [-> | [-> _]]; reflexivity.
    + injection Hrun as <-. cbn [fst] in Htr. rewrite Htr2 in Htr.
      apply app_inv_head in Htr as <-. left.
      by destruct Hpre as [-> | (o & v & ->)].
  - assert (Hnot : (OutputAssigned ei >=? 0) = false)
      by (rewrite Z.geb_leb; apply Z.leb_gt; lia).
    rewrite Hnot in Hrun.
    left. destruct (_ && _).
    + unfold assert in Hrun.
      destruct (vget (_use_fast_path r) _); cbn [mbind result_bind] in Hrun;
        [|discriminate].
      destruct (bool_decide _); cbn [mbind result_bind] in Hrun; [|discriminate].
      injection Hrun as <-. cbn in Htr.
      rewrite <- (app_nil_r (trace r)) in Htr at 1. by apply app_inv_head in Htr as <-.
    + injection Hrun as <-. cbn in Htr.
      rewrite <- (app_nil_r (trace r)) in Htr at 1. by apply app_inv_head in Htr as <-.
Qed.

(** A router that does not hold switches keeps its expanded inputs
    unbound over a speedup slot. *)
Lemma resolve_slot_unbound (cfg : Config) (requests : gmap (Z * Z) Request)
    (OutputAssigned : Z → Z) (fvc input s : Z) (r : Router) (c : option Credit)
    (ct : ctl (Router * option Credit)) :
  _hold_switch_for_packet cfg = false →
  inputs_unbound cfg r →
  resolve_slot cfg requests OutputAssigned fvc input s (r, c) = Ok ct →
  inputs_unbound cfg (ctl_state ct).1.
Proof.
  intros Hoff Hfree Hslot.
  destruct (resolve_slot_cases _ _ _ _ _ _ _ _ _ Hslot)
    as (eo & vc & _ & [(r4 & (Hsame & _) & _ & _ & Ht)|[(Hsame & _) _]]).
  - destruct (ctl_state ct) as [r5 c5]. cbn [fst].
    destruct (transfer_holds _ _ _ _ _ _ _ _ _ _ _ Ht) as (f0 & _ & Hholds).
    unfold hold_switch in Hholds. rewrite Hoff in Hholds.
    intros ei Hei. destruct (f_tail f0); destruct Hholds as (-> & _).
    + rewrite vget_vset. case_decide; [done|]. rewrite Hsame. by apply Hfree.
    + rewrite Hsame. by apply Hfree.
  - intros ei Hei. rewrite Hsame. by apply Hfree.
Qed.

Lemma resolve_grants_crossbar (cfg : Config) (requests : gmap (Z * Z) Request)
    (OutputAssigned : Z → Z) (fvcs : list Z) (r r' : Router) :
  0 < _input_speedup cfg →
  _hold_switch_for_packet cfg = false →
  inputs_unbound cfg r →
  (∀ ei ei', 0 ≤ ei < _inputs cfg * _input_speedup cfg →
             0 ≤ ei' < _inputs cfg * _input_speedup cfg →
             0 ≤ OutputAssigned ei → OutputAssigned ei = OutputAssigned ei' → ei = ei') →
  resolve_grants cfg requests OutputAssigned fvcs r = Ok r' →
  ∃ evs, trace r' = trace r ++ evs
    ∧ NoDup (omap crossbar_output evs)
    ∧ ∀ eo, eo ∈ omap crossbar_output evs →
        ∃ ei, 0 ≤ ei < _inputs cfg * _input_speedup cfg
              ∧ 0 ≤ eo ∧ OutputAssigned ei = eo.
Proof.
  intros HS Hoff Hfree Hinj Hrun. unfold resolve_grants in Hrun.
  set (S := _input_speedup cfg) in *. set (N := _inputs cfg * S) in *.
  set (J := fun (bound : Z) (r1 : Router) =>
              ∃ evs, trace r1 = trace r ++ evs
                ∧ inputs_unbound cfg r1
                ∧ NoDup (omap crossbar_output evs)
                ∧ ∀ eo, eo ∈ omap crossbar_output evs →
                    ∃ ei, 0 ≤ ei < N ∧ ei < bound ∧ 0 ≤ eo ∧ OutputAssigned ei = eo).
  destruct (Z.le_gt_cases 0 (_inputs cfg)) as [Hn|Hn]; cycle 1.
  { rewrite seqZ_nil in Hrun by lia. simpl in Hrun. injection Hrun as <-.
    exists [EvCrossbarWriteAllNull]. split; [done|]. split; [constructor|].
    intros eo Hel. by apply elem_of_nil in Hel. }
  apply (for_loop_inv_upto (fun input r1 => J (input * S) r1)) in Hrun; [|done| |].
  - destruct Hrun as (evs & Htr & _ & Hnd & Hout). exists evs.
    split; [done|]. split; [done|]. intros eo Hel.
    destruct (Hout eo Hel) as (ei & Hei & _ & Hge & Heq). by exists ei.
  - exists [EvCrossbarWriteAllNull]. split; [done|]. split; [done|].
    split; [constructor|]. intros eo Hel. by apply elem_of_nil in Hel.
  - intros input r1 ct Hin HJ. unfold resolve_input.
    destruct (for_loop (resolve_slot cfg requests OutputAssigned _ input) _ _)
      as [[r2 c2]|w] eqn:Hloop; cbn [mbind result_bind]; [|discriminate].
    intros [= <-]. eexists. split; [reflexivity|].
    apply (for_loop_inv_upto
             (fun s (st : Router * option Credit) => J (input * S + s) st.1))
      in Hloop; [|lia| |].
    + destruct Hloop as (evs & Htr & Hfree2 & Hnd & Hout). cbn [fst] in *.
      exists (evs ++ [EvCreditWrite c2 input]).
      split; [cbn; by rewrite Htr, app_assoc|]. split; [done|].
      rewrite omap_app. cbn. rewrite app_nil_r. split; [done|].
      intros eo Hel. destruct (Hout eo Hel) as (ei & Hei & Hlt & Hge & Heq).
      exists ei. repeat split; try done; lia.
    + cbn [fst]. by rewrite Z.add_0_r.
    + intros s [r3 c3] ct3 Hs (evs & Htr & Hfree3 & Hnd & Hout) Hslot. cbn [fst] in *.
      pose proof (resolve_slot_unbound _ _ _ _ _ _ _ _ _ Hoff Hfree3 Hslot) as Hfree4.
      destruct (resolve_slot_events _ _ _ _ _ _ _ _ _ Hslot) as (st & evs4 & -> & Htr4 & _).
      cbn [ctl_state] in Hfree4. exists st. split; [done|].
      pose proof (slot_in_range (_inputs cfg) S input s Hin Hs) as Hei. fold N in Hei.
      pose proof (resolve_slot_crossbar _ _ _ _ _ _ _ _ _ _ (Hfree3 _ Hei) Hslot Htr4)
        as Hx.
      fold S in Hx.
      exists (evs ++ evs4). split; [by rewrite Htr4, Htr, app_assoc|]. split; [done|].
      rewrite omap_app. destruct Hx as [-> | [Hge ->]].
      * rewrite app_nil_r. split; [done|]. intros eo Hel.
        destruct (Hout eo Hel) as (ei & Hei' & Hlt & Hge & Heq).
        exists ei. repeat split; try done; lia.
      * split.
        -- apply NoDup_app. split; [done|]. split; [|apply NoDup_singleton].
           intros eo Hel ->%list_elem_of_singleton.
           destruct (Hout _ Hel) as (ei & Hei' & Hlt & _ & Heq).
           assert (input * S + s = ei) by (apply Hinj; done). lia.
        -- intros eo [Hel| ->%list_elem_of_singleton]%elem_of_app.
           ++ destruct (Hout eo Hel) as (ei & Hei' & Hlt & Hge' & Heq).
              exists ei. repeat split; try done; lia.
           ++ exists (input * S + s). repeat split; try done; lia.
Qed.

Lemma justified_no_crossbar (cfg : Config) (r : Router) (l : list event) :
  Forall (request_justified cfg r) l → omap crossbar_output l = [].
Proof.
  induction 1 as [|e l (p & i & v & o & pri & He) _ IH]; [done|].
  cbn zeta in He. by destruct He as [-> _].
Qed.

(** X13.  No crossbar output conflict.  On a router that does not hold
    switches, has positive input speedup and no bound expanded input, when
    the allocator assigns no expanded output to two expanded inputs, the
    crossbar writes of a completed allocation step go to pairwise distinct
    expanded outputs, each the one assigned to some expanded input. *)
Theorem crossbar_outputs_distinct (cfg : Config)
    (Allocate : gmap (Z * Z) Request → Z → Z) (r r' : Router)
    (fast_path_vcs : list Z) (a : ReqSt) :
  0 < _input_speedup cfg →
  _hold_switch_for_packet cfg = false →
  inputs_unbound cfg r →
  build_requests cfg r = Ok (fast_path_vcs, a) →
  (∀ ei ei', 0 ≤ ei < _inputs cfg * _input_speedup cfg →
             0 ≤ ei' < _inputs cfg * _input_speedup cfg →
             0 ≤ Allocate (reqs a) ei →
             Allocate (reqs a) ei = Allocate (reqs a) ei' → ei = ei') →
  _Alloc cfg Allocate r = Ok r' →
  let outs := omap crossbar_output (drop (length (trace r)) (trace r')) in
  NoDup outs
  ∧ ∀ eo, eo ∈ outs →
      ∃ ei, 0 ≤ ei < _inputs cfg * _input_speedup cfg
            ∧ 0 ≤ eo ∧ Allocate (reqs a) ei = eo.
Proof.
  intros HS Hoff Hfree Hbuild Hinj. unfold _Alloc. rewrite Hbuild.
  cbn [mbind result_bind]. intros Hrun.
  apply resolve_grants_crossbar in Hrun as (evs & Htr & Hnd & Hout); [|done..].
  cbn in Htr. cbv zeta. rewrite Htr, <- app_assoc, drop_app_length, omap_app.
  by rewrite (justified_no_crossbar cfg r _ (build_requests_justified_aux _ _ _ _ Hbuild)).
Qed.

Lemma crossbar_outputs_distinct_witness :
  ∃ r' fast_path_vcs a,
    build_requests cfg_pair router_pair = Ok (fast_path_vcs, a)
    ∧ _Alloc cfg_pair (greedy_for cfg_pair) router_pair = Ok r'
    ∧ omap crossbar_output (drop (length (trace router_pair)) (trace r')) = [0; 1]
    ∧ NoDup (omap crossbar_output (drop (length (trace router_pair)) (trace r')))
    ∧ ∀ eo, eo ∈ omap crossbar_output (drop (length (trace router_pair)) (trace r')) →
        ∃ ei, 0 ≤ ei < _inputs cfg_pair * _input_speedup cfg_pair
              ∧ 0 ≤ eo ∧ greedy_for cfg_pair (reqs a) ei = eo.
Proof.
  do 3 eexists.
  split; [vm_compute; reflexivity|]. split; [vm_compute; reflexivity|].
  split; [vm_compute; reflexivity|].
  refine (crossbar_outputs_distinct cfg_pair (greedy_for cfg_pair) router_pair
            _ _ _ ltac:(simpl; lia) eq_refl _ ltac:(vm_compute; reflexivity) _
            ltac:(vm_compute; reflexivity)).
  - intros ei Hei. simpl in Hei.
    assert (ei = 0 ∨ ei = 1) as [-> | ->] by lia; reflexivity.
  - intros ei ei' Hei Hei' Hge Heq. simpl in Hei, Hei'.
    assert (ei = 0 ∨ ei = 1) as [-> | ->] by lia;
      assert (ei' = 0 ∨ ei' = 1) as [-> | ->] by lia;
      try reflexivity; vm_compute in Heq; discriminate.
Defined.

(** ** The input buffers over a cycle *)

Lemma state_advances_refl (s : eVCState) : state_advances s s.
Proof. by destruct s. Qed.

Lemma vc_advances_refl (v : VC) : vc_advances v v.
Proof.
  split; [apply state_advances_refl|]. split; [by exists 0%nat|done].
Qed.

Lemma vc_advances_trans (v1 v2 v3 : VC) :
  vc_advances v1 v2 → vc_advances v2 v3 → vc_advances v1 v3.
Proof.
  intros (Hs1 & [k1 Hf1] & Hr1 & Hp1) (Hs2 & [k2 Hf2] & Hr2 & Hp2).
  split; [|split; [|split; congruence]].
  - destruct (vc_state v1), (vc_state v2), (vc_state v3); done.
  - exists (k1 + k2)%nat. by rewrite Hf2, Hf1, drop_drop.
Qed.

Lemma bufs_advance_refl (bufs : list Buffer) : bufs_advance bufs bufs.
Proof. intros i v. apply vc_advances_refl. Qed.

Lemma bufs_advance_trans (b1 b2 b3 : list Buffer) :
  bufs_advance b1 b2 → bufs_advance b2 b3 → bufs_advance b1 b3.
Proof. intros H1 H2 i v. eapply vc_advances_trans; [apply H1|apply H2]. Qed.

(** Replacing the buffer of one input by one that has advanced. *)
Lemma bufs_advance_vset (bufs : list Buffer) (input : Z) (b' : Buffer) :
  (∀ v, vc_advances (vc_at bufs input v) (vget b' v)) →
  bufs_advance bufs (vset bufs input b').
Proof.
  intros Hb i v. unfold vc_at at 2. rewrite vget_vset.
  case_decide as Hd; [|apply vc_advances_refl]. destruct Hd as [<- _]. apply Hb.
Qed.

(** Replacing one VC of a buffer by one that has advanced. *)
Lemma buffer_advance_vset (b : Buffer) (vc : Z) (c' : VC) :
  vc_advances (vget b vc) c' → ∀ v, vc_advances (vget b v) (vget (vset b vc c') v).
Proof.
  intros Hc v. rewrite vget_vset.
  case_decide as Hd; [|apply vc_advances_refl]. by destruct Hd as [<- _].
Qed.

Lemma SetState_advances (b : Buffer) (vc : Z) (s : eVCState) :
  state_advances (GetState b vc) s → ∀ v, vc_advances (vget b v) (vget (SetState b vc s) v).
Proof.
  intros Hs. apply buffer_advance_vset.
  split; [exact Hs|]. split; [by exists 0%nat|done].
Qed.

Lemma SetOutput_advances (b : Buffer) (vc o ov : Z) :
  ∀ v, vc_advances (vget b v) (vget (SetOutput b vc o ov) v).
Proof.
  apply buffer_advance_vset.
  split; [apply state_advances_refl|]. split; [by exists 0%nat|done].
Qed.

Lemma RemoveFlit_advances (b : Buffer) (vc : Z) :
  ∀ v, vc_advances (vget b v) (vget (RemoveFlit b vc) v).
Proof.
  apply buffer_advance_vset.
  split; [apply state_advances_refl|]. split; [|done].
  exists 1%nat. cbn [vc_flits]. by destruct (vc_flits (vget b vc)).
Qed.

Lemma RemoveFlit_state (b : Buffer) (vc v : Z) :
  GetState (RemoveFlit b vc) v = GetState b v.
Proof.
  unfold GetState, RemoveFlit. rewrite vget_vset.
  case_decide as Hd; [|done]. by destruct Hd as [<- _].
Qed.

Lemma on_buf_advance (r : Router) (input : Z) (op : Buffer → Buffer) :
  (∀ v, vc_advances (vget (vget (_buf r) input) v) (vget (op (vget (_buf r) input)) v)) →
  bufs_advance (_buf r) (_buf (on_buf r input op)).
Proof. intros Hop. unfold on_buf. cbn [_buf set_buf]. by apply bufs_advance_vset. Qed.

Lemma finalize_vc_advance (cfg : Config) (r r' : Router) (input vc output : Z) :
  GetState (vget (_buf r) input) vc = vc_alloc →
  finalize_vc cfg r input vc output = Ok r' →
  bufs_advance (_buf r) (_buf r').
Proof.
  intros Hst. unfold finalize_vc, assert.
  destruct (select_out_vc _ _ _) as [sel_vc sel_prio].
  destruct (sel_vc >? -1); cbn [mbind result_bind]; [|discriminate].
  intros [= <-]. cbn [_buf set_vc_rr_offset emit set_next_buf].
  eapply bufs_advance_trans; [|apply on_buf_advance, SetOutput_advances].
  apply on_buf_advance, SetState_advances. by rewrite Hst.
Qed.

Lemma transfer_advance (cfg : Config) (r r' : Router) (c c' : option Credit)
    (input s vc ei eo output : Z) :
  GetState (vget (_buf r) input) vc = active →
  transfer cfg r c input s vc ei eo output = Ok (r', c') →
  bufs_advance (_buf r) (_buf r').
Proof.
  intros Hst Hrun.
  destruct (transfer_state _ _ _ _ _ _ _ _ _ _ _ Hrun) as (f0 & _ & -> & _).
  set (b1 := vset (_buf r) input (RemoveFlit (vget (_buf r) input) vc)).
  assert (H1 : bufs_advance (_buf r) b1)
    by apply bufs_advance_vset, RemoveFlit_advances.
  destruct (f_tail f0); [|done].
  eapply bufs_advance_trans; [exact H1|].
  apply bufs_advance_vset, SetState_advances.
  replace (GetState (vget b1 input) vc) with active; [done|].
  unfold b1. rewrite vget_vset. case_decide; [by rewrite RemoveFlit_state|done].
Qed.

Lemma resolve_slot_advance (cfg : Config) (requests : gmap (Z * Z) Request)
    (OutputAssigned : Z → Z) (fvc input s : Z) (r : Router) (c : option Credit)
    (ct : ctl (Router * option Credit)) :
  resolve_slot cfg requests OutputAssigned fvc input s (r, c) = Ok ct →
  bufs_advance (_buf r) (_buf (ctl_state ct).1).
Proof.
  intros Hrun. unfold resolve_slot in Hrun.
  destruct (pick_grant _ _ _ _ _) as [[eo vc]|w]; cbn [mbind result_bind] in Hrun;
    [|discriminate].
  destruct (eo >=? 0).
  - unfold assert at 1 in Hrun.
    destruct (bool_decide _); cbn [mbind result_bind] in Hrun; [|discriminate].
    destruct (demote_fast_vc cfg r input vc fvc) as [r1|w] eqn:Hd;
      cbn [mbind result_bind] in Hrun; [|discriminate].
    apply demote_fast_vc_frame in Hd as (Hb1 & _). rewrite <- Hb1.
    destruct (if eVCState_eqb (GetState (vget (_buf r1) input) vc) vc_alloc
              then finalize_vc cfg r1 input vc (Z.quot eo (_output_speedup cfg))
              else Ok r1) as [r2|w] eqn:Hf; cbn [mbind result_bind] in Hrun;
      [|discriminate].
    assert (H2 : bufs_advance (_buf r1) (_buf r2)).
    { destruct (GetState (vget (_buf r1) input) vc) eqn:Hst; cbn in Hf;
        try (injection Hf as <-; apply bufs_advance_refl).
      by eapply finalize_vc_advance. }
    destruct (GetState (vget (_buf r2) input) vc) eqn:Hst2; cbn in Hrun;
      try (injection Hrun as <-; exact H2).
    destruct (transfer cfg r2 c input s vc _ eo _) as [[r3 c3]|w] eqn:Ht;
      cbn [mbind result_bind] in Hrun; [|discriminate].
    injection Hrun as <-. cbn [ctl_state fst].
    eapply bufs_advance_trans; [exact H2|]. by eapply transfer_advance.
  - destruct (_ && _).
    + unfold assert in Hrun.
      destruct (vget (_use_fast_path r) _); cbn [mbind result_bind] in Hrun;
        [|discriminate].
      destruct (bool_decide _); cbn [mbind result_bind] in Hrun; [|discriminate].
      injection Hrun as <-. apply bufs_advance_refl.
    + injection Hrun as <-. apply bufs_advance_refl.
Qed.

(** X14.  What an allocation step does to the input buffers.  For every VC
    of every input: its state is as before or has advanced (from [vc_alloc]
    to active or idle, from active to idle; an idle VC stays idle), its
    queue is the old queue less some flits at the front, and its route set
    and priority are as before. *)
Theorem buffers_only_advance (cfg : Config) (Allocate : gmap (Z * Z) Request → Z → Z)
    (r r' : Router) :
  _Alloc cfg Allocate r = Ok r' →
  ∀ input vc, vc_advances (vc_at (_buf r) input vc) (vc_at (_buf r') input vc).
Proof.
  unfold _Alloc.
  destruct (build_requests cfg r) as [[fvcs a]|w]; cbn [mbind result_bind];
    [|discriminate].
  unfold resolve_grants. intros Hrun.
  apply (for_loop_inv (fun r1 => bufs_advance (_buf r) (_buf r1))) in Hrun;
    [done|apply bufs_advance_refl|].
  intros input r1 ct _ Hr1. unfold resolve_input.
  destruct (for_loop (resolve_slot cfg _ _ _ input) _ _)
    as [[r2 c2]|w] eqn:Hloop; cbn [mbind result_bind]; [|discriminate].
  intros [= <-]. cbn [ctl_state _buf emit].
  apply (for_loop_inv (fun st : Router * option Credit =>
                         bufs_advance (_buf r) (_buf st.1))) in Hloop; [done|done|].
  intros s [r3 c3] ct3 _ Hr3 Hslot. cbn [fst] in Hr3.
  eapply bufs_advance_trans; [exact Hr3|]. by eapply resolve_slot_advance.
Qed.

Lemma buffers_only_advance_witness :
  ∃ r', _Alloc cfg_pair (greedy_for cfg_pair) router_pair = Ok r'
    ∧ vc_flits (vc_at (_buf router_pair) 1 0) = [flit_b]
    ∧ vc_flits (vc_at (_buf r') 1 0) = []
    ∧ ∀ input vc, vc_advances (vc_at (_buf router_pair) input vc)
                              (vc_at (_buf r') input vc).
Proof.
  eexists. split; [vm_compute; reflexivity|].
  split; [reflexivity|]. split; [reflexivity|].
  apply (buffers_only_advance cfg_pair (greedy_for cfg_pair) router_pair).
  vm_compute; reflexivity.
Defined.

(** ** The downstream trackers over a cycle *)

Lemma tracker_advances_refl (d : BufferState) : tracker_advances d d.
Proof. split; [done|]. intros ov. repeat split; [done|lia|done]. Qed.

Lemma tracker_advances_trans (d1 d2 d3 : BufferState) :
  tracker_advances d1 d2 → tracker_advances d2 d3 → tracker_advances d1 d3.
Proof.
  intros [Hs1 H1] [Hs2 H2]. split; [congruence|]. intros ov.
  destruct (H1 ov) as (Hu1 & Ho1 & Hb1), (H2 ov) as (Hu2 & Ho2 & Hb2).
  rewrite Hs1 in Hb2. repeat split; [auto|lia|auto].
Qed.

Lemma trackers_advance_refl (t : list BufferState) : trackers_advance t t.
Proof. intros o. apply tracker_advances_refl. Qed.

Lemma trackers_advance_trans (t1 t2 t3 : list BufferState) :
  trackers_advance t1 t2 → trackers_advance t2 t3 → trackers_advance t1 t3.
Proof. intros H1 H2 o. eapply tracker_advances_trans; [apply H1|apply H2]. Qed.

Lemma trackers_advance_vset (t : list BufferState) (output : Z) (d' : BufferState) :
  tracker_advances (vget t output) d' → trackers_advance t (vset t output d').
Proof.
  intros Hd o. rewrite vget_vset.
  case_decide as Hc; [|apply tracker_advances_refl]. by destruct Hc as [<- _].
Qed.

Lemma TakeBuffer_advances (d : BufferState) (vc : Z) :
  tracker_advances d (TakeBuffer d vc).
Proof.
  split; [done|]. intros ov. cbn [TakeBuffer bs_in_use bs_occupancy bs_vc_size].
  repeat split; [|lia|done].
  rewrite vget_vset. by case_decide.
Qed.

(** The tracker is only told of a flit for a VC that it does not report
    full. *)
Lemma SendingFlit_advances (d : BufferState) (f : Flit) :
  IsFullFor d (f_vc f) = false → tracker_advances d (SendingFlit d f).
Proof.
  unfold IsFullFor. intros Hfull%Z.leb_gt.
  split; [done|]. intros ov. cbn [SendingFlit bs_in_use bs_occupancy bs_vc_size].
  rewrite vget_vset. case_decide as Hc.
  - destruct Hc as [<- _]. repeat split; [done|lia|lia].
  - repeat split; [done|lia|done].
Qed.

Lemma finalize_vc_trackers (cfg : Config) (r r' : Router) (input vc output : Z) :
  finalize_vc cfg r input vc output = Ok r' →
  trackers_advance (_next_buf r) (_next_buf r').
Proof.
  unfold finalize_vc, assert.
  destruct (select_out_vc _ _ _) as [sel_vc sel_prio].
  destruct (sel_vc >? -1); cbn [mbind result_bind]; [|discriminate].
  intros [= <-]. cbn. apply trackers_advance_vset, TakeBuffer_advances.
Qed.

Lemma forward_flit_next_buf (r r' : Router) (c : option Credit) (c' : Credit)
    (input vc eo output : Z) (f0 f : Flit) :
  forward_flit r c input vc eo output f0 = Ok (r', c', f) →
  _next_buf r' = vset (_next_buf r) output (SendingFlit (vget (_next_buf r) output) f).
Proof.
  unfold forward_flit, assert. cbn [f_vc].
  destruct (vc =? f_vc f0); [|discriminate].
  cbn [mbind result_bind]. intros [= <- <- <-]. by destruct c.
Qed.

Lemma transfer_trackers (cfg : Config) (r r' : Router) (c c' : option Credit)
    (input s vc ei eo output : Z) :
  transfer cfg r c input s vc ei eo output = Ok (r', c') →
  trackers_advance (_next_buf r) (_next_buf r').
Proof.
  intros Hrun. unfold transfer in Hrun.
  destruct (hold_switch_frame cfg r vc ei eo) as (Hbuf & Hnb & _).
  set (r0 := hold_switch cfg r vc ei eo) in *.
  unfold assert in Hrun.
  destruct (negb (Empty _ _)); cbn [mbind result_bind] in Hrun; [|discriminate].
  destruct (_ =? output); cbn [mbind result_bind] in Hrun; [|discriminate].
  destruct (IsFullFor _ _) eqn:Hfull; cbn [negb mbind result_bind] in Hrun;
    [discriminate|].
  destruct (FrontFlit _ vc) as [f0|]; [|discriminate].
  destruct (forward_flit r0 c input vc eo output f0)
    as [[[r1 c1] f1]|w] eqn:Hfw; cbn [mbind result_bind] in Hrun; [|discriminate].
  injection Hrun as <- <-.
  pose proof (forward_flit_next_buf _ _ _ _ _ _ _ _ _ _ Hfw) as Hn1.
  apply forward_flit_ok in Hfw as (_ & Hf & _).
  assert (Hn : _next_buf (reenable_fast_path cfg
                            (advance_sw_rr cfg (release_tail r1 input vc ei eo f1)
                                           input s vc ei) input vc)
               = _next_buf r1).
  { unfold reenable_fast_path, advance_sw_rr, release_tail.
    repeat match goal with |- context [if ?b then _ else _] => destruct b end;
      reflexivity. }
  rewrite Hn, Hn1, Hnb. apply trackers_advance_vset, SendingFlit_advances.
  rewrite <- Hnb. subst f1. exact Hfull.
Qed.

Lemma resolve_slot_trackers (cfg : Config) (requests : gmap (Z * Z) Request)
    (OutputAssigned : Z → Z) (fvc input s : Z) (r : Router) (c : option Credit)
    (ct : ctl (Router * option Credit)) :
  resolve_slot cfg requests OutputAssigned fvc input s (r, c) = Ok ct →
  trackers_advance (_next_buf r) (_next_buf (ctl_state ct).1).
Proof.
  intros Hrun. unfold resolve_slot in Hrun.
  destruct (pick_grant _ _ _ _ _) as [[eo vc]|w]; cbn [mbind result_bind] in Hrun;
    [|discriminate].
  destruct (eo >=? 0).
  - unfold assert at 1 in Hrun.
    destruct (bool_decide _); cbn [mbind result_bind] in Hrun; [|discriminate].
    destruct (demote_fast_vc cfg r input vc fvc) as [r1|w] eqn:Hd;
      cbn [mbind result_bind] in Hrun; [|discriminate].
    apply demote_fast_vc_frame in Hd as (_ & Hn1 & _). rewrite <- Hn1.
    destruct (if eVCState_eqb (GetState (vget (_buf r1) input) vc) vc_alloc
              then finalize_vc cfg r1 input vc (Z.quot eo (_output_speedup cfg))
              else Ok r1) as [r2|w] eqn:Hf; cbn [mbind result_bind] in Hrun;
      [|discriminate].
    assert (H2 : trackers_advance (_next_buf r1) (_next_buf r2)).
    { destruct (eVCState_eqb _ vc_alloc); [by eapply finalize_vc_trackers|].
      injection Hf as <-. apply trackers_advance_refl. }
    destruct (eVCState_eqb (GetState (vget (_buf r2) input) vc) active).
    + destruct (transfer cfg r2 c input s vc _ eo _) as [[r3 c3]|w] eqn:Ht;
        cbn [mbind result_bind] in Hrun; [|discriminate].
      injection Hrun as <-. cbn [ctl_state fst].
      eapply trackers_advance_trans; [exact H2|]. by eapply transfer_trackers.
    + by injection Hrun as <-.
  - destruct (_ && _).
    + unfold assert in Hrun.
      destruct (vget (_use_fast_path r) _); cbn [mbind result_bind] in Hrun;
        [|discriminate].
      destruct (bool_decide _); cbn [mbind result_bind] in Hrun; [|discriminate].
      injection Hrun as <-. apply trackers_advance_refl.
    + injection Hrun as <-. apply trackers_advance_refl.
Qed.

(** X15.  What an allocation step does to the downstream trackers.  For
    every output and output VC: the buffer size is as before, a reservation
    that was made is still made, the occupancy has not gone down, and an
    occupancy that was within the buffer size still is: the step never sends
    a flit to a downstream VC that its tracker reports full. *)
Theorem trackers_never_overflow (cfg : Config)
    (Allocate : gmap (Z * Z) Request → Z → Z) (r r' : Router) :
  _Alloc cfg Allocate r = Ok r' →
  ∀ output, tracker_advances (vget (_next_buf r) output) (vget (_next_buf r') output).
Proof.
  unfold _Alloc.
  destruct (build_requests cfg r) as [[fvcs a]|w]; cbn [mbind result_bind];
    [|discriminate].
  unfold resolve_grants. intros Hrun.
  apply (for_loop_inv (fun r1 => trackers_advance (_next_buf r) (_next_buf r1))) in Hrun;
    [done|apply trackers_advance_refl|].
  intros input r1 ct _ Hr1. unfold resolve_input.
  destruct (for_loop (resolve_slot cfg _ _ _ input) _ _)
    as [[r2 c2]|w] eqn:Hloop; cbn [mbind result_bind]; [|discriminate].
  intros [= <-]. cbn [ctl_state _next_buf emit].
  apply (for_loop_inv (fun st : Router * option Credit =>
                         trackers_advance (_next_buf r) (_next_buf st.1))) in Hloop;
    [done|done|].
  intros s [r3 c3] ct3 _ Hr3 Hslot. cbn [fst] in Hr3.
  eapply trackers_advance_trans; [exact Hr3|]. by eapply resolve_slot_trackers.
Qed.

Lemma trackers_never_overflow_witness :
  ∃ r', _Alloc cfg_pair (greedy_for cfg_pair) router_pair = Ok r'
    ∧ vget (bs_occupancy (vget (_next_buf router_pair) 1)) 0 = 0
    ∧ vget (bs_occupancy (vget (_next_buf r') 1)) 0 = 1
    ∧ ∀ output, tracker_advances (vget (_next_buf router_pair) output)
                                 (vget (_next_buf r') output).
Proof.
  eexists. split; [vm_compute; reflexivity|].
  split; [reflexivity|]. split; [reflexivity|].
  apply (trackers_never_overflow cfg_pair (greedy_for cfg_pair) router_pair).
  vm_compute; reflexivity.
Defined.

(** ** The assertions on the fast-path VC that loses its slot *)

(** A loop over [0 .. n-1] that aborts: the body aborted at some index, on
    a state that the earlier indices left. *)
Lemma for_loop_abort_upto {S} (J : Z → S → Prop) (P : assertion → Prop)
    (body : Z → S → result (ctl S)) (n : Z) (s : S) (w : assertion) :
  J 0 s →
  (∀ i s1 c, 0 ≤ i < n → J i s1 → body i s1 = Ok c → J (i + 1) (ctl_state c)) →
  (∀ i s1 w1, 0 ≤ i < n → J i s1 → body i s1 = Abort w1 → P w1) →
  for_loop body (seqZ 0 n) s = Abort w → P w.
Proof.
  intros Hinit Hok Hab.
  assert (Hgen : ∀ (k : nat) a s, 0 ≤ a → a + Z.of_nat k ≤ n → J a s →
                   for_loop body (seqZ a (Z.of_nat k)) s = Abort w → P w).
  { induction k as [|k IH]; intros a s0 Ha Hak Hs Hrun; [discriminate|].
    rewrite seqZ_cons in Hrun by lia. simpl in Hrun.
    replace (Z.pred (Z.of_nat (Datatypes.S k))) with (Z.of_nat k) in Hrun by lia.
    destruct (body a s0) as [[s2|s2]|w1] eqn:Hb.
    - apply (IH (Z.succ a) s2); [lia|lia| |done].
      replace (Z.succ a) with (a + 1) by lia.
      apply (Hok a s0 (Continue s2)); [lia|done|done].
    - discriminate.
    - injection Hrun as <-. apply (Hab a s0); [lia|done|done]. }
  intros Hrun. destruct (Z.le_gt_cases 0 n) as [Hn|Hn].
  - apply (Hgen (Z.to_nat n) 0 s); [lia|lia|done|]. by rewrite Z2Nat.id.
  - rewrite seqZ_nil in Hrun by lia. discriminate.
Qed.

Lemma FrontFlit_in_range (b : Buffer) (vc : Z) :
  is_Some (FrontFlit b vc) → 0 ≤ vc < Z.of_nat (length b).
Proof.
  intros Hsome. split; [by eapply FrontFlit_nonneg|].
  destruct (Z.lt_ge_cases vc (Z.of_nat (length b))) as [|Hge]; [done|].
  exfalso. pose proof (FrontFlit_nonneg _ _ Hsome) as Hpos.
  unfold FrontFlit, vget in Hsome. destruct (Z.ltb_spec vc 0); [lia|].
  rewrite list_lookup_total_alt, lookup_ge_None_2 in Hsome by lia.
  by destruct Hsome as [f [=]].
Qed.

(** The fast-path VC that request building notes for an input is [-1] or a
    VC of the input that is flagged for the fast path, holds a flit and is
    ready. *)
Lemma build_requests_fast_vcs (cfg : Config) (r : Router) (fvcs : list Z) (a : ReqSt) :
  build_requests cfg r = Ok (fvcs, a) →
  ∀ input, 0 ≤ input < _inputs cfg →
    vget fvcs input = -1
    ∨ (0 ≤ vget fvcs input < _vcs cfg
       ∧ fast_eligible cfg r input (vget fvcs input) = true).
Proof.
  unfold build_requests. intros Hrun input Hin.
  apply (for_loop_inv_upto
           (fun i (st : list Z * ReqSt) =>
              length st.1 = Z.to_nat (_inputs cfg)
              ∧ ∀ input, 0 ≤ input < i →
                  vget st.1 input = -1
                  ∨ (0 ≤ vget st.1 input < _vcs cfg
                     ∧ fast_eligible cfg r input (vget st.1 input) = true)))
    in Hrun; [by apply Hrun|lia| |].
  { cbn [fst]. split; [apply length_replicate|]. intros; lia. }
  clear input Hin. intros i [fv a1] ct Hi [Hlen Hdone]. cbn [fst] in Hlen, Hdone.
  unfold input_body.
  destruct (slow_path cfg r i a1) as [a2|w]; cbn [mbind result_bind]; [|discriminate].
  destruct (fast_path cfg r i a2) as [[fvc a3]|w] eqn:Hfast; cbn [mbind result_bind];
    [|discriminate].
  intros [= <-]. eexists. split; [reflexivity|]. cbn [fst].
  split; [by rewrite length_vset|]. intros input Hin.
  destruct (decide (input = i)) as [->|Hne].
  - rewrite vget_vset_eq by lia.
    assert (Hpos : Forall (fun vc => 0 ≤ vc) (seqZ 0 (_vcs cfg)))
      by (apply Forall_seqZ; lia).
    pose proof (fast_vcs_run cfg r i _ (-1) a2 Hpos) as H. cbv zeta in H.
    unfold fast_path in Hfast. rewrite Hfast in H.
    destruct H as [[_ ->]|[_ Hch]]; [by left|]. right.
    assert (Hel : fvc ∈ filter (fun vc => fast_eligible cfg r i vc = true)
                               (seqZ 0 (_vcs cfg))) by (rewrite Hch; by left).
    apply list_elem_of_filter in Hel as [Hel Hrange%elem_of_seqZ]. split; [lia|done].
  - rewrite vget_vset_ne by done. apply Hdone. lia.
Qed.

Lemma finalize_vc_local (cfg : Config) (r r' : Router) (input vc output : Z) :
  finalize_vc cfg r input vc output = Ok r' →
  ∀ i, i ≠ input → vget (_buf r') i = vget (_buf r) i.
Proof.
  unfold finalize_vc, assert.
  destruct (select_out_vc _ _ _) as [sel_vc sel_prio].
  destruct (sel_vc >? -1); cbn [mbind result_bind]; [|discriminate].
  intros [= <-] i Hne. unfold on_buf. cbn. by rewrite !vget_vset_ne.
Qed.

Lemma finalize_vc_abort (cfg : Config) (r : Router) (input vc output : Z)
    (w : assertion) :
  finalize_vc cfg r input vc output = Abort w → w = A_sel_vc.
Proof.
  unfold finalize_vc, assert.
  destruct (select_out_vc _ _ _) as [sel_vc sel_prio].
  destruct (sel_vc >? -1); cbn [mbind result_bind]; [discriminate|]. by intros [= <-].
Qed.

Lemma transfer_abort (cfg : Config) (r : Router) (c : option Credit)
    (input s vc ei eo output : Z) (w : assertion) :
  transfer cfg r c input s vc ei eo output = Abort w → demotion_assertion w = false.
Proof.
  unfold transfer, assert.
  destruct (negb (Empty _ _)); cbn [mbind result_bind]; [|by intros [= <-]].
  destruct (_ =? output); cbn [mbind result_bind]; [|by intros [= <-]].
  destruct (negb (IsFullFor _ _)); cbn [mbind result_bind]; [|by intros [= <-]].
  destruct (FrontFlit _ vc) as [f0|]; [|by intros [= <-]].
  unfold forward_flit, assert. cbn [f_vc].
  destruct (vc =? f_vc f0); cbn [mbind result_bind]; [discriminate|by intros [= <-]].
Qed.

Lemma transfer_local (cfg : Config) (r r' : Router) (c c' : option Credit)
    (input s vc ei eo output : Z) :
  transfer cfg r c input s vc ei eo output = Ok (r', c') →
  ∀ i, i ≠ input → vget (_buf r') i = vget (_buf r) i.
Proof.
  intros Hrun i Hne.
  destruct (transfer_state _ _ _ _ _ _ _ _ _ _ _ Hrun) as (f0 & _ & -> & _).
  destruct (f_tail f0); by rewrite !vget_vset_ne.
Qed.

(** One speedup slot of an input leaves the buffers of the other inputs and
    the flags of the later inputs alone. *)
Lemma resolve_slot_local (cfg : Config) (requests : gmap (Z * Z) Request)
    (OutputAssigned : Z → Z) (fvc input s : Z) (r : Router) (c : option Credit)
    (ct : ctl (Router * option Credit)) :
  Z.of_nat (length (vget (_buf r) input)) ≤ _vcs cfg →
  fvc < _vcs cfg →
  resolve_slot cfg requests OutputAssigned fvc input s (r, c) = Ok ct →
  (∀ i, i ≠ input → vget (_buf (ctl_state ct).1) i = vget (_buf r) i)
  ∧ (∀ k, (input + 1) * _vcs cfg ≤ k →
       vget (_use_fast_path (ctl_state ct).1) k = vget (_use_fast_path r) k).
Proof.
  intros Hlen Hfvc Hrun. unfold resolve_slot in Hrun.
  destruct (pick_grant _ _ _ _ _) as [[eo vc]|w]; cbn [mbind result_bind] in Hrun;
    [|discriminate].
  destruct (eo >=? 0).
  - unfold assert at 1 in Hrun.
    destruct (bool_decide_reflect (is_Some (FrontFlit (vget (_buf r) input) vc)))
      as [Hsome%FrontFlit_in_range|]; cbn [mbind result_bind] in Hrun; [|discriminate].
    destruct (demote_fast_vc cfg r input vc fvc) as [r1|w] eqn:Hd;
      cbn [mbind result_bind] in Hrun; [|discriminate].
    pose proof (demote_fast_vc_flags _ _ _ _ _ _ Hd) as Hfl1.
    apply demote_fast_vc_frame in Hd as (Hb1 & _).
    destruct (if eVCState_eqb (GetState (vget (_buf r1) input) vc) vc_alloc
              then finalize_vc cfg r1 input vc (Z.quot eo (_output_speedup cfg))
              else Ok r1) as [r2|w] eqn:Hf; cbn [mbind result_bind] in Hrun;
      [|discriminate].
    assert (H2 : (∀ i, i ≠ input → vget (_buf r2) i = vget (_buf r) i)
                 ∧ _use_fast_path r2 = _use_fast_path r1).
    { rewrite <- Hb1. destruct (eVCState_eqb _ vc_alloc).
      - split; [by eapply finalize_vc_local|by eapply finalize_vc_flags].
      - by injection Hf as <-. }
    destruct H2 as [Hb2 Hfl2].
    assert (Hfl : ∀ k, (input + 1) * _vcs cfg ≤ k →
                    vget (_use_fast_path r2) k = vget (_use_fast_path r) k).
    { intros k Hk. rewrite Hfl2. destruct (Hfl1 k) as [->|(_ & Hge & ->)]; [done|lia]. }
    destruct (eVCState_eqb (GetState (vget (_buf r2) input) vc) active).
    + destruct (transfer cfg r2 c input s vc _ eo _) as [[r3 c3]|w] eqn:Ht;
        cbn [mbind result_bind] in Hrun; [|discriminate].
      injection Hrun as <-. cbn [ctl_state fst]. split.
      * intros i Hne. rewrite (transfer_local _ _ _ _ _ _ _ _ _ _ _ Ht i Hne).
        by apply Hb2.
      * intros k Hk.
        destruct (transfer_flags _ _ _ _ _ _ _ _ _ _ _ Ht) as (f & tl & _ & Hfl3).
        destruct (Hfl3 k) as [->|[_ ->]]; [by apply Hfl|lia].
    + injection Hrun as <-. by split.
  - destruct (Z.geb_spec fvc 0) as [Hge|_]; cbn [andb] in Hrun.
    + destruct (_ =? s).
      * unfold assert in Hrun.
        destruct (vget (_use_fast_path r) _); cbn [mbind result_bind] in Hrun;
          [|discriminate].
        destruct (bool_decide _); cbn [mbind result_bind] in Hrun; [|discriminate].
        injection Hrun as <-. cbn [ctl_state fst _buf _use_fast_path set_use_fast_path].
        split; [done|]. intros k Hk. rewrite vget_vset_ne; [done|lia].
      * by injection Hrun as <-.
    + by injection Hrun as <-.
Qed.

(** A speedup slot that finds the fast-path VC of its input flagged and
    holding a flit does not fail the assertions on that VC. *)
Lemma resolve_slot_abort (cfg : Config) (requests : gmap (Z * Z) Request)
    (OutputAssigned : Z → Z) (fvc input s : Z) (r : Router) (c : option Credit)
    (w : assertion) :
  (0 ≤ fvc → vget (_use_fast_path r) (input * _vcs cfg + fvc) = true
             ∧ is_Some (FrontFlit (vget (_buf r) input) fvc)) →
  resolve_slot cfg requests OutputAssigned fvc input s (r, c) = Abort w →
  demotion_assertion w = false.
Proof.
  intros Hfast. unfold resolve_slot.
  destruct (pick_grant _ _ _ _ _) as [[eo vc]|w1] eqn:Hpick; cbn [mbind result_bind].
  - destruct (eo >=? 0).
    + unfold assert at 1.
      destruct (bool_decide _); cbn [mbind result_bind]; [|by intros [= <-]].
      destruct (demote_fast_vc cfg r input vc fvc) as [r1|w1] eqn:Hd;
        cbn [mbind result_bind].
      * destruct (if eVCState_eqb (GetState (vget (_buf r1) input) vc) vc_alloc
                  then finalize_vc cfg r1 input vc (Z.quot eo (_output_speedup cfg))
                  else Ok r1) as [r2|w2] eqn:Hf; cbn [mbind result_bind].
        -- destruct (eVCState_eqb (GetState (vget (_buf r2) input) vc) active);
             [|discriminate].
           destruct (transfer cfg r2 c input s vc _ eo _) as [[r3 c3]|w3] eqn:Ht;
             cbn [mbind result_bind]; [discriminate|].
           intros [= <-]. by eapply transfer_abort.
        -- intros [= <-]. destruct (eVCState_eqb _ vc_alloc); [|discriminate].
           by rewrite (finalize_vc_abort _ _ _ _ _ _ Hf).
      * intros [= <-]. exfalso. unfold demote_fast_vc, assert in Hd.
        destruct (vc =? fvc); [discriminate|].
        destruct (Z.geb_spec fvc 0) as [Hge|_]; [|discriminate].
        destruct (Hfast Hge) as [Hflag Hsome]. rewrite Hflag in Hd.
        cbn [mbind result_bind] in Hd. by rewrite bool_decide_eq_true_2 in Hd.
    + destruct (Z.geb_spec fvc 0) as [Hge|_]; cbn [andb]; [|discriminate].
      destruct (_ =? s); [|discriminate].
      destruct (Hfast Hge) as [-> Hsome]. unfold assert. cbn [mbind result_bind].
      by rewrite bool_decide_eq_true_2.
  - intros [= <-]. unfold pick_grant, assert in Hpick.
    destruct (negb _); [|by destruct (_ >=? 0)].
    destruct (_ >=? 0); cbn [mbind result_bind] in Hpick.
    + by destruct (Empty _ _).
    + by injection Hpick as <-.
Qed.

(** Request building fails none of the assertions on the losing fast-path
    VC. *)
Lemma slow_path_abort_kind (cfg : Config) (r : Router) (input : Z) (a : ReqSt)
    (w : assertion) :
  slow_path cfg r input a = Abort w → demotion_assertion w = false.
Proof.
  unfold slow_path. apply (for_loop_abort (fun w => demotion_assertion w = false)).
  intros s a1 w1. unfold slow_slot, assert.
  destruct (_ =? s); cbn [mbind result_bind]; [|by intros [= <-]].
  destruct (for_loop _ _ _) as [[v a2]|w2] eqn:Hloop; cbn [mbind result_bind];
    [discriminate|].
  intros [= <-]. revert Hloop.
  apply (for_loop_abort (fun w => demotion_assertion w = false)).
  intros v [vc a3] w3. unfold slow_vc_body.
  destruct (negb _); [|discriminate].
  destruct (FrontFlit _ _); [|by intros [= <-]].
  destruct (not_ready _ _ _); [discriminate|].
  destruct (for_loop _ _ _) as [[o a4]|w4] eqn:Hl2; cbn [mbind result_bind];
    [discriminate|].
  intros [= <-]. revert Hl2.
  apply (for_loop_abort (fun w => demotion_assertion w = false)).
  intros idx [o a5] w5. unfold slow_output_body, assert.
  destruct (_ =? _ + Z.rem _ _); cbn [mbind result_bind]; [|by intros [= <-]].
  destruct (_ && _).
  - destruct (negb _); cbn [mbind result_bind].
    + destruct (scan_candidates _ _ _ _ _ _ _) as [[] pri]; cbn [mbind result_bind];
        by destruct (eVCState_eqb _ active).
    + by intros [= <-].
  - cbn [mbind result_bind]. by destruct (eVCState_eqb _ active).
Qed.

Lemma build_requests_abort_kind (cfg : Config) (r : Router) (w : assertion) :
  build_requests cfg r = Abort w → demotion_assertion w = false.
Proof.
  unfold build_requests.
  apply (for_loop_abort (fun w => demotion_assertion w = false)).
  intros i [fv a1] w1. unfold input_body.
  destruct (slow_path cfg r i a1) as [a2|w2] eqn:Hslow; cbn [mbind result_bind].
  - destruct (fast_path cfg r i a2) as [[fvc a3]|w3] eqn:Hfast;
      cbn [mbind result_bind]; [discriminate|].
    intros [= <-]. by destruct (fast_path_abort _ _ _ _ _ Hfast) as [-> | ->].
  - intros [= <-]. by eapply slow_path_abort_kind.
Qed.

(** X16.  With input speedup 1 and input buffers of at most [_vcs] VCs, an
    allocation step never fails the assertions on the fast-path VC that
    loses its slot (lines 472, 473 and 629): that VC is still flagged and
    still holds a flit when its input is resolved.  With input speedup 2 the
    assertion of line 472 can fail: in [router_twice] both slots of input 0
    are granted to other VCs than the fast-path VC, and the second grant
    finds the flag cleared by the first. *)
Theorem demotion_assertions (cfg : Config) (Allocate : gmap (Z * Z) Request → Z → Z)
    (r : Router) (w : assertion) :
  (_input_speedup cfg = 1 →
   (∀ input, 0 ≤ input < _inputs cfg →
      Z.of_nat (length (vget (_buf r) input)) ≤ _vcs cfg) →
   _Alloc cfg Allocate r = Abort w →
   demotion_assertion w = false)
  ∧ _Alloc cfg_twice (greedy_for cfg_twice) router_twice = Abort A_fast_flag.
Proof.
  split; [|vm_compute; reflexivity].
  intros HS Hlen. unfold _Alloc.
  destruct (build_requests cfg r) as [[fvcs a]|w1] eqn:Hbuild; cbn [mbind result_bind].
  - pose proof (build_requests_fast_vcs _ _ _ _ Hbuild) as Hfvcs.
    unfold resolve_grants. intros Hrun.
    apply (for_loop_abort_upto
             (fun i r1 =>
                (∀ input, i ≤ input → vget (_buf r1) input = vget (_buf r) input)
                ∧ (∀ k, i * _vcs cfg ≤ k →
                     vget (_use_fast_path r1) k = vget (_use_fast_path r) k))
             (fun w => demotion_assertion w = false)) in Hrun; [done|done| |].
    + intros i r1 ct Hi [Hb Hfl]. unfold resolve_input. rewrite HS.
      change (seqZ 0 1) with [0]. cbn [for_loop].
      destruct (resolve_slot cfg _ _ _ i 0 (r1, None)) as [ct1|w1] eqn:Hslot;
        cbn [mbind result_bind]; [|discriminate].
      apply resolve_slot_local in Hslot as [Hb' Hfl'].
      * destruct ct1 as [[r2 c2]|[r2 c2]]; cbn [mbind result_bind];
          intros [= <-]; cbn [ctl_state fst _buf _use_fast_path emit] in *.
        -- split; [intros input Hge; rewrite Hb' by lia; apply Hb; lia|].
           intros k Hk. rewrite Hfl' by lia. apply Hfl.
           pose proof (Hlen i Hi). nia.
        -- split; [intros input Hge; rewrite Hb' by lia; apply Hb; lia|].
           intros k Hk. rewrite Hfl' by lia. apply Hfl.
           pose proof (Hlen i Hi). nia.
      * rewrite Hb by lia. by apply Hlen.
      * destruct (Hfvcs i Hi) as [Hno|[Hr _]]; [|lia].
        rewrite Hno. pose proof (Hlen i Hi). lia.
    + intros i r1 w1 Hi [Hb Hfl]. unfold resolve_input. rewrite HS.
      change (seqZ 0 1) with [0]. cbn [for_loop].
      destruct (resolve_slot cfg _ _ _ i 0 (r1, None)) as [ct1|w2] eqn:Hslot;
        cbn [mbind result_bind].
      * by destruct ct1 as [[r2 c2]|[r2 c2]].
      * intros [= <-]. eapply resolve_slot_abort; [|exact Hslot].
        intros Hge. destruct (Hfvcs i Hi) as [Hno|[Hr Hel]]; [lia|].
        unfold fast_eligible in Hel.
        apply andb_prop in Hel as [[Hflag Hne]%andb_prop _].
        apply negb_true_iff, FrontFlit_nonempty in Hne as [f Hf].
        rewrite Hfl by nia. rewrite Hb by lia. split; [done|]. by exists f.
  - intros [= <-]. by eapply build_requests_abort_kind.
Qed.

Lemma demotion_assertions_witness :
  _Alloc cfg_neg (greedy_for cfg_neg) router_neg = Abort A_sel_vc
  ∧ demotion_assertion A_sel_vc = false.
Proof.
  assert (Hrun : _Alloc cfg_neg (greedy_for cfg_neg) router_neg = Abort A_sel_vc)
    by (vm_compute; reflexivity).
  split; [exact Hrun|].
  apply (proj1 (demotion_assertions cfg_neg (greedy_for cfg_neg) router_neg A_sel_vc));
    [reflexivity| |exact Hrun].
  intros input Hin. simpl in Hin. assert (input = 0) as -> by lia. simpl. lia.
Defined.

(** ** The slow path offers every ready VC *)

(** Following the round-robin pointer of a slot from a VC of the slot
    reaches every VC of the slot in fewer than [_vcs] steps. *)
Lemma next_vc_ahead (cfg : Config) (s : Z) (d : nat) (vc target : Z) :
  0 < _input_speedup cfg →
  target = vc + Z.of_nat d * _input_speedup cfg → target < _vcs cfg →
  Nat.iter d (next_vc cfg s) vc = target.
Proof.
  intros HS. revert vc. induction d as [|d IH]; intros vc Ht Hlt.
  - simpl. lia.
  - rewrite Nat.iter_succ_r. apply IH; [|done]. unfold next_vc.
    destruct (Z.geb_spec (vc + _input_speedup cfg) (_vcs cfg)); nia.
Qed.

Lemma next_vc_wraps (cfg : Config) (s : Z) (n : nat) (vc : Z) :
  0 < _input_speedup cfg →
  0 ≤ vc < _vcs cfg → _vcs cfg - vc ≤ Z.of_nat n →
  ∃ d : nat, Nat.iter (Datatypes.S d) (next_vc cfg s) vc = s
             ∧ vc + Z.of_nat d * _input_speedup cfg < _vcs cfg.
Proof.
  intros HS. revert vc. induction n as [|n IH]; intros vc Hvc Hn; [lia|].
  destruct (Z.lt_ge_cases (vc + _input_speedup cfg) (_vcs cfg)) as [Hlt|Hge].
  - destruct (IH (vc + _input_speedup cfg)) as (d & Hit & Hd); [lia|lia|].
    exists (Datatypes.S d). split; [|lia].
    rewrite Nat.iter_succ_r. replace (next_vc cfg s vc) with (vc + _input_speedup cfg);
      [done|].
    unfold next_vc. destruct (Z.geb_spec (vc + _input_speedup cfg) (_vcs cfg)); lia.
  - exists 0%nat. split; [|lia]. simpl. unfold next_vc.
    destruct (Z.geb_spec (vc + _input_speedup cfg) (_vcs cfg)); lia.
Qed.

Lemma next_vc_reaches (cfg : Config) (s vc target : Z) :
  0 < _input_speedup cfg →
  0 ≤ vc < _vcs cfg → Z.rem vc (_input_speedup cfg) = s →
  0 ≤ target < _vcs cfg → Z.rem target (_input_speedup cfg) = s →
  ∃ d : nat, Z.of_nat d < _vcs cfg ∧ Nat.iter d (next_vc cfg s) vc = target.
Proof.
  intros HS Hvc Hcv Ht Hct.
  pose proof (Z.quot_rem' vc (_input_speedup cfg)) as Hqv.
  pose proof (Z.quot_rem' target (_input_speedup cfg)) as Hqt.
  rewrite Hcv in Hqv. rewrite Hct in Hqt.
  set (mv := Z.quot vc (_input_speedup cfg)) in *.
  set (mt := Z.quot target (_input_speedup cfg)) in *.
  assert (Hs : 0 ≤ s < _input_speedup cfg).
  { rewrite <- Hcv. apply Z.rem_bound_pos; lia. }
  assert (0 ≤ mv) by (apply Z.quot_pos; lia).
  assert (0 ≤ mt) by (apply Z.quot_pos; lia).
  destruct (Z.le_gt_cases vc target) as [Hle|Hgt].
  - exists (Z.to_nat (mt - mv)). assert (mv ≤ mt) by nia. split; [nia|].
    apply next_vc_ahead; [done| |lia]. rewrite Z2Nat.id by lia. lia.
  - destruct (next_vc_wraps cfg s (Z.to_nat (_vcs cfg - vc)) vc HS Hvc ltac:(lia))
      as (d1 & Hit & Hd1).
    assert (mt < mv) by nia.
    exists (Z.to_nat mt + Datatypes.S d1)%nat. split; [nia|].
    rewrite Nat.iter_add, Hit. apply next_vc_ahead; [done| |lia].
    rewrite Z2Nat.id by lia. lia.
Qed.

(** Following the output pointer of the slow path from an output reaches
    every output in fewer than [_outputs] steps. *)
Lemma next_output_ahead (n : Z) (d : nat) (o target : Z) :
  0 ≤ o → target = o + Z.of_nat d → target < n →
  Nat.iter d (fun o => Z.rem (o + 1) n) o = target.
Proof.
  revert o. induction d as [|d IH]; intros o Ho Ht Hlt.
  - simpl. lia.
  - rewrite Nat.iter_succ_r. rewrite Z.rem_small by lia. apply IH; lia.
Qed.

Lemma next_output_reaches (n o target : Z) :
  0 ≤ o < n → 0 ≤ target < n →
  ∃ d : nat, Z.of_nat d < n ∧ Nat.iter d (fun o => Z.rem (o + 1) n) o = target.
Proof.
  intros Ho Ht. destruct (Z.le_gt_cases o target) as [Hle|Hgt].
  - exists (Z.to_nat (target - o)). split; [lia|]. apply next_output_ahead; lia.
  - exists (Z.to_nat target + Datatypes.S (Z.to_nat (n - 1 - o)))%nat. split; [lia|].
    rewrite Nat.iter_add, Nat.iter_succ.
    rewrite (next_output_ahead n (Z.to_nat (n - 1 - o)) o (n - 1)) by lia.
    replace (n - 1 + 1) with n by lia. rewrite Z.rem_same by lia.
    apply next_output_ahead; lia.
Qed.

Section SlowPathOffers.

Variable cfg : Config.
Variable r : Router.
Variable input : Z.
Variable I : ReqSt → Prop.
Hypothesis Hadd : ∀ p a ei eo vc pri q, I a → I (add_request p a ei eo vc pri q).

(** One iteration of the output loop for a VC that is not active: it goes on
    to the next output, keeps what [AddRequest] keeps, and calls
    [AddRequest] when the slot is free and a candidate passes the test. *)
Lemma slow_output_body_step (s vc idx o : Z) (a : ReqSt) (ct : ctl (Z * ReqSt)) :
  let cur_buf := vget (_buf r) input in
  let ei := input * _input_speedup cfg + s in
  let eo := o * _output_speedup cfg + Z.rem input (_output_speedup cfg) in
  Z.rem vc (_input_speedup cfg) = s →
  eVCState_eqb (GetState cur_buf vc) active = false →
  slow_output_body cfg r input s vc cur_buf (GetState cur_buf vc)
                   (GetRouteSet cur_buf vc) idx (o, a) = Ok ct →
  ∃ a', ct = Continue (Z.rem (o + 1) (_outputs cfg), a')
    ∧ (I a → I a')
    ∧ (vget (_switch_hold_in r) ei = -1 → vget (_switch_hold_out r) eo = -1 →
       ∀ c, c ∈ candidates (GetRouteSet cur_buf vc) o →
            cand_eligible cur_buf vc (GetState cur_buf vc) (vget (_next_buf r) o) c = true →
            offered ei eo vc c.2 (GetPriority cur_buf vc) a').
Proof.
  intros cur_buf ei eo Hclass Hact. unfold slow_output_body, assert.
  rewrite Hact, Hclass, Z.eqb_refl. cbn [mbind result_bind andb negb].
  fold ei. fold eo.
  destruct (Z.eqb_spec (vget (_switch_hold_in r) ei) (-1)) as [Hhi|Hhi]; cbn [andb].
  2:{ cbn [mbind result_bind]. intros [= <-]. eexists. by split. }
  destruct (Z.eqb_spec (vget (_switch_hold_out r) eo) (-1)) as [Hho|Hho].
  2:{ cbn [mbind result_bind]. intros [= <-]. eexists. by split. }
  cbn [mbind result_bind].
  pose proof (scan_requests_highest_priority_aux cur_buf vc (GetState cur_buf vc)
                (vget (_next_buf r) o) (GetRouteSet cur_buf vc) o) as Hscan.
  cbv zeta in Hscan.
  destruct (scan_candidates _ _ _ _ _ _ _) as [do_request pri];
    cbn [mbind result_bind].
  destruct do_request; intros [= <-]; eexists; (split; [reflexivity|]).
  - split; [by apply Hadd|]. intros _ _ c Hc Hel.
    destruct Hscan as [[_ [=]]|(_ & _ & Hmax)].
    rewrite Forall_forall in Hmax.
    exists pri. split; [apply (Hmax c); by apply list_elem_of_filter|].
    unfold add_request. cbn [calls]. apply elem_of_app. right. by left.
  - split; [done|]. intros _ _ c Hc Hel. exfalso.
    destruct Hscan as [[Hnil _]|([=] & _)].
    assert (Hin : c ∈ filter (fun c => cand_eligible cur_buf vc (GetState cur_buf vc)
                                         (vget (_next_buf r) o) c = true)
                             (candidates (GetRouteSet cur_buf vc) o))
      by (by apply list_elem_of_filter).
    rewrite Hnil in Hin. by apply elem_of_nil in Hin.
Qed.

(** The same for an active VC: the loop is left after the assigned port. *)
Lemma slow_output_body_active (s vc idx o : Z) (a : ReqSt) (ct : ctl (Z * ReqSt)) :
  let cur_buf := vget (_buf r) input in
  let port := GetOutputPort cur_buf vc in
  let ei := input * _input_speedup cfg + s in
  let eo := port * _output_speedup cfg + Z.rem input (_output_speedup cfg) in
  Z.rem vc (_input_speedup cfg) = s →
  eVCState_eqb (GetState cur_buf vc) active = true →
  slow_output_body cfg r input s vc cur_buf (GetState cur_buf vc)
                   (GetRouteSet cur_buf vc) idx (o, a) = Ok ct →
  ∃ a', ct = Break (port, a')
    ∧ (I a → I a')
    ∧ (vget (_switch_hold_in r) ei = -1 → vget (_switch_hold_out r) eo = -1 →
       ∀ c, c ∈ candidates (GetRouteSet cur_buf vc) port →
            cand_eligible cur_buf vc (GetState cur_buf vc) (vget (_next_buf r) port) c
            = true →
            offered ei eo vc c.2 (GetPriority cur_buf vc) a').
Proof.
  intros cur_buf port ei eo Hclass Hact. unfold slow_output_body, assert.
  rewrite Hact, Hclass, Z.eqb_refl. cbn [mbind result_bind andb negb].
  fold cur_buf. fold port. fold ei. fold eo.
  destruct (Z.eqb_spec (vget (_switch_hold_in r) ei) (-1)) as [Hhi|Hhi]; cbn [andb].
  2:{ cbn [mbind result_bind]. intros [= <-]. eexists. by split. }
  destruct (Z.eqb_spec (vget (_switch_hold_out r) eo) (-1)) as [Hho|Hho].
  2:{ cbn [mbind result_bind]. intros [= <-]. eexists. by split. }
  destruct (negb _); cbn [mbind result_bind]; [|discriminate].
  pose proof (scan_requests_highest_priority_aux cur_buf vc (GetState cur_buf vc)
                (vget (_next_buf r) port) (GetRouteSet cur_buf vc) port) as Hscan.
  cbv zeta in Hscan.
  destruct (scan_candidates _ _ _ _ _ _ _) as [do_request pri];
    cbn [mbind result_bind].
  destruct do_request; intros [= <-]; eexists; (split; [reflexivity|]).
  - split; [by apply Hadd|]. intros _ _ c Hc Hel.
    destruct Hscan as [[_ [=]]|(_ & _ & Hmax)].
    rewrite Forall_forall in Hmax.
    exists pri. split; [apply (Hmax c); by apply list_elem_of_filter|].
    unfold add_request. cbn [calls]. apply elem_of_app. right. by left.
  - split; [done|]. intros _ _ c Hc Hel. exfalso.
    destruct Hscan as [[Hnil _]|([=] & _)].
    assert (Hin : c ∈ filter (fun c => cand_eligible cur_buf vc (GetState cur_buf vc)
                                         (vget (_next_buf r) port) c = true)
                             (candidates (GetRouteSet cur_buf vc) port))
      by (by apply list_elem_of_filter).
    rewrite Hnil in Hin. by apply elem_of_nil in Hin.
Qed.

Lemma slow_output_body_keeps (s vc idx : Z) (cur_buf : Buffer) (vc_state : eVCState)
    (route_set : OutputSet) (st : Z * ReqSt) (ct : ctl (Z * ReqSt)) :
  I st.2 →
  slow_output_body cfg r input s vc cur_buf vc_state route_set idx st = Ok ct →
  I (ctl_state ct).2.
Proof.
  destruct st as [o a]. cbn [snd]. intros Ha. unfold slow_output_body, assert.
  destruct (_ =? _ + Z.rem _ _); cbn [mbind result_bind]; [|discriminate].
  destruct (_ && _).
  - destruct (negb _); cbn [mbind result_bind]; [|discriminate].
    destruct (scan_candidates _ _ _ _ _ _ _) as [[] pri]; cbn [mbind result_bind];
      destruct (eVCState_eqb _ active); intros [= <-]; cbn [ctl_state snd]; auto.
  - cbn [mbind result_bind]. destruct (eVCState_eqb _ active); by intros [= <-].
Qed.

Lemma slow_vc_body_keeps (s v : Z) (st : Z * ReqSt) (ct : ctl (Z * ReqSt)) :
  I st.2 → slow_vc_body cfg r input s v st = Ok ct →
  ∃ a', ct = Continue (next_vc cfg s st.1, a') ∧ I a'.
Proof.
  destruct st as [vc a]. cbn [fst snd]. intros Ha. unfold slow_vc_body.
  destruct (negb _); [|intros [= <-]; by eexists].
  destruct (FrontFlit _ _); [|discriminate].
  destruct (not_ready _ _ _); [intros [= <-]; by eexists|].
  destruct (for_loop _ _ _) as [[o a']|w] eqn:Hloop; cbn [mbind result_bind];
    [|discriminate].
  intros [= <-]. eexists. split; [reflexivity|].
  apply (for_loop_inv (fun st : Z * ReqSt => I st.2)) in Hloop; [done|done|].
  intros idx st1 c1 _ Hst1 Hb. by eapply slow_output_body_keeps.
Qed.

Lemma slow_slot_keeps (s : Z) (a : ReqSt) (ct : ctl ReqSt) :
  I a → slow_slot cfg r input s a = Ok ct → ∃ a', ct = Continue a' ∧ I a'.
Proof.
  intros Ha. unfold slow_slot, assert.
  destruct (_ =? s); cbn [mbind result_bind]; [|discriminate].
  destruct (for_loop (slow_vc_body cfg r input s) _ _) as [[vc a2]|w] eqn:Hloop;
    cbn [mbind result_bind]; [|discriminate].
  intros [= <-]. eexists. split; [reflexivity|].
  apply (for_loop_inv (fun st : Z * ReqSt => I st.2)) in Hloop; [done|done|].
  intros v st c2 _ Hst Hb.
  destruct (slow_vc_body_keeps _ _ _ _ Hst Hb) as (a' & -> & Ha'). done.
Qed.

Lemma fast_path_keeps (a : ReqSt) (fvc : Z) (a' : ReqSt) :
  I a → fast_path cfg r input a = Ok (fvc, a') → I a'.
Proof.
  intros Ha Hfast. unfold fast_path in Hfast.
  apply (for_loop_inv (fun st : Z * ReqSt => I st.2)) in Hfast; [done|done|].
  intros vc [fv a4] c4 _ Ha4. cbn [snd] in Ha4. rewrite fast_vc_body_eq.
  destruct (fast_eligible _ _ _ _); [|by intros [= <-]].
  unfold assert. destruct (fv <? 0); cbn [mbind result_bind]; [|discriminate].
  destruct (for_loop _ _ a4) as [a5|w] eqn:Hout; cbn [mbind result_bind];
    [|discriminate].
  intros [= <-]. cbn [ctl_state snd].
  apply (for_loop_inv I) in Hout; [done|done|].
  intros idx a6 c6 _ Ha6. unfold fast_output_body.
  destruct (_ >=? 0); [destruct (eVCState_eqb _ active); by intros [= <-]|].
  unfold assert. destruct (_ || _); cbn [mbind result_bind]; [|discriminate].
  destruct (scan_candidates _ _ _ _ _ _ _) as [[] pri];
    destruct (eVCState_eqb _ active); intros [= <-]; cbn [ctl_state]; auto.
Qed.

End SlowPathOffers.

Section SlowPathReach.

Variable cfg : Config.
Variable r : Router.
Variables input vc output : Z.
Variable c : Z * Z.

Local Abbreviation cur_buf := (vget (_buf r) input).
Local Abbreviation s := (Z.rem vc (_input_speedup cfg)).
Local Abbreviation ei := (input * _input_speedup cfg + Z.rem vc (_input_speedup cfg)).
Local Abbreviation eo := (output * _output_speedup cfg + Z.rem input (_output_speedup cfg)).
Local Abbreviation Q := (offered ei eo vc c.2 (GetPriority cur_buf vc)).

Hypothesis HS : 0 < _input_speedup cfg.
Hypothesis Hvc : 0 ≤ vc < _vcs cfg.
Hypothesis Hout : 0 ≤ output < _outputs cfg.
Hypothesis Hne : Empty cur_buf vc = false.
Hypothesis Hready : not_ready cfg cur_buf vc = false.
Hypothesis Hport :
  if eVCState_eqb (GetState cur_buf vc) active
  then output = GetOutputPort cur_buf vc
  else 0 ≤ vget (_vc_rr_offset r) (input * _vcs cfg + vc) < _outputs cfg.
Hypothesis Hhi : vget (_switch_hold_in r) ei = -1.
Hypothesis Hho : vget (_switch_hold_out r) eo = -1.
Hypothesis Hc : c ∈ candidates (GetRouteSet cur_buf vc) output.
Hypothesis Hel :
  cand_eligible cur_buf vc (GetState cur_buf vc) (vget (_next_buf r) output) c = true.

Lemma offered_add (p : path) (a : ReqSt) (ei' eo' vc' pri q : Z) :
  Q a → Q (add_request p a ei' eo' vc' pri q).
Proof.
  intros (pri0 & Hle & Hin). exists pri0. split; [done|].
  unfold add_request. cbn [calls]. apply elem_of_app. by left.
Qed.

(** The output loop of the slow path, run for the VC, calls [AddRequest]
    for the output. *)
Lemma slow_outputs_offer (o0 : Z) (a : ReqSt) (res : Z * ReqSt) :
  (eVCState_eqb (GetState cur_buf vc) active = false → 0 ≤ o0 < _outputs cfg) →
  for_loop (slow_output_body cfg r input s vc cur_buf (GetState cur_buf vc)
                             (GetRouteSet cur_buf vc))
           (seqZ 0 (_outputs cfg)) (o0, a) = Ok res →
  Q res.2.
Proof.
  intros Ho0 Hrun.
  destruct (eVCState_eqb (GetState cur_buf vc) active) eqn:Hact.
  - rewrite seqZ_cons in Hrun by lia. cbn [for_loop] in Hrun.
    destruct (slow_output_body _ _ _ _ _ _ _ _ _ _) as [ct|w] eqn:Hb; [|discriminate].
    destruct (slow_output_body_active cfg r input (fun _ => True) ltac:(done)
                s vc 0 o0 a ct eq_refl Hact Hb) as (a' & -> & _ & Hoff).
    injection Hrun as <-. cbn [snd]. rewrite <- Hport in Hoff. by apply Hoff.
  - specialize (Ho0 eq_refl).
    destruct (next_output_reaches (_outputs cfg) o0 output Ho0 Hout) as (d & Hd & Hit).
    apply (for_loop_inv_upto
             (fun i (st : Z * ReqSt) =>
                Q st.2
                ∨ (0 ≤ st.1 < _outputs cfg
                   ∧ ∃ d : nat, Z.of_nat d < _outputs cfg - i
                       ∧ Nat.iter d (fun o => Z.rem (o + 1) (_outputs cfg)) st.1 = output)))
      in Hrun; [|lia| |].
    + destruct Hrun as [HQ|(_ & d' & Hd' & _)]; [done|lia].
    + right. split; [done|]. exists d. split; [lia|done].
    + intros i [o a1] ct Hi HJ Hb. cbn [fst snd] in HJ.
      destruct (slow_output_body_step cfg r input Q offered_add
                  s vc i o a1 ct eq_refl Hact Hb) as (a' & -> & Hkeep & Hoff).
      eexists. split; [reflexivity|]. cbn [fst snd].
      destruct HJ as [HQ|(Ho & [|d'] & Hd' & Hit')]; [left; by apply Hkeep| |].
      * simpl in Hit'. subst o. left. by apply Hoff.
      * right. split; [apply Z.rem_bound_pos; lia|]. exists d'. split; [lia|].
        rewrite Nat.iter_succ_r in Hit'. exact Hit'.
Qed.

(** The VC loop of the slow path, started at a VC of the slot of [vc],
    calls [AddRequest] for [vc]. *)
Lemma slow_vcs_offer (vc0 : Z) (a : ReqSt) (res : Z * ReqSt) :
  0 ≤ vc0 < _vcs cfg → Z.rem vc0 (_input_speedup cfg) = s →
  for_loop (slow_vc_body cfg r input s) (seqZ 0 (_vcs cfg)) (vc0, a) = Ok res →
  Q res.2.
Proof.
  intros Hvc0 Hclass Hrun.
  destruct (next_vc_reaches cfg s vc0 vc HS Hvc0 Hclass Hvc eq_refl) as (d & Hd & Hit).
  apply (for_loop_inv_upto
           (fun i (st : Z * ReqSt) =>
              Q st.2
              ∨ ∃ d : nat, Z.of_nat d < _vcs cfg - i
                  ∧ Nat.iter d (next_vc cfg s) st.1 = vc))
    in Hrun; [|lia| |].
  - destruct Hrun as [HQ|(d' & Hd' & _)]; [done|lia].
  - right. exists d. split; [lia|done].
  - intros i [vcx a1] ct Hi HJ Hb. cbn [fst snd] in HJ.
    destruct HJ as [HQ|([|d'] & Hd' & Hit')].
    + destruct (slow_vc_body_keeps cfg r input Q offered_add s i (vcx, a1) ct HQ Hb)
        as (a' & -> & HQ').
      eexists. split; [reflexivity|]. by left.
    + simpl in Hit'. subst vcx. revert Hb. unfold slow_vc_body.
      rewrite Hne. cbn [negb].
      destruct (FrontFlit cur_buf vc); [|discriminate].
      rewrite Hready.
      destruct (for_loop (slow_output_body _ _ _ _ _ _ _ _) _ _) as [[o a']|w] eqn:Hloop.
      2:{ cbn [mbind result_bind]. discriminate. }
      cbn [mbind result_bind].
      intros [= <-]. eexists. split; [reflexivity|]. left. cbn [snd].
      apply slow_outputs_offer in Hloop; [done|].
      intros Hact. by rewrite Hact in Hport.
    + destruct (slow_vc_body_keeps cfg r input (fun _ => True) ltac:(done)
                  s i (vcx, a1) ct I Hb) as (a' & -> & _).
      eexists. split; [reflexivity|]. right. exists d'. split; [lia|].
      rewrite Nat.iter_succ_r in Hit'. exact Hit'.
Qed.

Hypothesis Hrr :
  0 ≤ vget (_sw_rr_offset r) ei < _vcs cfg
  ∧ Z.rem (vget (_sw_rr_offset r) ei) (_input_speedup cfg) = s.

Lemma slow_path_offer (a a' : ReqSt) :
  slow_path cfg r input a = Ok a' → Q a'.
Proof.
  unfold slow_path. intros Hrun.
  assert (Hs : 0 ≤ s < _input_speedup cfg) by (apply Z.rem_bound_pos; lia).
  apply (for_loop_inv_upto (fun i a1 => Q a1 ∨ i ≤ s)) in Hrun; [|lia| |].
  - destruct Hrun as [HQ|Hle]; [done|lia].
  - right. lia.
  - intros i a1 ct Hi HJ Hb.
    destruct (decide (i = s)) as [->|Hne'].
    + revert Hb. unfold slow_slot, assert.
      destruct (_ =? s); cbn [mbind result_bind]; [|discriminate].
      destruct (for_loop (slow_vc_body cfg r input s) _ _) as [[v a2]|w] eqn:Hloop;
        cbn [mbind result_bind]; [|discriminate].
      intros [= <-]. eexists. split; [reflexivity|]. left.
      apply slow_vcs_offer in Hloop; [done|apply Hrr..].
    + destruct HJ as [HQ|Hle].
      * destruct (slow_slot_keeps cfg r input Q offered_add i a1 ct HQ Hb)
          as (a2 & -> & HQ2).
        eexists. split; [reflexivity|]. by left.
      * destruct (slow_slot_keeps cfg r input (fun _ => True) ltac:(done) i a1 ct I Hb)
          as (a2 & -> & _).
        eexists. split; [reflexivity|]. right. lia.
Qed.

End SlowPathReach.

Lemma slow_path_keeps (cfg : Config) (r : Router) (input : Z) (I : ReqSt → Prop)
    (a a' : ReqSt) :
  (∀ p a ei eo vc pri q, I a → I (add_request p a ei eo vc pri q)) →
  I a → slow_path cfg r input a = Ok a' → I a'.
Proof.
  intros Hadd Ha Hrun. unfold slow_path in Hrun.
  apply (for_loop_inv I) in Hrun; [done|done|].
  intros s a1 ct _ Ha1 Hb.
  by destruct (slow_slot_keeps cfg r input I Hadd s a1 ct Ha1 Hb) as (a2 & -> & Ha2).
Qed.

(** X17.  The slow path offers every ready VC to the allocator.  With
    positive input speedup, for a VC of an input that holds a flit and is
    ready, an output at which a route candidate passes the test, the
    crossbar slot of the two free on both sides, and the round-robin pointer
    of the slot on a VC of the slot: request building, when it completes,
    has called [AddRequest] for the VC on that crossbar slot, with a
    priority at least that of the candidate.  For a VC in [vc_alloc] this
    holds at every output when the output pointer of the VC is a valid
    output; for an active VC at its assigned port. *)
Theorem slow_path_offers_ready_vc (cfg : Config) (r : Router) (fast_path_vcs : list Z)
    (a : ReqSt) (input vc output : Z) (c : Z * Z) :
  let cur_buf := vget (_buf r) input in
  let ei := input * _input_speedup cfg + Z.rem vc (_input_speedup cfg) in
  let eo := output * _output_speedup cfg + Z.rem input (_output_speedup cfg) in
  0 < _input_speedup cfg →
  0 ≤ input < _inputs cfg → 0 ≤ vc < _vcs cfg → 0 ≤ output < _outputs cfg →
  Empty cur_buf vc = false →
  not_ready cfg cur_buf vc = false →
  (if eVCState_eqb (GetState cur_buf vc) active
   then output = GetOutputPort cur_buf vc
   else 0 ≤ vget (_vc_rr_offset r) (input * _vcs cfg + vc) < _outputs cfg) →
  vget (_switch_hold_in r) ei = -1 →
  vget (_switch_hold_out r) eo = -1 →
  c ∈ candidates (GetRouteSet cur_buf vc) output →
  cand_eligible cur_buf vc (GetState cur_buf vc) (vget (_next_buf r) output) c = true →
  0 ≤ vget (_sw_rr_offset r) ei < _vcs cfg
  ∧ Z.rem (vget (_sw_rr_offset r) ei) (_input_speedup cfg)
    = Z.rem vc (_input_speedup cfg) →
  build_requests cfg r = Ok (fast_path_vcs, a) →
  ∃ pri, c.2 ≤ pri
         ∧ EvAddRequest SlowPath ei eo vc pri (GetPriority cur_buf vc) ∈ calls a.
Proof.
  intros cur_buf ei eo HS Hin Hvc Hout Hne Hready Hport Hhi Hho Hc Hel Hrr Hrun.
  unfold build_requests in Hrun.
  set (Q := offered ei eo vc c.2 (GetPriority cur_buf vc)).
  assert (HQadd : ∀ p a ei' eo' vc' pri q, Q a → Q (add_request p a ei' eo' vc' pri q))
    by apply offered_add.
  apply (for_loop_inv_upto (fun i (st : list Z * ReqSt) => Q st.2 ∨ i ≤ input))
    in Hrun; [|lia| |].
  - destruct Hrun as [HQ|Hle]; [exact HQ|lia].
  - right. lia.
  - intros i [fv a1] ct Hi HJ. cbn [snd] in HJ. unfold input_body.
    destruct (slow_path cfg r i a1) as [a2|w] eqn:Hslow; cbn [mbind result_bind];
      [|discriminate].
    destruct (fast_path cfg r i a2) as [[fvc a3]|w] eqn:Hfast; cbn [mbind result_bind];
      [|discriminate].
    intros [= <-]. eexists. split; [reflexivity|]. cbn [snd].
    destruct (decide (i = input)) as [->|Hne'].
    + left. apply (fast_path_keeps cfg r input Q HQadd a2 fvc a3); [|done].
      by apply (slow_path_offer cfg r input vc output c HS Hvc Hout Hne Hready Hport
                  Hhi Hho Hc Hel Hrr a1 a2).
    + destruct HJ as [HQ|Hle]; [left|right; lia].
      apply (fast_path_keeps cfg r i Q HQadd a2 fvc a3); [|done].
      by apply (slow_path_keeps cfg r i Q a1 a2).
Qed.

Lemma slow_path_offers_ready_vc_witness :
  ∃ fast_path_vcs a,
    build_requests cfg_pair router_pair = Ok (fast_path_vcs, a)
    ∧ ∃ pri, 0 ≤ pri ∧ EvAddRequest SlowPath 1 1 0 pri 0 ∈ calls a.
Proof.
  do 2 eexists. split; [vm_compute; reflexivity|].
  refine (slow_path_offers_ready_vc cfg_pair router_pair _ _ 1 0 1 (0, 0)
            _ _ _ _ _ _ _ _ _ _ _ _ _).
  - simpl. lia.
  - simpl. lia.
  - simpl. lia.
  - simpl. lia.
  - reflexivity.
  - reflexivity.
  - vm_compute. split; [discriminate|reflexivity].
  - reflexivity.
  - reflexivity.
  - change ((0, 0) ∈ [(0, 0)]). by left.
  - reflexivity.
  - vm_compute. split; [split; [discriminate|reflexivity]|reflexivity].
  - vm_compute; reflexivity.
Defined.

(** ** Switch holding over a cycle *)

(** A loop whose body never breaks, cut at one of its indices. *)
Lemma for_loop_split {S} (body : Z → S → result (ctl S)) (l1 : list Z) (i : Z)
    (l2 : list Z) (s s' : S) :
  (∀ j s1 c, body j s1 = Ok c → ∃ s2, c = Continue s2) →
  for_loop body (l1 ++ i :: l2) s = Ok s' →
  ∃ s1 s2, for_loop body l1 s = Ok s1
    ∧ body i s1 = Ok (Continue s2)
    ∧ for_loop body l2 s2 = Ok s'.
Proof.
  intros Hcont. revert s. induction l1 as [|j l1 IH]; intros s Hrun; simpl in Hrun.
  - destruct (body i s) as [c|w] eqn:Hb; [|discriminate].
    destruct (Hcont _ _ _ Hb) as [s2 ->]. by exists s, s2.
  - destruct (body j s) as [c|w] eqn:Hb; [|discriminate].
    destruct (Hcont _ _ _ Hb) as [s2 ->].
    destruct (IH s2 Hrun) as (s1 & s3 & H1 & H2 & H3).
    exists s1, s3. simpl. by rewrite Hb.
Qed.

Lemma seqZ_split (n i : Z) :
  0 ≤ i < n → seqZ 0 n = seqZ 0 i ++ i :: seqZ (i + 1) (n - i - 1).
Proof.
  intros Hi. replace n with (i + (n - i)) at 1 by lia.
  rewrite seqZ_app by lia. f_equal. rewrite seqZ_cons by lia.
  replace (Z.succ (0 + i)) with (i + 1) by lia.
  replace (Z.pred (n - i)) with (n - i - 1) by lia. done.
Qed.

(** A speedup slot leaves the input-side entries of the other expanded
    inputs alone, and the hold tables keep their lengths. *)
Lemma resolve_slot_other_slot (cfg : Config) (requests : gmap (Z * Z) Request)
    (OutputAssigned : Z → Z) (fvc input s : Z) (r : Router) (c : option Credit)
    (ct : ctl (Router * option Credit)) :
  resolve_slot cfg requests OutputAssigned fvc input s (r, c) = Ok ct →
  ∃ st evs, ct = Continue st ∧ trace st.1 = trace r ++ evs
    ∧ length (_switch_hold_in st.1) = length (_switch_hold_in r)
    ∧ length (_switch_hold_vc st.1) = length (_switch_hold_vc r)
    ∧ length (_switch_hold_out st.1) = length (_switch_hold_out r)
    ∧ ∀ ei, ei ≠ input * _input_speedup cfg + s →
        vget (_switch_hold_in st.1) ei = vget (_switch_hold_in r) ei
        ∧ vget (_switch_hold_vc st.1) ei = vget (_switch_hold_vc r) ei.
Proof.
  intros Hslot.
  destruct (resolve_slot_events _ _ _ _ _ _ _ _ _ Hslot) as (st & evs & -> & Htr & _).
  exists st, evs. split; [done|]. split; [done|].
  destruct (resolve_slot_cases _ _ _ _ _ _ _ _ _ Hslot)
    as (eo & vc & _ & [(r2 & (Hi & Hv & Ho & _) & _ & _ & Ht)|[(Hi & Hv & Ho & _) _]]);
    cbn [ctl_state] in *.
  - destruct st as [r3 c3]. cbn [fst].
    destruct (transfer_holds _ _ _ _ _ _ _ _ _ _ _ Ht) as (f0 & _ & Hholds).
    assert (H0 : length (_switch_hold_in (hold_switch cfg r2 vc
                           (input * _input_speedup cfg + s) eo))
                 = length (_switch_hold_in r)
               ∧ length (_switch_hold_vc (hold_switch cfg r2 vc
                           (input * _input_speedup cfg + s) eo))
                 = length (_switch_hold_vc r)
               ∧ length (_switch_hold_out (hold_switch cfg r2 vc
                           (input * _input_speedup cfg + s) eo))
                 = length (_switch_hold_out r)
               ∧ ∀ ei, ei ≠ input * _input_speedup cfg + s →
                   vget (_switch_hold_in (hold_switch cfg r2 vc
                           (input * _input_speedup cfg + s) eo)) ei
                   = vget (_switch_hold_in r) ei
                   ∧ vget (_switch_hold_vc (hold_switch cfg r2 vc
                           (input * _input_speedup cfg + s) eo)) ei
                     = vget (_switch_hold_vc r) ei).
    { unfold hold_switch. destruct (_hold_switch_for_packet cfg); simpl.
      - rewrite !length_vset, Hi, Hv, Ho. repeat split; try done.
        all: rewrite vget_vset_ne by done; congruence.
      - rewrite Hi, Hv, Ho. by repeat split. }
    destruct H0 as (Hli & Hlv & Hlo & Hother).
    destruct (f_tail f0); destruct Hholds as (-> & -> & ->);
      rewrite ?length_vset; repeat split; try done.
    all: try (rewrite vget_vset_ne by done); by apply Hother.
  - cbn [fst]. rewrite Hi, Hv, Ho. by repeat split.
Qed.

Lemma resolve_slot_continues (cfg : Config) (requests : gmap (Z * Z) Request)
    (OutputAssigned : Z → Z) (fvc input s : Z) (st : Router * option Credit)
    (ct : ctl (Router * option Credit)) :
  resolve_slot cfg requests OutputAssigned fvc input s st = Ok ct →
  ∃ st', ct = Continue st'.
Proof.
  destruct st as [r c]. intros Hslot.
  destruct (resolve_slot_events _ _ _ _ _ _ _ _ _ Hslot) as (st' & _ & -> & _).
  by exists st'.
Qed.

(** The slots of a list of indices that does not hold [s], or of another
    input, leave the entries of the expanded input [input * S + s] alone. *)
Lemma resolve_slots_other (cfg : Config) (requests : gmap (Z * Z) Request)
    (OutputAssigned : Z → Z) (fvc input input' s : Z) (slots : list Z)
    (st st' : Router * option Credit) :
  0 ≤ s < _input_speedup cfg →
  (∀ s', s' ∈ slots → 0 ≤ s' < _input_speedup cfg ∧ (input' = input → s' ≠ s)) →
  for_loop (resolve_slot cfg requests OutputAssigned fvc input') slots st = Ok st' →
  let ei := input * _input_speedup cfg + s in
  (∃ evs, trace st'.1 = trace st.1 ++ evs)
  ∧ length (_switch_hold_in st'.1) = length (_switch_hold_in st.1)
  ∧ length (_switch_hold_vc st'.1) = length (_switch_hold_vc st.1)
  ∧ length (_switch_hold_out st'.1) = length (_switch_hold_out st.1)
  ∧ vget (_switch_hold_in st'.1) ei = vget (_switch_hold_in st.1) ei
  ∧ vget (_switch_hold_vc st'.1) ei = vget (_switch_hold_vc st.1) ei.
Proof.
  intros Hs Hslots Hrun ei.
  apply (for_loop_inv
           (fun x : Router * option Credit =>
              (∃ evs, trace x.1 = trace st.1 ++ evs)
              ∧ length (_switch_hold_in x.1) = length (_switch_hold_in st.1)
              ∧ length (_switch_hold_vc x.1) = length (_switch_hold_vc st.1)
              ∧ length (_switch_hold_out x.1) = length (_switch_hold_out st.1)
              ∧ vget (_switch_hold_in x.1) ei = vget (_switch_hold_in st.1) ei
              ∧ vget (_switch_hold_vc x.1) ei = vget (_switch_hold_vc st.1) ei))
    in Hrun; [done| |].
  { split; [exists []; by rewrite app_nil_r|done]. }
  intros s' [r1 c1] ct Hel ((evs & Htr) & Hli & Hlv & Hlo & Hi & Hv) Hslot.
  cbn [fst] in *.
  destruct (resolve_slot_other_slot _ _ _ _ _ _ _ _ _ Hslot)
    as (x & evs' & -> & Htr' & Hli' & Hlv' & Hlo' & Hother).
  cbn [ctl_state].
  destruct (Hslots s' Hel) as [Hs' Hne].
  assert (Hei : ei ≠ input' * _input_speedup cfg + s').
  { unfold ei. intros Heq.
    destruct (slot_unique (_input_speedup cfg) input s input' s' Hs Hs' Heq) as [-> ->].
    by apply Hne. }
  destruct (Hother ei Hei) as [Hi' Hv'].
  split; [exists (evs ++ evs'); by rewrite Htr', Htr, app_assoc|].
  rewrite Hli', Hlv', Hlo', Hi', Hv'. done.
Qed.

(** The same for the whole resolution of another input. *)
Lemma resolve_inputs_other (cfg : Config) (requests : gmap (Z * Z) Request)
    (OutputAssigned : Z → Z) (fvcs : list Z) (input s : Z) (inputs : list Z)
    (r r' : Router) :
  0 ≤ s < _input_speedup cfg →
  input ∉ inputs →
  for_loop (resolve_input cfg requests OutputAssigned fvcs) inputs r = Ok r' →
  let ei := input * _input_speedup cfg + s in
  (∃ evs, trace r' = trace r ++ evs)
  ∧ length (_switch_hold_in r') = length (_switch_hold_in r)
  ∧ length (_switch_hold_vc r') = length (_switch_hold_vc r)
  ∧ length (_switch_hold_out r') = length (_switch_hold_out r)
  ∧ vget (_switch_hold_in r') ei = vget (_switch_hold_in r) ei
  ∧ vget (_switch_hold_vc r') ei = vget (_switch_hold_vc r) ei.
Proof.
  intros Hs Hnot Hrun ei.
  apply (for_loop_inv
           (fun x : Router =>
              (∃ evs, trace x = trace r ++ evs)
              ∧ length (_switch_hold_in x) = length (_switch_hold_in r)
              ∧ length (_switch_hold_vc x) = length (_switch_hold_vc r)
              ∧ length (_switch_hold_out x) = length (_switch_hold_out r)
              ∧ vget (_switch_hold_in x) ei = vget (_switch_hold_in r) ei
              ∧ vget (_switch_hold_vc x) ei = vget (_switch_hold_vc r) ei))
    in Hrun; [done| |].
  { split; [exists []; by rewrite app_nil_r|done]. }
  intros input' r1 ct Hel ((evs & Htr) & Hli & Hlv & Hlo & Hi & Hv). unfold resolve_input.
  destruct (for_loop (resolve_slot cfg requests OutputAssigned _ input') _ _)
    as [[r2 c2]|w] eqn:Hloop; cbn [mbind result_bind]; [|discriminate].
  intros [= <-]. cbn [ctl_state].
  apply (resolve_slots_other cfg requests OutputAssigned _ input input' s) in Hloop;
    [|done|].
  - cbn [fst] in Hloop.
    destruct Hloop as ((evs' & Htr') & Hli' & Hlv' & Hlo' & Hi' & Hv').
    cbn [trace emit _switch_hold_in _switch_hold_vc _switch_hold_out].
    split; [eexists; by rewrite Htr', Htr, <- !app_assoc|].
    fold ei in Hi', Hv'. rewrite Hli', Hlv', Hlo', Hi', Hv'. done.
  - intros s' Hs'%elem_of_seqZ. split; [lia|]. intros ->. by destruct Hnot.
Qed.

Lemma resolve_input_continues (cfg : Config) (requests : gmap (Z * Z) Request)
    (OutputAssigned : Z → Z) (fvcs : list Z) (input : Z) (r : Router)
    (ct : ctl Router) :
  resolve_input cfg requests OutputAssigned fvcs input r = Ok ct →
  ∃ r', ct = Continue r'.
Proof.
  unfold resolve_input.
  destruct (for_loop _ _ _) as [[r2 c2]|w]; cbn [mbind result_bind]; [|discriminate].
  intros [= <-]. by eexists.
Qed.

(** C3, amended.  Take an expanded input whose entries in the hold tables
    bind it to (expanded output, VC) at the start of a cycle.  In a step
    that completes, its slot is resolved once, on a router in which these
    entries are as at the start of the cycle ([r1]; [st] is the router when
    the slot is done, [evs] the calls of the slot).  Grant resolution works
    for the slot on the bound pair, whatever the allocator assigned, when
    the bound VC holds a flit; when the bound VC is empty nothing moves for
    the slot and the hold tables stay as they are.  Any flit the slot moves
    comes from the bound VC and goes to the bound output.  At the end of the
    cycle the entries of the expanded input are as at its start, and the
    slot moved no tail flit; or the slot moved the tail flit of the bound
    VC, the entries of the expanded input are cleared, and the entry of the
    expanded output was cleared with them when the slot was done. *)
Theorem hold_kept_until_tail (cfg : Config) (Allocate : gmap (Z * Z) Request → Z → Z)
    (r r' : Router) (input s : Z) :
  let ei := input * _input_speedup cfg + s in
  let eo := vget (_switch_hold_in r) ei in
  let vc := vget (_switch_hold_vc r) ei in
  0 ≤ input < _inputs cfg → 0 ≤ s < _input_speedup cfg →
  eo ≠ -1 →
  0 ≤ ei < Z.of_nat (length (_switch_hold_in r)) →
  0 ≤ ei < Z.of_nat (length (_switch_hold_vc r)) →
  0 ≤ eo < Z.of_nat (length (_switch_hold_out r)) →
  _Alloc cfg Allocate r = Ok r' →
  ∃ fast_path_vcs a r1 c1 st before evs after,
    build_requests cfg r = Ok (fast_path_vcs, a)
    ∧ resolve_slot cfg (reqs a) (Allocate (reqs a)) (vget fast_path_vcs input)
                   input s (r1, c1) = Ok (Continue st)
    ∧ trace r1 = trace r ++ before
    ∧ trace st.1 = trace r1 ++ evs
    ∧ trace r' = trace st.1 ++ after
    ∧ vget (_switch_hold_in r1) ei = eo
    ∧ vget (_switch_hold_vc r1) ei = vc
    ∧ pick_grant (reqs a) (Allocate (reqs a)) r1 input ei
      = Ok (if Empty (vget (_buf r1) input) vc then -1 else eo, vc)
    ∧ (Empty (vget (_buf r1) input) vc = true →
         evs = []
         ∧ _switch_hold_in st.1 = _switch_hold_in r1
         ∧ _switch_hold_vc st.1 = _switch_hold_vc r1
         ∧ _switch_hold_out st.1 = _switch_hold_out r1)
    ∧ (∀ i v f, EvRemoveFlit i v f ∈ evs → i = input ∧ v = vc)
    ∧ (∀ f o, EvCrossbarWrite f o ∈ evs → o = eo)
    ∧ ((vget (_switch_hold_in r') ei = eo ∧ vget (_switch_hold_vc r') ei = vc
        ∧ ∀ i v f, EvRemoveFlit i v f ∈ evs → f_tail f = false)
       ∨ (∃ f, EvRemoveFlit input vc f ∈ evs ∧ f_tail f = true
            ∧ vget (_switch_hold_in r') ei = -1
            ∧ vget (_switch_hold_vc r') ei = -1
            ∧ vget (_switch_hold_out st.1) eo = -1)).
Proof.
  intros ei eo vc Hin Hs Hne Hri Hrv Hro. unfold _Alloc.
  destruct (build_requests cfg r) as [[fvcs a]|w] eqn:Hbuild; cbn [mbind result_bind];
    [|discriminate].
  unfold resolve_grants. intros Hrun.
  set (requests := reqs a) in *. set (OA := Allocate requests) in *.
  set (r0 := emit (emit r (calls a)) [EvCrossbarWriteAllNull]) in *.
  rewrite (seqZ_split (_inputs cfg) input Hin) in Hrun.
  apply for_loop_split in Hrun as (ra & rb & Hpre & Hinput & Hpost);
    [|intros j s1 c; apply resolve_input_continues].
  (* the inputs before *)
  apply (resolve_inputs_other cfg requests OA fvcs input s) in Hpre;
    [|done|intros Hel%elem_of_seqZ; lia].
  destruct Hpre as ((evA & HtrA) & HliA & HlvA & HloA & HiA & HvA).
  fold ei in HiA, HvA.
  (* the inputs after *)
  apply (resolve_inputs_other cfg requests OA fvcs input s) in Hpost;
    [|done|intros Hel%elem_of_seqZ; lia].
  destruct Hpost as ((evB & HtrB) & _ & _ & _ & HiB & HvB).
  fold ei in HiB, HvB.
  (* the input itself *)
  unfold resolve_input in Hinput.
  destruct (for_loop (resolve_slot cfg requests OA _ input) _ _)
    as [[r2 c2]|w] eqn:Hloop; cbn [mbind result_bind] in Hinput; [|discriminate].
  injection Hinput as <-.
  rewrite (seqZ_split (_input_speedup cfg) s Hs) in Hloop.
  apply for_loop_split in Hloop as ([r1 c1] & st & Hs1 & Hslot & Hs2);
    [|intros j s1 c; apply resolve_slot_continues].
  apply (resolve_slots_other cfg requests OA _ input input s) in Hs1;
    [|done|intros s' Hs'%elem_of_seqZ; split; lia].
  destruct Hs1 as ((evC & HtrC) & HliC & HlvC & HloC & HiC & HvC).
  cbn [fst] in HtrC, HliC, HlvC, HloC, HiC, HvC. fold ei in HiC, HvC.
  apply (resolve_slots_other cfg requests OA _ input input s) in Hs2;
    [|done|intros s' Hs'%elem_of_seqZ; split; lia].
  destruct Hs2 as ((evD & HtrD) & _ & _ & _ & HiD & HvD).
  cbn [fst] in HtrD, HiD, HvD. fold ei in HiD, HvD.
  assert (Hi1 : vget (_switch_hold_in r1) ei = eo) by (by rewrite HiC, HiA).
  assert (Hv1 : vget (_switch_hold_vc r1) ei = vc) by (by rewrite HvC, HvA).
  assert (Hl0 : length (_switch_hold_in r0) = length (_switch_hold_in r)
                ∧ length (_switch_hold_vc r0) = length (_switch_hold_vc r)
                ∧ length (_switch_hold_out r0) = length (_switch_hold_out r)) by done.
  destruct Hl0 as (Hl0i & Hl0v & Hl0o).
  destruct (resolve_slot_held cfg requests OA (vget fvcs input) input s r1 c1
              (Continue st) eo vc Hi1 Hne Hv1
              ltac:(fold ei; rewrite HliC, HliA, Hl0i; exact Hri)
              ltac:(fold ei; rewrite HlvC, HlvA, Hl0v; exact Hrv)
              ltac:(rewrite HloC, HloA, Hl0o; exact Hro) Hslot)
    as (Hpick & Hempty & evs & Htr & Hrem & Hxbar & Hend).
  cbn [ctl_state] in Hempty, Htr, Hend. fold ei in Hpick, Hend.
  exists fvcs, a, r1, c1, st, (calls a ++ [EvCrossbarWriteAllNull] ++ evA ++ evC), evs,
         (evD ++ [EvCreditWrite c2 input] ++ evB).
  split; [done|]. split; [exact Hslot|].
  split. { rewrite HtrC, HtrA. unfold r0. cbn [trace emit]. by rewrite <- !app_assoc. }
  split; [exact Htr|].
  split. { rewrite HtrB. cbn [trace emit]. rewrite HtrD. by rewrite <- !app_assoc. }
  split; [exact Hi1|]. split; [exact Hv1|]. split; [exact Hpick|].
  split.
  { intros He. destruct (Hempty He) as (Htr0 & Hrest). split; [|exact Hrest].
    rewrite Htr0 in Htr. rewrite <- (app_nil_r (trace r1)) in Htr at 1.
    by apply app_inv_head in Htr. }
  split; [exact Hrem|]. split; [exact Hxbar|].
  assert (Hi' : vget (_switch_hold_in r') ei = vget (_switch_hold_in st.1) ei).
  { rewrite HiB. cbn [_switch_hold_in emit]. exact HiD. }
  assert (Hv' : vget (_switch_hold_vc r') ei = vget (_switch_hold_vc st.1) ei).
  { rewrite HvB. cbn [_switch_hold_vc emit]. exact HvD. }
  rewrite Hi', Hv'. exact Hend.
Qed.

Lemma hold_kept_until_tail_witness :
  ∃ r', _Alloc cfg_held (greedy_for cfg_held) router_held = Ok r'
    ∧ vget (_switch_hold_in r') 1 = 1 ∧ vget (_switch_hold_vc r') 1 = 0
    ∧ let ei := 1 * _input_speedup cfg_held + 0 in
      let eo := vget (_switch_hold_in router_held) ei in
      let vc := vget (_switch_hold_vc router_held) ei in
      ∃ fast_path_vcs a r1 c1 st before evs after,
        build_requests cfg_held router_held = Ok (fast_path_vcs, a)
        ∧ resolve_slot cfg_held (reqs a) (greedy_for cfg_held (reqs a))
                       (vget fast_path_vcs 1) 1 0 (r1, c1) = Ok (Continue st)
        ∧ trace r1 = trace router_held ++ before
        ∧ trace st.1 = trace r1 ++ evs
        ∧ trace r' = trace st.1 ++ after
        ∧ vget (_switch_hold_in r1) ei = eo
        ∧ vget (_switch_hold_vc r1) ei = vc
        ∧ pick_grant (reqs a) (greedy_for cfg_held (reqs a)) r1 1 ei
          = Ok (if Empty (vget (_buf r1) 1) vc then -1 else eo, vc)
        ∧ (Empty (vget (_buf r1) 1) vc = true →
             evs = []
             ∧ _switch_hold_in st.1 = _switch_hold_in r1
             ∧ _switch_hold_vc st.1 = _switch_hold_vc r1
             ∧ _switch_hold_out st.1 = _switch_hold_out r1)
        ∧ (∀ i v f, EvRemoveFlit i v f ∈ evs → i = 1 ∧ v = vc)
        ∧ (∀ f o, EvCrossbarWrite f o ∈ evs → o = eo)
        ∧ ((vget (_switch_hold_in r') ei = eo ∧ vget (_switch_hold_vc r') ei = vc
            ∧ ∀ i v f, EvRemoveFlit i v f ∈ evs → f_tail f = false)
           ∨ (∃ f, EvRemoveFlit 1 vc f ∈ evs ∧ f_tail f = true
                ∧ vget (_switch_hold_in r') ei = -1
                ∧ vget (_switch_hold_vc r') ei = -1
                ∧ vget (_switch_hold_out st.1) eo = -1)).
Proof.
  eexists. split; [vm_compute; reflexivity|].
  split; [reflexivity|]. split; [reflexivity|].
  apply (hold_kept_until_tail cfg_held (greedy_for cfg_held) router_held _ 1 0);
    [simpl; lia | simpl; lia | vm_compute; discriminate
    | vm_compute; split; [discriminate|reflexivity]
    | vm_compute; split; [discriminate|reflexivity]
    | vm_compute; split; [discriminate|reflexivity]
    | vm_compute; reflexivity].
Defined.

(** The entry of the expanded output is another matter.  The fast path does
    not read the hold tables (lines 241-387), so it can request a held
    output for another input.  In [router_contended] input 0 is bound to
    output 1 and moves a body flit; input 1 is granted output 1 as well and
    moves a tail flit there, which clears the entry of output 1.  The
    entries of input 0 are as before; its tail flit has not moved. *)
Lemma held_output_granted_to_another_input :
  ∃ r', _Alloc cfg_held (greedy_for cfg_held) router_contended = Ok r'
    ∧ _switch_hold_in router_contended = [1; -1]
    ∧ _switch_hold_vc router_contended = [0; -1]
    ∧ _switch_hold_out router_contended = [-1; 0]
    ∧ _switch_hold_in r' = [1; -1]
    ∧ _switch_hold_vc r' = [0; -1]
    ∧ _switch_hold_out r' = [-1; -1]
    ∧ omap crossbar_output (trace r') = [1; 1]
    ∧ omap (fun e => match e with
                     | EvRemoveFlit i v f => Some (i, v, f_tail f)
                     | _ => None
                     end) (trace r') = [(0, 0, false); (1, 0, true)].
Proof.
  eexists. split; [vm_compute; reflexivity|]. by repeat split.
Qed.
